(** * DPX reader plugin (dpxinput.cpp): a shallow embedding and its properties

    The development follows [src/dpx.imageio/dpxinput.cpp]: the [lookup]
    helper, the static tables, [DPXInput::seek_subimage],
    [DPXInput::get_keycode_values], [DPXInput::get_timecode_string],
    [DPXInput::read_native_scanlines], [open] and [close].

    The decoder object is a record; its member functions run in a small
    state monad over that record, in which a failed [OIIO_ASSERT] stops the
    computation.  What libdpx, [ImageSpec] or [Strutil] provides is a field
    of the parsed header (the accessor's result), a member of the
    [Externals] record, or a small definition whose comment says that it is
    modelled from the specification because its code is outside this file. *)

From Stdlib Require Import ZArith Ascii String List Bool Lia.
From Stdlib Require Import DecimalString DecimalZ DecimalPos.
From Stdlib Require Import Floats.SpecFloat.
From stdpp Require Import base decidable option list strings gmap.

Local Open Scope string_scope.
Local Open Scope Z_scope.

(** ** Numbers of the C++ code *)

(** A [float] (libdpx's [R32]) is an IEEE 754 binary32 number: 24 bits of
    precision, infinities at exponent 128.  NaN payloads are not kept. *)
Module F32.
Definition prec : Z := 24.
Definition emax : Z := 128.
Definition t := spec_float.

Definition isnan (x : t) : bool :=
  match x with S754_nan => true | _ => false end.

Definition is_zero (x : t) : bool :=
  match x with S754_zero _ => true | _ => false end.

(** [(float)n] for an integer [n]: rounded to nearest, ties to even. *)
Definition of_Z (n : Z) : t := binary_normalize prec emax n 0 false.

Definition one : t := of_Z 1.
Definition div (x y : t) : t := SFdiv prec emax x y.
Definition eqb (x y : t) : bool := SFeqb x y.

Definition t_eq_dec : forall x y : t, {x = y} + {x <> y}.
Proof.
  decide equality; first [apply Bool.bool_dec | apply Z.eq_dec | apply Pos.eq_dec].
Defined.
End F32.

#[global] Instance f32_eq_dec : EqDecision F32.t := F32.t_eq_dec.

(** [(int)u] for a 32-bit unsigned [u]: two's complement wrap-around. *)
Definition to_int32 (u : Z) : Z :=
  let w := u mod 2 ^ 32 in
  if w <? 2 ^ 31 then w else w - 2 ^ 32.

Definition INT_MAX : Z := 2 ^ 31 - 1.
Definition UNSET_U32 : Z := 0xFFFFFFFF.
Definition UNSET_U8 : Z := 0xFF.

(** ** Characters and fixed-length header strings *)

Definition NUL : ascii := "000"%char.
Definition CHAR_FF : ascii := "255"%char.   (* (char)0xFF, char(-1) *)

(** A header string field is a [char] array of fixed size.  It is kept as
    the string of its bytes; a string shorter than the field stands for the
    field padded with NUL bytes. *)
Fixpoint nuls (n : nat) : string :=
  match n with O => EmptyString | S k => String NUL (nuls k) end.

Fixpoint take_chars (n : nat) (s : string) : string :=
  match n, s with
  | O, _ => EmptyString
  | S k, EmptyString => String NUL (take_chars k EmptyString)
  | S k, String c r => String c (take_chars k r)
  end.

(** [field[0]] *)
Definition first_char (s : string) : ascii :=
  match s with EmptyString => NUL | String c _ => c end.

(** The C string held by a buffer: the characters before the first NUL. *)
Fixpoint c_str (s : string) : string :=
  match s with
  | EmptyString => EmptyString
  | String c r => if Ascii.eqb c NUL then EmptyString else String c (c_str r)
  end.

(** [std::string(p, n)]: exactly [n] characters, NULs included. *)
Definition std_string_n (field : string) (n : nat) : string := take_chars n field.

(** [buf[i] = c] on a character buffer; nothing happens out of range in the
    model (the source only writes inside its 24-byte buffers). *)
Fixpoint set_char (i : nat) (c : ascii) (s : string) : string :=
  match s, i with
  | EmptyString, _ => EmptyString
  | String _ r, O => String c r
  | String d r, S k => String d (set_char k c r)
  end.

(** ** Enumerations of libdpx (DPXHeader.h)

    Each type has the enumerators the plugin names, and one more constructor
    for a stored code that none of them names. *)

Inductive DataSize :=
  | kByte | kWord | kInt | kFloat | kDouble
  | DataSizeCode (code : Z).

Inductive Descriptor :=
  | kUserDefinedDescriptor
  | kRed | kGreen | kBlue | kAlpha | kLuma | kColorDifference | kDepth
  | kCompositeVideo
  | kRGB | kRGBA | kABGR
  | kCbYCrY | kCbYACrYA | kCbYCr | kCbYCrA
  | kUserDefined2Comp | kUserDefined3Comp | kUserDefined4Comp
  | kUserDefined5Comp | kUserDefined6Comp | kUserDefined7Comp
  | kUserDefined8Comp
  | DescriptorCode (code : Z).

Inductive Orientation :=
  | kLeftToRightTopToBottom | kRightToLeftTopToBottom
  | kLeftToRightBottomToTop | kRightToLeftBottomToTop
  | kTopToBottomLeftToRight | kTopToBottomRightToLeft
  | kBottomToTopLeftToRight | kBottomToTopRightToLeft
  | OrientationCode (code : Z).

Inductive Characteristic :=
  | kUserDefined | kPrintingDensity | kLinear | kLogarithmic
  | kUnspecifiedVideo | kSMPTE274M | kITUR709 | kITUR601 | kITUR602
  | kNTSCCompositeVideo | kPALCompositeVideo | kZLinear | kZHomogeneous
  | kADX | kUndefinedCharacteristic
  | CharacteristicCode (code : Z).

Inductive Encoding :=
  | kRLE
  | EncodingCode (code : Z).

Inductive Packing :=
  | kPacked | kFilledMethodA | kFilledMethodB
  | PackingCode (code : Z).

Inductive VideoSignal :=
  | kUndefined | kNTSC | kPAL | kPAL_M | kSECAM
  | k525LineInterlace43AR | k625LineInterlace43AR
  | k525LineInterlace169AR | k625LineInterlace169AR
  | k1050LineInterlace169AR | k1125LineInterlace169AR_274
  | k1250LineInterlace169AR | k1125LineInterlace169AR_240
  | k525LineProgressive169AR | k625LineProgressive169AR
  | k750LineProgressive169AR | k1125LineProgressive169AR
  | k255
  | VideoSignalCode (code : Z).

#[global] Instance DataSize_eq_dec : EqDecision DataSize.
Proof. solve_decision. Defined.
#[global] Instance Descriptor_eq_dec : EqDecision Descriptor.
Proof. solve_decision. Defined.
#[global] Instance Orientation_eq_dec : EqDecision Orientation.
Proof. solve_decision. Defined.
#[global] Instance Characteristic_eq_dec : EqDecision Characteristic.
Proof. solve_decision. Defined.
#[global] Instance Encoding_eq_dec : EqDecision Encoding.
Proof. solve_decision. Defined.
#[global] Instance Packing_eq_dec : EqDecision Packing.
Proof. solve_decision. Defined.
#[global] Instance VideoSignal_eq_dec : EqDecision VideoSignal.
Proof. solve_decision. Defined.

(** ** The parsed header

    [dpx::Header] lives in libdpx; the plugin only calls its accessors and
    reads its public fields.  The record keeps, under the accessor's or
    field's name, what each of them returns. *)

(** What the per-element accessors [X(element)] return for one element. *)
Record ImageElement := {
  el_ComponentDataSize : DataSize;
  el_DataSign : Z;
  el_ImageElementComponentCount : Z;
  el_ImageDescriptor : Descriptor;
  el_BitDepth : Z;
  el_Transfer : Characteristic;
  el_Colorimetric : Characteristic;
  el_ImageEncoding : Encoding;
  el_Description : string;
  el_LowData : Z;
  el_LowQuantity : F32.t;
  el_HighData : Z;
  el_HighQuantity : F32.t;
  el_EndOfLinePadding : Z;
  el_EndOfImagePadding : Z;
  el_ImagePacking : Packing
}.

Module Header.
Record t := {
  chan : Z -> ImageElement;
  ImageElementCount : Z;
  Width : Z;
  Height : Z;
  xOffset : Z;
  yOffset : Z;
  xOriginalSize : Z;
  yOriginalSize : Z;
  ImageOrientation : Orientation;
  Gamma : F32.t;
  AspectRatio : Z -> Z;
  copyright : string;
  creator : string;
  project : string;
  creationTimeDate : string;
  sourceTimeDate : string;
  EncryptKey : Z;
  DittoKey : Z;
  XScannedSize : F32.t;
  YScannedSize : F32.t;
  FramePosition : Z;
  SequenceLength : Z;
  HeldCount : Z;
  FrameRate : F32.t;
  ShutterAngle : F32.t;
  version : string;
  format : string;
  frameId : string;
  slateInfo : string;
  sourceImageFileName : string;
  inputDevice : string;
  inputDeviceSerialNumber : string;
  Interlace : Z;
  FieldNumber : Z;
  HorizontalSampleRate : F32.t;
  VerticalSampleRate : F32.t;
  TemporalFrameRate : F32.t;
  TimeOffset : F32.t;
  BlackLevel : F32.t;
  BlackGain : F32.t;
  BreakPoint : F32.t;
  WhiteLevel : F32.t;
  IntegrationTimes : F32.t;
  filmManufacturingIdCode : string;
  filmType : string;
  prefix : string;
  count : string;
  perfsOffset : string;
  timeCode : Z;
  userBits : Z;
  FilmEdgeCode : string;
  Signal : VideoSignal;
  UserSize : Z
}.

Definition ComponentDataSize (h : t) (i : Z) := el_ComponentDataSize (chan h i).
Definition DataSign (h : t) (i : Z) := el_DataSign (chan h i).
Definition ImageElementComponentCount (h : t) (i : Z) :=
  el_ImageElementComponentCount (chan h i).
Definition ImageDescriptor (h : t) (i : Z) := el_ImageDescriptor (chan h i).
Definition BitDepth (h : t) (i : Z) := el_BitDepth (chan h i).
Definition Transfer (h : t) (i : Z) := el_Transfer (chan h i).
Definition Colorimetric (h : t) (i : Z) := el_Colorimetric (chan h i).
Definition ImageEncoding (h : t) (i : Z) := el_ImageEncoding (chan h i).
Definition Description (h : t) (i : Z) := el_Description (chan h i).
Definition LowData (h : t) (i : Z) := el_LowData (chan h i).
Definition LowQuantity (h : t) (i : Z) := el_LowQuantity (chan h i).
Definition HighData (h : t) (i : Z) := el_HighData (chan h i).
Definition HighQuantity (h : t) (i : Z) := el_HighQuantity (chan h i).
Definition EndOfLinePadding (h : t) (i : Z) := el_EndOfLinePadding (chan h i).
Definition EndOfImagePadding (h : t) (i : Z) := el_EndOfImagePadding (chan h i).
Definition ImagePacking (h : t) (i : Z) := el_ImagePacking (chan h i).
End Header.

(** ** ImageSpec and its attribute store *)

Inductive TypeDesc :=
  | UNKNOWN | UINT8 | INT8 | UINT16 | INT16 | UINT32 | INT32 | FLOAT | DOUBLE.

(** The typed value of one attribute, by the overload of
    [ImageSpec::attribute] that stored it. *)
Inductive AttrValue :=
  | AInt (v : Z)
  | AUInt (v : Z)
  | AFloat (v : F32.t)
  | AString (v : string)
  | AKeyCode (kc : list Z)                       (* TypeKeyCode: int[7] *)
  | ATimeCode (timecode : Z * Z)                 (* TypeTimeCode: uint[2] *)
  | AUCharArray (arraylen : Z) (data : list Byte.byte).

#[global] Instance TypeDesc_eq_dec : EqDecision TypeDesc.
Proof. solve_decision. Defined.
#[global] Instance byte_eq_dec : EqDecision Byte.byte := Byte.byte_eq_dec.
#[global] Instance AttrValue_eq_dec : EqDecision AttrValue.
Proof. solve_decision. Defined.

Module ImageSpec.
Record t := {
  x : Z;
  y : Z;
  width : Z;
  height : Z;
  full_width : Z;
  full_height : Z;
  nchannels : Z;
  format : TypeDesc;
  channelnames : list string;
  alpha_channel : Z;
  z_channel : Z;
  extra_attribs : gmap string AttrValue
}.

Definition set_x (v : Z) (s : t) : t :=
  Build_t v (y s) (width s) (height s) (full_width s) (full_height s)
    (nchannels s) (format s) (channelnames s) (alpha_channel s) (z_channel s)
    (extra_attribs s).
Definition set_y (v : Z) (s : t) : t :=
  Build_t (x s) v (width s) (height s) (full_width s) (full_height s)
    (nchannels s) (format s) (channelnames s) (alpha_channel s) (z_channel s)
    (extra_attribs s).
Definition set_full_width (v : Z) (s : t) : t :=
  Build_t (x s) (y s) (width s) (height s) v (full_height s)
    (nchannels s) (format s) (channelnames s) (alpha_channel s) (z_channel s)
    (extra_attribs s).
Definition set_full_height (v : Z) (s : t) : t :=
  Build_t (x s) (y s) (width s) (height s) (full_width s) v
    (nchannels s) (format s) (channelnames s) (alpha_channel s) (z_channel s)
    (extra_attribs s).
Definition set_nchannels (v : Z) (s : t) : t :=
  Build_t (x s) (y s) (width s) (height s) (full_width s) (full_height s)
    v (format s) (channelnames s) (alpha_channel s) (z_channel s)
    (extra_attribs s).
Definition set_channelnames (v : list string) (s : t) : t :=
  Build_t (x s) (y s) (width s) (height s) (full_width s) (full_height s)
    (nchannels s) (format s) v (alpha_channel s) (z_channel s)
    (extra_attribs s).
Definition set_alpha_channel (v : Z) (s : t) : t :=
  Build_t (x s) (y s) (width s) (height s) (full_width s) (full_height s)
    (nchannels s) (format s) (channelnames s) v (z_channel s)
    (extra_attribs s).
Definition set_z_channel (v : Z) (s : t) : t :=
  Build_t (x s) (y s) (width s) (height s) (full_width s) (full_height s)
    (nchannels s) (format s) (channelnames s) (alpha_channel s) v
    (extra_attribs s).
Definition set_extra_attribs (v : gmap string AttrValue) (s : t) : t :=
  Build_t (x s) (y s) (width s) (height s) (full_width s) (full_height s)
    (nchannels s) (format s) (channelnames s) (alpha_channel s) (z_channel s)
    v.

(** Modelled from the spec: [ImageSpec::attribute] (imageio.h is not part of
    the sources).  The spec speaks of the metadata set the decoder
    populates, in which an attribute is present with a value or absent:
    [attribute] adds the named entry or replaces its value. *)
Definition attribute (name : string) (v : AttrValue) (s : t) : t :=
  set_extra_attribs (<[name := v]> (extra_attribs s)) s.

Definition find_attribute (name : string) (s : t) : option AttrValue :=
  extra_attribs s !! name.

(** [channelnames.emplace_back(n)], [channelnames.push_back(n)] *)
Definition emplace_back (n : string) (s : t) : t :=
  set_channelnames (channelnames s ++ [n]) s.
End ImageSpec.

(** ** What the plugin takes from outside the file *)

(** [dpx::Block(x1, y1, x2, y2)] *)
Record Block := { x1 : Z; y1 : Z; x2 : Z; y2 : Z }.

(** [Imf::TimeCode] (OpenEXR), seen through the accessors the plugin calls. *)
Record TimeCode := {
  hours : Z;
  minutes : Z;
  seconds : Z;
  frame : Z;
  dropFrame : bool
}.

(** The functions of OpenImageIO, libdpx and OpenEXR that the plugin calls
    and whose code is elsewhere.  [default_channel_names] reads [nchannels]
    and gives the channel names, [alpha_channel] and [z_channel]; the two
    colour space functions act on the attribute store, and leave the
    attributes in the plugin's own ["dpx:"] name space alone. *)
Record Externals := {
  stoi : string -> Z;
  default_channel_names : Z -> list string * Z * Z;
  set_colorspace :
    string -> gmap string AttrValue -> gmap string AttrValue;
  set_colorspace_rec709_gamma :
    F32.t -> gmap string AttrValue -> gmap string AttrValue;
  mk_TimeCode : Z -> Z -> TimeCode;
  QueryRGBBufferSize : Header.t -> Z -> Block -> Z;
  ConvertToRGB :
    Header.t -> Z -> list Byte.byte -> Block -> option (list Byte.byte);
  set_colorspace_dpx : forall name attrs key,
    String.prefix "dpx:" key = true ->
    set_colorspace name attrs !! key = attrs !! key;
  set_colorspace_rec709_gamma_dpx : forall g attrs key,
    String.prefix "dpx:" key = true ->
    set_colorspace_rec709_gamma g attrs !! key = attrs !! key
}.

(** Modelled from the spec: the stream behind [dpx::Reader] (libdpx is not
    part of the sources), as the three reads the plugin asks for: the header
    that [ReadHeader] parses (none on a bad magic number or a truncated
    header), the bytes found at the user data block, and the packed bytes of
    a block of scanlines of an element (none on a short read). *)
Record InStream := {
  stream_header : option Header.t;
  stream_user_data : list Byte.byte;
  stream_block : Z -> Block -> option (list Byte.byte)
}.

(** Calls into the stream, in the order they were made. *)
Inductive IOEvent :=
  | EvReadHeader
  | EvReadUserData (size : Z)
  | EvReadBlock (element : Z) (block : Block)
  | EvConvertToRGB (element : Z) (block : Block).

(** ** The decoder object *)

Record DPXInput := {
  m_subimage : Z;
  m_stream : option InStream;
  m_dpx_header : Header.t;
  m_userBuf : list Byte.byte;
  m_rawcolor : bool;
  m_decodebuf : list Byte.byte;
  m_spec : ImageSpec.t;          (* ImageInput::m_spec *)
  errors : list string;          (* messages passed to errorfmt *)
  io_log : list IOEvent
}.

Definition set_m_subimage (v : Z) (s : DPXInput) : DPXInput :=
  Build_DPXInput v (m_stream s) (m_dpx_header s) (m_userBuf s) (m_rawcolor s)
    (m_decodebuf s) (m_spec s) (errors s) (io_log s).
Definition set_m_stream (v : option InStream) (s : DPXInput) : DPXInput :=
  Build_DPXInput (m_subimage s) v (m_dpx_header s) (m_userBuf s) (m_rawcolor s)
    (m_decodebuf s) (m_spec s) (errors s) (io_log s).
Definition set_m_dpx_header (v : Header.t) (s : DPXInput) : DPXInput :=
  Build_DPXInput (m_subimage s) (m_stream s) v (m_userBuf s) (m_rawcolor s)
    (m_decodebuf s) (m_spec s) (errors s) (io_log s).
Definition set_m_userBuf (v : list Byte.byte) (s : DPXInput) : DPXInput :=
  Build_DPXInput (m_subimage s) (m_stream s) (m_dpx_header s) v (m_rawcolor s)
    (m_decodebuf s) (m_spec s) (errors s) (io_log s).
Definition set_m_rawcolor (v : bool) (s : DPXInput) : DPXInput :=
  Build_DPXInput (m_subimage s) (m_stream s) (m_dpx_header s) (m_userBuf s) v
    (m_decodebuf s) (m_spec s) (errors s) (io_log s).
Definition set_m_decodebuf (v : list Byte.byte) (s : DPXInput) : DPXInput :=
  Build_DPXInput (m_subimage s) (m_stream s) (m_dpx_header s) (m_userBuf s)
    (m_rawcolor s) v (m_spec s) (errors s) (io_log s).
Definition set_m_spec (v : ImageSpec.t) (s : DPXInput) : DPXInput :=
  Build_DPXInput (m_subimage s) (m_stream s) (m_dpx_header s) (m_userBuf s)
    (m_rawcolor s) (m_decodebuf s) v (errors s) (io_log s).
Definition set_errors (v : list string) (s : DPXInput) : DPXInput :=
  Build_DPXInput (m_subimage s) (m_stream s) (m_dpx_header s) (m_userBuf s)
    (m_rawcolor s) (m_decodebuf s) (m_spec s) v (io_log s).
Definition set_io_log (v : list IOEvent) (s : DPXInput) : DPXInput :=
  Build_DPXInput (m_subimage s) (m_stream s) (m_dpx_header s) (m_userBuf s)
    (m_rawcolor s) (m_decodebuf s) (m_spec s) (errors s) v.

(** ** The monad of the member functions

    A member function takes the object and either returns a value with the
    object as it left it, or stops at a failed [OIIO_ASSERT] (which prints a
    diagnostic and, in debug builds, aborts). *)

Inductive result (A : Type) :=
  | Done (a : A) (s : DPXInput)
  | AssertionFailed.
Arguments Done {A} a s.
Arguments AssertionFailed {A}.

Definition M (A : Type) : Type := DPXInput -> result A.

Definition ret {A} (a : A) : M A := fun s => Done a s.

Definition bind {A B} (m : M A) (k : A -> M B) : M B :=
  fun s => match m s with
           | Done a s' => k a s'
           | AssertionFailed => AssertionFailed
           end.

Notation "x <- m ;; k" := (bind m (fun x => k))
  (at level 100, m at next level, right associativity).
Notation "m ;;; k" := (bind m (fun _ => k))
  (at level 100, right associativity).

Definition get : M DPXInput := fun s => Done s s.
Definition modify (f : DPXInput -> DPXInput) : M unit := fun s => Done tt (f s).

(** An assertion-guarded pure computation inside a member function. *)
Definition asserted {A} (o : option A) : M A :=
  fun s => match o with Some a => Done a s | None => AssertionFailed end.

(** [m_spec.f(...)] for a method [f] of [ImageSpec]. *)
Definition on_spec (f : ImageSpec.t -> ImageSpec.t) : M unit :=
  modify (fun s => set_m_spec (f (m_spec s)) s).

Definition errorfmt (msg : string) : M unit :=
  modify (fun s => set_errors (errors s ++ [msg]) s).

Definition log_io (e : IOEvent) : M unit :=
  modify (fun s => set_io_log (io_log s ++ [e]) s).

(** ** [lookup] and the static tables *)

(** Helper, given key and a span of (KEY,VAL) pairs, look up which item
    matches.  If no key is found, then return the defaultval.  The result is
    [None] when [OIIO_ASSERT(values.size() >= 2)] fails. *)
Definition lookup {KEY VAL : Type} `{EqDecision KEY}
    (key : KEY) (values : list (KEY * VAL)) (defaultval : VAL) : option VAL :=
  if decide (2 <= length values)%nat then
    let found := find (fun v => bool_decide (fst v = key)) values in
    Some (match found with
          | Some v => snd v
          | None => defaultval
          end)
  else None.

Definition orientation_table : list (Orientation * Z) :=
  [ (kLeftToRightTopToBottom, 1);
    (kRightToLeftTopToBottom, 2);
    (kLeftToRightBottomToTop, 4);
    (kRightToLeftBottomToTop, 3);
    (kTopToBottomLeftToRight, 5);
    (kTopToBottomRightToLeft, 6);
    (kBottomToTopLeftToRight, 8);
    (kBottomToTopRightToLeft, 7) ].

(** A [const char*] entry is [Some] of its characters, [nullptr] is [None]. *)
Definition signal_table : list (VideoSignal * option string) :=
  [ (kUndefined, Some "Undefined");
    (kNTSC, Some "NTSC");
    (kPAL, Some "PAL");
    (kPAL_M, Some "PAL-M");
    (kSECAM, Some "SECAM");
    (k525LineInterlace43AR, Some "YCbCr ITU-R 601-5 525i, 4:3");
    (k625LineInterlace43AR, Some "YCbCr ITU-R 601-5 625i, 4:3");
    (k525LineInterlace169AR, Some "YCbCr ITU-R 601-5 525i, 16:9");
    (k625LineInterlace169AR, Some "YCbCr ITU-R 601-5 625i, 16:9");
    (k1050LineInterlace169AR, Some "YCbCr 1050i, 16:9");
    (k1125LineInterlace169AR_274, Some "YCbCr 1125i, 16:9 (SMPTE 274M)");
    (k1250LineInterlace169AR, Some "YCbCr 1250i, 16:9");
    (k1125LineInterlace169AR_240, Some "YCbCr 1125i, 16:9 (SMPTE 240M)");
    (k525LineProgressive169AR, Some "YCbCr 525p, 16:9");
    (k625LineProgressive169AR, Some "YCbCr 625p, 16:9");
    (k750LineProgressive169AR, Some "YCbCr 750p, 16:9 (SMPTE 296M)");
    (k1125LineProgressive169AR, Some "YCbCr 1125p, 16:9 (SMPTE 274M)");
    (k255, None (* don't set the attribute at all *)) ].

Definition characteristic_table : list (Characteristic * string) :=
  [ (kUserDefined, "User defined");
    (kPrintingDensity, "Printing density");
    (kLinear, "Linear");
    (kLogarithmic, "Logarithmic");
    (kUnspecifiedVideo, "Unspecified video");
    (kSMPTE274M, "SMPTE 274M");
    (kITUR709, "ITU-R 709-4");
    (kITUR601, "ITU-R 601-5 system B or G");
    (kITUR602, "ITU-R 601-5 system M");
    (kNTSCCompositeVideo, "NTSC composite video");
    (kPALCompositeVideo, "PAL composite video");
    (kZLinear, "Z depth linear");
    (kZHomogeneous, "Z depth homogeneous");
    (kADX, "ADX");
    (kUndefinedCharacteristic, "Undefined") ].

Definition get_characteristic_string (c : Characteristic) : option string :=
  lookup c characteristic_table "Undefined".

Definition descriptor_table : list (Descriptor * string) :=
  [ (kUserDefinedDescriptor, "User defined");
    (kUserDefined2Comp, "User defined");
    (kUserDefined3Comp, "User defined");
    (kUserDefined4Comp, "User defined");
    (kUserDefined5Comp, "User defined");
    (kUserDefined6Comp, "User defined");
    (kUserDefined7Comp, "User defined");
    (kUserDefined8Comp, "User defined");
    (kRed, "Red");
    (kGreen, "Green");
    (kBlue, "Blue");
    (kAlpha, "Alpha");
    (kLuma, "Luma");
    (kColorDifference, "Color difference");
    (kDepth, "Depth");
    (kCompositeVideo, "Composite video");
    (kRGB, "RGB");
    (kRGBA, "RGBA");
    (kABGR, "ABGR");
    (kCbYCrY, "CbYCrY");
    (kCbYACrYA, "CbYACrYA");
    (kCbYCr, "CbYCr");
    (kCbYCrA, "CbYCrA") ].

Definition get_descriptor_string (c : Descriptor) : option string :=
  lookup c descriptor_table "Undefined".

(** ** Key code and time code *)

(** [string_view(p, n)] *)
Definition string_view (p : string) (n : nat) : string := take_chars n p.

(** Modelled from the spec: [Strutil::starts_with] (strutil.h is not part of
    the sources), the spec's prefix match: does [a] begin with [b]? *)
Definition starts_with (a b : string) : bool := String.prefix b a.

(** [format == "literal"]: equal length and equal characters. *)
Definition string_eq (a b : string) : bool := String.eqb a b.

(** The two perforation constants, from the 32 characters of the format
    field. *)
Definition perfs_of_format (format : string) : Z * Z :=
  let perfsPerFrame := 4 in  (* default values *)
  let perfsPerCount := 64 in
  if string_eq format "8kimax" then (15, 120)
  else if starts_with format "2kvv" || starts_with format "4kvv"
  then (8, perfsPerCount)
  else if string_eq format "VistaVision" then (8, perfsPerCount)
  else if starts_with format "2k35" || starts_with format "4k35"
  then (4, perfsPerCount)
  else if string_eq format "Full Aperture" then (4, perfsPerCount)
  else if string_eq format "Academy" then (4, perfsPerCount)
  else if starts_with format "2k3perf" || starts_with format "4k3perf"
  then (3, perfsPerCount)
  else if string_eq format "3perf" then (3, perfsPerCount)
  else (perfsPerFrame, perfsPerCount).

(** Helper function - fill int array with KeyCode values.  [None] when
    [OIIO_ASSERT(array.size() == 7)] fails. *)
Definition get_keycode_values (ext : Externals) (header : Header.t)
    (array : list Z) : option (list Z) :=
  if decide (length array = 7%nat) then
    (* Manufacturer code *)
    let array :=
      <[0%nat := stoi ext (string_view (Header.filmManufacturingIdCode header) 2)]>
        array in
    (* Film type *)
    let array := <[1%nat := stoi ext (string_view (Header.filmType header) 2)]> array in
    (* Prefix *)
    let array := <[2%nat := stoi ext (string_view (Header.prefix header) 6)]> array in
    (* Count *)
    let array := <[3%nat := stoi ext (string_view (Header.count header) 4)]> array in
    (* Perforation Offset *)
    let array := <[4%nat := stoi ext (string_view (Header.perfsOffset header) 2)]> array in
    (* Format *)
    let format := std_string_n (Header.format header) 32 in
    let '(perfsPerFrame, perfsPerCount) := perfs_of_format format in
    let array := <[5%nat := perfsPerFrame]> array in
    let array := <[6%nat := perfsPerCount]> array in
    Some array
  else None.

(** Decimal digits of an integer, as [fmt] prints it for ["{}"]. *)
Definition fmt_d (n : Z) : string := NilZero.string_of_int (Z.to_int n).

(** ["{:02d}"]: at least two characters, zeros after the sign. *)
Definition fmt_02d (n : Z) : string :=
  let s := fmt_d n in
  if (0 <=? n) && (String.length s <? 2)%nat then "0" ++ s else s.

(** Helper function - convert Imf::TimeCode to string *)
Definition get_timecode_string (tc : TimeCode) : string :=
  fmt_02d (hours tc) ++ ":" ++ fmt_02d (minutes tc) ++ ":"
  ++ fmt_02d (seconds tc)
  ++ String (if dropFrame tc then ";"%char else ":"%char) ""
  ++ fmt_02d (frame tc).

(** ** [seek_subimage] *)

(** Modelled from the spec: the constructor
    [ImageSpec(xres, yres, nchans, fmt)] (imageio.h is not part of the
    sources): origin at 0, full size equal to the size, default channel
    names, and an empty metadata set. *)
Definition ImageSpec_new (ext : Externals) (xres yres nchans : Z)
    (fmt : TypeDesc) : ImageSpec.t :=
  let '(names, alpha, z) := default_channel_names ext nchans in
  ImageSpec.Build_t 0 0 xres yres xres yres nchans fmt names alpha z ∅.

(** [m_spec.default_channel_names()] *)
Definition spec_default_channel_names (ext : Externals)
    (spec : ImageSpec.t) : ImageSpec.t :=
  let '(names, alpha, z) := default_channel_names ext (ImageSpec.nchannels spec) in
  ImageSpec.set_z_channel z
    (ImageSpec.set_alpha_channel alpha (ImageSpec.set_channelnames names spec)).

(** [m_spec.set_colorspace(name)] and [set_colorspace_rec709_gamma(m_spec, g)] *)
Definition spec_set_colorspace (ext : Externals) (name : string)
    (spec : ImageSpec.t) : ImageSpec.t :=
  ImageSpec.set_extra_attribs
    (set_colorspace ext name (ImageSpec.extra_attribs spec)) spec.

Definition spec_set_colorspace_rec709_gamma (ext : Externals) (g : F32.t)
    (spec : ImageSpec.t) : ImageSpec.t :=
  ImageSpec.set_extra_attribs
    (set_colorspace_rec709_gamma ext g (ImageSpec.extra_attribs spec)) spec.

(** [if (c) m_spec.f(...)] *)
Definition spec_if (c : bool) (f : ImageSpec.t -> ImageSpec.t)
    (spec : ImageSpec.t) : ImageSpec.t :=
  if c then f spec else spec.

(** The [DPX_SET_ATTRIB_*] macros.  [x] is the accessor's name, which the
    macro pastes after ["dpx:"], and [v] what the accessor returns. *)
Definition DPX_SET_ATTRIB_BYTE (x : string) (v : Z) : ImageSpec.t -> ImageSpec.t :=
  spec_if (negb (v =? 0xFF)) (ImageSpec.attribute ("dpx:" ++ x) (AInt v)).

Definition DPX_SET_ATTRIB_INT (x : string) (v : Z) : ImageSpec.t -> ImageSpec.t :=
  spec_if (negb (v =? 0xFFFFFFFF)) (ImageSpec.attribute ("dpx:" ++ x) (AUInt v)).

Definition DPX_SET_ATTRIB_INT_N := DPX_SET_ATTRIB_INT.

Definition DPX_SET_ATTRIB_FLOAT (x : string) (v : F32.t) : ImageSpec.t -> ImageSpec.t :=
  spec_if (negb (F32.isnan v)) (ImageSpec.attribute ("dpx:" ++ x) (AFloat v)).

Definition DPX_SET_ATTRIB_FLOAT_N := DPX_SET_ATTRIB_FLOAT.

(** [x[0] && x[0] != char(-1)] *)
Definition string_is_set (field : string) : bool :=
  negb (Ascii.eqb (first_char field) NUL)
  && negb (Ascii.eqb (first_char field) CHAR_FF).

Definition DPX_SET_ATTRIB_STR (X : string) (field : string) : ImageSpec.t -> ImageSpec.t :=
  spec_if (string_is_set field)
    (ImageSpec.attribute ("dpx:" ++ X) (AString (c_str field))).

(** [Strutil::safe_strcpy(date, src, 24); date[10] = ' '; date[19] = 0;]
    and the C string then read from [date]. *)
Definition date_string (src : string) : string :=
  let date := take_chars 24 (c_str (take_chars 23 src)) in
  let date := set_char 10 " "%char date in
  let date := set_char 19 NUL date in
  c_str date.

(** The component type of an element; [None] is the [default:] case. *)
Definition element_typedesc (header : Header.t) (subimage : Z) : option TypeDesc :=
  match Header.ComponentDataSize header subimage with
  | kByte => Some (if negb (Header.DataSign header subimage =? 0) then INT8 else UINT8)
  | kWord => Some (if negb (Header.DataSign header subimage =? 0) then INT16 else UINT16)
  | kInt => Some (if negb (Header.DataSign header subimage =? 0) then INT32 else UINT32)
  | kFloat => Some FLOAT
  | kDouble => Some DOUBLE
  | DataSizeCode _ => None
  end.

(** fill channel names *)
Definition fill_channel_names (ext : Externals) (header : Header.t)
    (subimage : Z) (rawcolor : bool) (spec : ImageSpec.t) : ImageSpec.t :=
  let spec := ImageSpec.set_channelnames [] spec in
  match Header.ImageDescriptor header subimage with
  | kRed => ImageSpec.emplace_back "R" spec
  | kGreen => ImageSpec.emplace_back "G" spec
  | kBlue => ImageSpec.emplace_back "B" spec
  | kAlpha => ImageSpec.set_alpha_channel 0 (ImageSpec.emplace_back "A" spec)
  | kLuma => ImageSpec.emplace_back "Y" spec
  | kDepth => ImageSpec.set_z_channel 0 (ImageSpec.emplace_back "Z" spec)
  | kRGB | kRGBA | kABGR => spec_default_channel_names ext spec
  | kCbYCrY =>
      if rawcolor then
        ImageSpec.emplace_back "Y" (ImageSpec.emplace_back "CbCr" spec)
      else spec_default_channel_names ext (ImageSpec.set_nchannels 3 spec)
  | kCbYACrYA =>
      if rawcolor then
        ImageSpec.set_alpha_channel 2
          (ImageSpec.emplace_back "A"
             (ImageSpec.emplace_back "Y" (ImageSpec.emplace_back "CbCr" spec)))
      else spec_default_channel_names ext (ImageSpec.set_nchannels 4 spec)
  | kCbYCr =>
      if rawcolor then
        ImageSpec.emplace_back "Cr"
          (ImageSpec.emplace_back "Y" (ImageSpec.emplace_back "Cb" spec))
      else spec_default_channel_names ext spec
  | kCbYCrA =>
      if rawcolor then
        ImageSpec.set_alpha_channel 3
          (ImageSpec.emplace_back "A"
             (ImageSpec.emplace_back "Cr"
                (ImageSpec.emplace_back "Y" (ImageSpec.emplace_back "Cb" spec))))
      else spec_default_channel_names ext spec
  | _ =>
      ImageSpec.set_channelnames
        (ImageSpec.channelnames spec
         ++ map (fun i => "channel" ++ fmt_d i)
              (seqZ 0 (Header.ImageElementComponentCount header subimage)))
        spec
  end.

(** image linearity *)
Definition image_linearity (ext : Externals) (header : Header.t)
    (subimage : Z) (spec : ImageSpec.t) : ImageSpec.t :=
  match Header.Transfer header subimage with
  | kLinear => spec_set_colorspace ext "Linear" spec
  | kLogarithmic => spec_set_colorspace ext "KodakLog" spec
  | kITUR709 => spec_set_colorspace ext "Rec709" spec
  | kUserDefined =>
      if negb (F32.isnan (Header.Gamma header))
         && negb (F32.eqb (Header.Gamma header) (F32.of_Z 0))
      then spec_set_colorspace_rec709_gamma ext (Header.Gamma header) spec
      else spec  (* intentional fall-through *)
  | _ => spec
  end.

(** [dpx:Packing] *)
Definition packing_string (p : Packing) : string :=
  match p with
  | kPacked => "Packed"
  | kFilledMethodA => "Filled, method A"
  | kFilledMethodB => "Filled, method B"
  | PackingCode _ => ""
  end.

Definition string_empty (s : string) : bool :=
  match s with EmptyString => true | _ => false end.

(** The attributes set through the [DPX_SET_ATTRIB_*] macros, in the order
    of the source. *)
Definition dpx_attribs (header : Header.t) (subimage : Z)
    (spec : ImageSpec.t) : ImageSpec.t :=
  let spec := DPX_SET_ATTRIB_INT "EncryptKey" (Header.EncryptKey header) spec in
  let spec := DPX_SET_ATTRIB_INT "DittoKey" (Header.DittoKey header) spec in
  let spec := DPX_SET_ATTRIB_INT_N "LowData" (Header.LowData header subimage) spec in
  let spec := DPX_SET_ATTRIB_FLOAT_N "LowQuantity" (Header.LowQuantity header subimage) spec in
  let spec := DPX_SET_ATTRIB_INT_N "HighData" (Header.HighData header subimage) spec in
  let spec := DPX_SET_ATTRIB_FLOAT_N "HighQuantity" (Header.HighQuantity header subimage) spec in
  let spec := DPX_SET_ATTRIB_INT_N "EndOfLinePadding" (Header.EndOfLinePadding header subimage) spec in
  let spec := DPX_SET_ATTRIB_INT_N "EndOfImagePadding" (Header.EndOfImagePadding header subimage) spec in
  let spec := DPX_SET_ATTRIB_FLOAT "XScannedSize" (Header.XScannedSize header) spec in
  let spec := DPX_SET_ATTRIB_FLOAT "YScannedSize" (Header.YScannedSize header) spec in
  let spec := DPX_SET_ATTRIB_INT "FramePosition" (Header.FramePosition header) spec in
  let spec := DPX_SET_ATTRIB_INT "SequenceLength" (Header.SequenceLength header) spec in
  let spec := DPX_SET_ATTRIB_INT "HeldCount" (Header.HeldCount header) spec in
  let spec := DPX_SET_ATTRIB_FLOAT "FrameRate" (Header.FrameRate header) spec in
  let spec := DPX_SET_ATTRIB_FLOAT "ShutterAngle" (Header.ShutterAngle header) spec in
  let spec := DPX_SET_ATTRIB_STR "Version" (Header.version header) spec in
  let spec := DPX_SET_ATTRIB_STR "Format" (Header.format header) spec in
  let spec := DPX_SET_ATTRIB_STR "FrameId" (Header.frameId header) spec in
  let spec := DPX_SET_ATTRIB_STR "SlateInfo" (Header.slateInfo header) spec in
  let spec := DPX_SET_ATTRIB_STR "SourceImageFileName" (Header.sourceImageFileName header) spec in
  let spec := DPX_SET_ATTRIB_STR "InputDevice" (Header.inputDevice header) spec in
  let spec := DPX_SET_ATTRIB_STR "InputDeviceSerialNumber" (Header.inputDeviceSerialNumber header) spec in
  let spec := DPX_SET_ATTRIB_BYTE "Interlace" (Header.Interlace header) spec in
  let spec := DPX_SET_ATTRIB_BYTE "FieldNumber" (Header.FieldNumber header) spec in
  let spec := DPX_SET_ATTRIB_FLOAT "HorizontalSampleRate" (Header.HorizontalSampleRate header) spec in
  let spec := DPX_SET_ATTRIB_FLOAT "VerticalSampleRate" (Header.VerticalSampleRate header) spec in
  let spec := DPX_SET_ATTRIB_FLOAT "TemporalFrameRate" (Header.TemporalFrameRate header) spec in
  let spec := DPX_SET_ATTRIB_FLOAT "TimeOffset" (Header.TimeOffset header) spec in
  let spec := DPX_SET_ATTRIB_FLOAT "BlackLevel" (Header.BlackLevel header) spec in
  let spec := DPX_SET_ATTRIB_FLOAT "BlackGain" (Header.BlackGain header) spec in
  let spec := DPX_SET_ATTRIB_FLOAT "BreakPoint" (Header.BreakPoint header) spec in
  let spec := DPX_SET_ATTRIB_FLOAT "WhiteLevel" (Header.WhiteLevel header) spec in
  let spec := DPX_SET_ATTRIB_FLOAT "IntegrationTimes" (Header.IntegrationTimes header) spec in
  spec.

(** Bytes of a buffer of [n] zero bytes after a read of [n] bytes into it
    delivered [src]. *)
Definition read_into (n : nat) (src : list Byte.byte) : list Byte.byte :=
  take n (src ++ replicate n Byte.x00).

(** The bytes [m_dpx.ReadUserData] finds in the stream. *)
Definition ReadUserData (s : DPXInput) : list Byte.byte :=
  match m_stream s with
  | Some f => stream_user_data f
  | None => []
  end.

Definition buf_empty {A} (l : list A) : bool :=
  match l with [] => true | _ => false end.

(** The statements of [seek_subimage] that build [m_spec] from the header
    (from [m_spec = ImageSpec(...)] to the [dpx:Signal] attribute).  They
    read the header and [m_rawcolor] and write [m_spec] alone, so they are
    kept as a function from the former to the latter; [None] is a failed
    assertion in [lookup] or [get_keycode_values]. *)
Definition subimage_spec (ext : Externals) (header : Header.t)
    (subimage : Z) (rawcolor : bool) (typedesc : TypeDesc) : option ImageSpec.t :=
  let spec :=
    ImageSpec_new ext (Header.Width header) (Header.Height header)
      (Header.ImageElementComponentCount header subimage) typedesc in
  (* xOffset/yOffset are defined as unsigned 32-bit integers, but m_spec.x/y
     are signed; avoid casts that would result in negative values *)
  let spec :=
    spec_if (Header.xOffset header <=? INT_MAX)
        (ImageSpec.set_x (Header.xOffset header)) spec in
  let spec :=
    spec_if (Header.yOffset header <=? INT_MAX)
        (ImageSpec.set_y (Header.yOffset header)) spec in
  let spec :=
    spec_if (to_int32 (Header.xOriginalSize header) >? 0)
        (ImageSpec.set_full_width (Header.xOriginalSize header)) spec in
  let spec :=
    spec_if (to_int32 (Header.yOriginalSize header) >? 0)
        (ImageSpec.set_full_height (Header.yOriginalSize header)) spec in
  let spec :=
    fill_channel_names ext header subimage rawcolor spec in
  (* bits per pixel *)
  let spec :=
    ImageSpec.attribute "oiio:BitsPerSample"
        (AInt (Header.BitDepth header subimage)) spec in
  (* image orientation *)
  orientation ← lookup (Header.ImageOrientation header) orientation_table 1;
  let spec :=
    ImageSpec.attribute "Orientation" (AInt orientation) spec in
  let spec :=
    ImageSpec.attribute "oiio:subimages"
        (AInt (Header.ImageElementCount header)) spec in
  let spec :=
    image_linearity ext header subimage spec in
  transfer ← get_characteristic_string (Header.Transfer header subimage);
  let spec :=
    ImageSpec.attribute "dpx:Transfer" (AString transfer) spec in
  (* colorimetric characteristic *)
  colorimetric ← get_characteristic_string (Header.Colorimetric header subimage);
  let spec :=
    ImageSpec.attribute "dpx:Colorimetric" (AString colorimetric) spec in
  (* general metadata *)
  let spec :=
    spec_if (string_is_set (Header.copyright header))
        (ImageSpec.attribute "Copyright"
           (AString (c_str (Header.copyright header)))) spec in
  let spec :=
    spec_if (string_is_set (Header.creator header))
        (ImageSpec.attribute "Software"
           (AString (c_str (Header.creator header)))) spec in
  let spec :=
    spec_if (string_is_set (Header.project header))
        (ImageSpec.attribute "DocumentName"
           (AString (c_str (Header.project header)))) spec in
  let spec :=
    spec_if (negb (Ascii.eqb (first_char (Header.creationTimeDate header)) NUL))
        (ImageSpec.attribute "DateTime"
           (AString (date_string (Header.creationTimeDate header)))) spec in
  let spec :=
    spec_if (bool_decide (Header.ImageEncoding header subimage = kRLE))
        (ImageSpec.attribute "compression" (AString "rle")) spec in
  let spec :=
    spec_if (string_is_set (Header.Description header subimage))
        (ImageSpec.attribute "ImageDescription"
           (AString (c_str (Header.Description header subimage)))) spec in
  let spec :=
    ImageSpec.attribute "PixelAspectRatio"
        (AFloat (if negb (Header.AspectRatio header 1 =? 0)
                 then F32.div (F32.of_Z (Header.AspectRatio header 0))
                              (F32.of_Z (Header.AspectRatio header 1))
                 else F32.one)) spec in
  (* DPX-specific metadata *)
  descriptor ← get_descriptor_string (Header.ImageDescriptor header subimage);
  let spec :=
    ImageSpec.attribute "dpx:ImageDescriptor" (AString descriptor) spec in
  let spec :=
    dpx_attribs header subimage spec in
  let tmpstr := packing_string (Header.ImagePacking header subimage) in
  let spec :=
    spec_if (negb (string_empty tmpstr))
        (ImageSpec.attribute "dpx:Packing" (AString tmpstr)) spec in
  spec ←
    (if negb (Ascii.eqb (first_char (Header.filmManufacturingIdCode header)) NUL)
     then
       kc ← get_keycode_values ext header (replicate 7 0);
       Some (ImageSpec.attribute "smpte:KeyCode" (AKeyCode kc) spec)
     else Some spec);
  let spec :=
    spec_if (negb (Header.timeCode header =? 0xFFFFFFFF))
      (fun spec =>
         let timecode := (Header.timeCode header, Header.userBits header) in
         let spec :=
           ImageSpec.attribute "smpte:TimeCode" (ATimeCode timecode) spec in
         (* This attribute is dpx specific and is left in for backwards
            compatibility. *)
         let tc :=
           mk_TimeCode ext (Header.timeCode header) (Header.userBits header) in
         ImageSpec.attribute "dpx:TimeCode" (AString (get_timecode_string tc)) spec)
      spec in
  let spec :=
    spec_if (negb (Header.userBits header =? 0xFFFFFFFF))
        (ImageSpec.attribute "dpx:UserBits" (AUInt (Header.userBits header))) spec in
  let spec :=
    spec_if (negb (Ascii.eqb (first_char (Header.sourceTimeDate header)) NUL))
        (ImageSpec.attribute "dpx:SourceDateTime"
           (AString (date_string (Header.sourceTimeDate header)))) spec in
  let spec :=
    spec_if (negb (Ascii.eqb (first_char (Header.FilmEdgeCode header)) NUL))
        (ImageSpec.attribute "dpx:FilmEdgeCode"
           (AString (c_str (Header.FilmEdgeCode header)))) spec in
  signal ← lookup (Header.Signal header) signal_table (Some "Undefined");
  let spec :=
    match signal with
    | Some str => ImageSpec.attribute "dpx:Signal" (AString str) spec
    | None => spec
    end in
  Some spec.

Definition seek_subimage (ext : Externals) (subimage miplevel : Z) : M bool :=
  if negb (miplevel =? 0) then ret false else
  s <- get ;;
  if subimage =? m_subimage s then ret true else
  let header := m_dpx_header s in
  if (subimage <? 0) || (subimage >=? Header.ImageElementCount header)
  then ret false else
  modify (set_m_subimage subimage) ;;;
  (* create imagespec *)
  match element_typedesc header subimage with
  | None => errorfmt "Invalid component data size" ;;; ret false
  | Some typedesc =>
  spec <- asserted (subimage_spec ext header subimage (m_rawcolor s) typedesc) ;;
  modify (set_m_spec spec) ;;;
  (* read in user data; don't bother if the buffer is already filled (user
     data is per-file, not per-element) *)
  s1 <- get ;;
  (if buf_empty (m_userBuf s1)
      && negb (Header.UserSize header =? 0)
      && negb (Header.UserSize header =? 0xFFFFFFFF)
   then
     modify (set_m_userBuf
               (read_into (Z.to_nat (Header.UserSize header)) (ReadUserData s1))) ;;;
     log_io (EvReadUserData (Header.UserSize header))
   else ret tt) ;;;
  s2 <- get ;;
  on_spec (spec_if (negb (buf_empty (m_userBuf s2)))
             (ImageSpec.attribute "dpx:UserData"
                (AUCharArray (Header.UserSize header) (m_userBuf s2)))) ;;;
  (* All of the 1-channel encoding options also behave like "rawcolor",
     not needing color space transformations. *)
  s3 <- get ;;
  (if ImageSpec.nchannels (m_spec s3) =? 1
   then modify (set_m_rawcolor true)
   else ret tt) ;;;
  ret true
  end.

(** ** The other member functions *)

Definition current_subimage : M Z := s <- get ;; ret (m_subimage s).

(** Reset everything to initial state *)
Definition init : M unit :=
  modify (set_m_subimage (-1)) ;;;
  s <- get ;;
  (match m_stream s with
   | Some _ => modify (set_m_stream None)
   | None => ret tt
   end) ;;;
  modify (set_m_userBuf []) ;;;
  modify (set_m_rawcolor false).

Definition close : M bool := init ;;; ret true.

(** The object [DPXInput()] constructs: [header0] is the header of a
    default-constructed [dpx::Reader], [spec0] the default [ImageSpec]. *)
Definition DPXInput_new (header0 : Header.t) (spec0 : ImageSpec.t) : DPXInput :=
  Build_DPXInput (-1) None header0 [] false [] spec0 [] [].

(** [m_dpx.ReadHeader()] *)
Definition ReadHeader : M bool :=
  log_io EvReadHeader ;;;
  s <- get ;;
  match m_stream s with
  | Some f =>
      match stream_header f with
      | Some h => modify (set_m_dpx_header h) ;;; ret true
      | None => ret false
      end
  | None => ret false
  end.

(** [open(name, newspec)]; [files] is what [ioproxy_use_or_open] finds under
    a name.  The second component is the value stored into [newspec]. *)
Definition open (ext : Externals) (files : string -> option InStream)
    (name : string) : M (bool * option ImageSpec.t) :=
  match files name with
  | None => ret (false, None)
  | Some f =>
      modify (set_m_stream (Some f)) ;;;
      hdr_ok <- ReadHeader ;;
      if negb hdr_ok then
        errorfmt "Could not read header" ;;;
        close ;;;
        ret (false, None)
      else
        ok <- seek_subimage ext 0 0 ;;
        if ok then
          s <- get ;;
          ret (true, Some (m_spec s))
        else
          close ;;;
          ret (false, None)
  end.

(** Modelled from the spec: [ImageSpec::get_int_attribute] on the
    configuration passed to [open] (imageio.h is not part of the sources):
    the integer held under a name, 0 when there is none. *)
Definition get_int_attribute (config : gmap string AttrValue) (name : string) : Z :=
  match config !! name with
  | Some (AInt v) => v
  | Some (AUInt v) => v
  | _ => 0
  end.

(** [open(name, newspec, config)] *)
Definition open_config (ext : Externals) (files : string -> option InStream)
    (name : string) (config : gmap string AttrValue)
    : M (bool * option ImageSpec.t) :=
  (* Check 'config' for any special requests *)
  modify (set_m_rawcolor
            (negb (get_int_attribute config "dpx:RawColor" =? 0)
             || negb (get_int_attribute config "dpx:RawData" =? 0)  (* deprecated *)
             || negb (get_int_attribute config "oiio:RawColor" =? 0))) ;;;
  open ext files name.

(** [m_dpx.ReadBlock(element, ptr, block)] *)
Definition ReadBlock (element : Z) (block : Block) : M (option (list Byte.byte)) :=
  log_io (EvReadBlock element block) ;;;
  s <- get ;;
  ret (match m_stream s with
       | Some f => stream_block f element block
       | None => None
       end).

(** [read_native_scanlines]; the second component is what ends up in
    [data] when the call succeeds. *)
Definition read_native_scanlines (ext : Externals)
    (subimage miplevel ybegin yend z : Z) : M (bool * option (list Byte.byte)) :=
  ok <- seek_subimage ext subimage miplevel ;;
  if negb ok then ret (false, None) else
  s <- get ;;
  let header := m_dpx_header s in
  let block :=
    Build_Block 0 (ybegin - ImageSpec.y (m_spec s)) (Header.Width header - 1)
      (yend - 1 - ImageSpec.y (m_spec s)) in
  if m_rawcolor s then
    (* fast path - just read the scanline in *)
    r <- ReadBlock subimage block ;;
    match r with
    | None => ret (false, None)
    | Some bytes => ret (true, Some bytes)
    end
  else
    (* read the scanline and convert to RGB *)
    let bufsize := QueryRGBBufferSize ext header subimage block in
    (if bufsize >? 0
     then modify (fun s => set_m_decodebuf
                             (take (Z.to_nat bufsize)
                                (m_decodebuf s ++ replicate (Z.to_nat bufsize) Byte.x00)) s)
     else ret tt) ;;;
    r <- ReadBlock subimage block ;;
    match r with
    | None => ret (false, None)
    | Some bytes =>
        (if bufsize >? 0 then modify (set_m_decodebuf bytes) else ret tt) ;;;
        log_io (EvConvertToRGB subimage block) ;;;
        match ConvertToRGB ext header subimage bytes block with
        | None => ret (false, None)
        | Some rgb => ret (true, Some rgb)
        end
    end.

Definition read_native_scanline (ext : Externals)
    (subimage miplevel y z : Z) : M (bool * option (list Byte.byte)) :=
  read_native_scanlines ext subimage miplevel y (y + 1) z.

(** * Vocabulary of the properties

    Names for what the statements below talk about: the outcomes of a
    selection, sequences of calls by a client, counts over the log of stream
    calls, and the header fields that a sentinel guards. *)

(** The value [lookup] returns when its assertion holds. *)
Definition first_match {KEY VAL : Type} `{EqDecision KEY}
    (key : KEY) (values : list (KEY * VAL)) (d : VAL) : VAL :=
  match find (fun v => bool_decide (fst v = key)) values with
  | Some v => snd v
  | None => d
  end.

(** The key code array, in closed form. *)
Definition keycode_values (ext : Externals) (header : Header.t) : list Z :=
  [ stoi ext (string_view (Header.filmManufacturingIdCode header) 2);
    stoi ext (string_view (Header.filmType header) 2);
    stoi ext (string_view (Header.prefix header) 6);
    stoi ext (string_view (Header.count header) 4);
    stoi ext (string_view (Header.perfsOffset header) 2);
    fst (perfs_of_format (std_string_n (Header.format header) 32));
    snd (perfs_of_format (std_string_n (Header.format header) 32)) ].

(** What the chain of comparisons of [get_keycode_values] comes to on the 32
    characters it compares: the five comparisons with a whole name never
    hold, the three pairs of prefix tests remain. *)
Definition perfs_by_prefix (format : string) : Z * Z :=
  if starts_with format "2kvv" || starts_with format "4kvv" then (8, 64)
  else if starts_with format "2k35" || starts_with format "4k35" then (4, 64)
  else if starts_with format "2k3perf" || starts_with format "4k3perf" then (3, 64)
  else (4, 64).

Definition digit_char (d : Z) : ascii := ascii_of_nat (48 + Z.to_nat d).

(** The two decimal digits of a number below 100. *)
Definition two_digits (n : Z) : string :=
  String (digit_char (n / 10)) (String (digit_char (n mod 10)) "").

(** ** Selections *)

(** The element can be selected: its index is in range and its component
    data size is one of the five known ones. *)
Definition selectable (header : Header.t) (i : Z) : Prop :=
  0 <= i < Header.ImageElementCount header
  /\ is_Some (element_typedesc header i).

(** The decoder holds a selected element of its header. *)
Definition has_selection (s : DPXInput) : Prop :=
  0 <= m_subimage s < Header.ImageElementCount (m_dpx_header s).

(** Does a selection made in state [s] read the user data block? *)
Definition reads_user_data (s : DPXInput) : bool :=
  buf_empty (m_userBuf s)
  && negb (Header.UserSize (m_dpx_header s) =? 0)
  && negb (Header.UserSize (m_dpx_header s) =? 0xFFFFFFFF).

(** The decoder after a selection of element [i], made in state [s], for
    which the header gave [spec]. *)
Definition selected_state (s : DPXInput) (i : Z) (spec : ImageSpec.t) : DPXInput :=
  let size := Header.UserSize (m_dpx_header s) in
  let userBuf :=
    if reads_user_data s then read_into (Z.to_nat size) (ReadUserData s)
    else m_userBuf s in
  let spec :=
    spec_if (negb (buf_empty userBuf))
      (ImageSpec.attribute "dpx:UserData" (AUCharArray size userBuf)) spec in
  Build_DPXInput i (m_stream s) (m_dpx_header s) userBuf
    (if ImageSpec.nchannels spec =? 1 then true else m_rawcolor s)
    (m_decodebuf s) spec (errors s)
    (if reads_user_data s then io_log s ++ [EvReadUserData size] else io_log s).

(** The decoder after a selection of element [i] that stopped at the
    component data size. *)
Definition rejected_state (s : DPXInput) (i : Z) : DPXInput :=
  Build_DPXInput i (m_stream s) (m_dpx_header s) (m_userBuf s) (m_rawcolor s)
    (m_decodebuf s) (m_spec s) (errors s ++ ["Invalid component data size"])
    (io_log s).

(** The five ways in which [seek_subimage] returns. *)
Inductive seek_outcome (ext : Externals) (s : DPXInput) (i miplevel : Z)
  : bool -> DPXInput -> Prop :=
  | seek_miplevel :
      miplevel <> 0 -> seek_outcome ext s i miplevel false s
  | seek_same :
      miplevel = 0 -> i = m_subimage s -> seek_outcome ext s i miplevel true s
  | seek_out_of_range :
      miplevel = 0 -> i <> m_subimage s ->
      i < 0 \/ Header.ImageElementCount (m_dpx_header s) <= i ->
      seek_outcome ext s i miplevel false s
  | seek_rejected :
      miplevel = 0 -> i <> m_subimage s ->
      0 <= i < Header.ImageElementCount (m_dpx_header s) ->
      element_typedesc (m_dpx_header s) i = None ->
      seek_outcome ext s i miplevel false (rejected_state s i)
  | seek_selected td spec :
      miplevel = 0 -> i <> m_subimage s ->
      0 <= i < Header.ImageElementCount (m_dpx_header s) ->
      element_typedesc (m_dpx_header s) i = Some td ->
      subimage_spec ext (m_dpx_header s) i (m_rawcolor s) td = Some spec ->
      seek_outcome ext s i miplevel true (selected_state s i spec).

(** ** Sequences of calls on an open decoder *)

(** The calls a client makes between [open] and [close]. *)
Inductive Op :=
  | OpSeek (subimage miplevel : Z)
  | OpReadScanlines (subimage miplevel ybegin yend z : Z)
  | OpReadScanline (subimage miplevel y z : Z)
  | OpCurrentSubimage.

Definition run_op (ext : Externals) (o : Op) : M unit :=
  match o with
  | OpSeek i m => seek_subimage ext i m ;;; ret tt
  | OpReadScanlines i m yb ye z => read_native_scanlines ext i m yb ye z ;;; ret tt
  | OpReadScanline i m y z => read_native_scanline ext i m y z ;;; ret tt
  | OpCurrentSubimage => current_subimage ;;; ret tt
  end.

Fixpoint run_ops (ext : Externals) (ops : list Op) : M unit :=
  match ops with
  | [] => ret tt
  | o :: rest => run_op ext o ;;; run_ops ext rest
  end.

Definition is_user_data_read (e : IOEvent) : bool :=
  match e with EvReadUserData _ => true | _ => false end.

Definition is_conversion (e : IOEvent) : bool :=
  match e with EvConvertToRGB _ _ => true | _ => false end.

(** How many times the log shows the user data block read, and how many
    times a block converted to RGB. *)
Definition user_data_reads (log : list IOEvent) : nat :=
  length (List.filter is_user_data_read log).

Definition conversions (log : list IOEvent) : nat :=
  length (List.filter is_conversion log).

(** The read of the user data block that a decoder still has to make. *)
Definition pending_read (s : DPXInput) : nat :=
  if reads_user_data s then 1%nat else 0%nat.

(** What a call may change.  [step s s'] holds when [s'] has the header and
    stream of [s]; has read the user data block at most as often as [s]
    leaves room for (the user size being that of a 32-bit unsigned field);
    keeps a filled user data buffer; keeps a set [m_rawcolor], in which
    case it has converted no block; and keeps holding a selection. *)
Record step (s s' : DPXInput) : Prop := {
  step_header : m_dpx_header s' = m_dpx_header s;
  step_stream : m_stream s' = m_stream s;
  step_reads :
    0 <= Header.UserSize (m_dpx_header s) ->
    (user_data_reads (io_log s') + pending_read s'
     <= user_data_reads (io_log s) + pending_read s)%nat;
  step_reads_le : (user_data_reads (io_log s) <= user_data_reads (io_log s'))%nat;
  step_filled :
    m_userBuf s <> [] ->
    m_userBuf s' = m_userBuf s
    /\ user_data_reads (io_log s') = user_data_reads (io_log s);
  step_rawcolor :
    m_rawcolor s = true ->
    m_rawcolor s' = true /\ conversions (io_log s') = conversions (io_log s);
  step_selection : has_selection s -> has_selection s'
}.

(** ** Layers of an [ImageSpec]

    [subimage_spec] returns a tower of functions applied to the fresh
    [ImageSpec].  A function [keeps] an attribute name when it leaves the
    entry under that name as it found it, and [keeps_channels] when it
    leaves the channels alone. *)

Definition keeps (k : string) (f : ImageSpec.t -> ImageSpec.t) : Prop :=
  forall spec, ImageSpec.find_attribute k (f spec) = ImageSpec.find_attribute k spec.

Definition keeps_channels (f : ImageSpec.t -> ImageSpec.t) : Prop :=
  forall spec,
    ImageSpec.channelnames (f spec) = ImageSpec.channelnames spec
    /\ ImageSpec.nchannels (f spec) = ImageSpec.nchannels spec.

(** The channel layout that raw colour gives an element of luma and
    chroma: the components as they are stored. *)
Definition raw_layout (d : Descriptor) : option (list string) :=
  match d with
  | kCbYCrY => Some ["CbCr"; "Y"]
  | kCbYACrYA => Some ["CbCr"; "Y"; "A"]
  | kCbYCr => Some ["Cb"; "Y"; "Cr"]
  | kCbYCrA => Some ["Cb"; "Y"; "Cr"; "A"]
  | _ => None
  end.

(** ** Header fields guarded by a sentinel *)

(** A header field that the [DPX_SET_ATTRIB_*] macros, or the test on the
    user bits, guard with a sentinel. *)
Inductive FieldValue :=
  | U32Field (v : Z)
  | R32Field (v : F32.t)
  | U8Field (v : Z)
  | StringField (chars : string).

(** The guarded fields of element [i], under the names of their
    attributes. *)
Definition guarded_fields (header : Header.t) (i : Z) : list (string * FieldValue) :=
  [ ("dpx:EncryptKey", U32Field (Header.EncryptKey header));
    ("dpx:DittoKey", U32Field (Header.DittoKey header));
    ("dpx:LowData", U32Field (Header.LowData header i));
    ("dpx:LowQuantity", R32Field (Header.LowQuantity header i));
    ("dpx:HighData", U32Field (Header.HighData header i));
    ("dpx:HighQuantity", R32Field (Header.HighQuantity header i));
    ("dpx:EndOfLinePadding", U32Field (Header.EndOfLinePadding header i));
    ("dpx:EndOfImagePadding", U32Field (Header.EndOfImagePadding header i));
    ("dpx:XScannedSize", R32Field (Header.XScannedSize header));
    ("dpx:YScannedSize", R32Field (Header.YScannedSize header));
    ("dpx:FramePosition", U32Field (Header.FramePosition header));
    ("dpx:SequenceLength", U32Field (Header.SequenceLength header));
    ("dpx:HeldCount", U32Field (Header.HeldCount header));
    ("dpx:FrameRate", R32Field (Header.FrameRate header));
    ("dpx:ShutterAngle", R32Field (Header.ShutterAngle header));
    ("dpx:Version", StringField (Header.version header));
    ("dpx:Format", StringField (Header.format header));
    ("dpx:FrameId", StringField (Header.frameId header));
    ("dpx:SlateInfo", StringField (Header.slateInfo header));
    ("dpx:SourceImageFileName", StringField (Header.sourceImageFileName header));
    ("dpx:InputDevice", StringField (Header.inputDevice header));
    ("dpx:InputDeviceSerialNumber",
     StringField (Header.inputDeviceSerialNumber header));
    ("dpx:Interlace", U8Field (Header.Interlace header));
    ("dpx:FieldNumber", U8Field (Header.FieldNumber header));
    ("dpx:HorizontalSampleRate", R32Field (Header.HorizontalSampleRate header));
    ("dpx:VerticalSampleRate", R32Field (Header.VerticalSampleRate header));
    ("dpx:TemporalFrameRate", R32Field (Header.TemporalFrameRate header));
    ("dpx:TimeOffset", R32Field (Header.TimeOffset header));
    ("dpx:BlackLevel", R32Field (Header.BlackLevel header));
    ("dpx:BlackGain", R32Field (Header.BlackGain header));
    ("dpx:BreakPoint", R32Field (Header.BreakPoint header));
    ("dpx:WhiteLevel", R32Field (Header.WhiteLevel header));
    ("dpx:IntegrationTimes", R32Field (Header.IntegrationTimes header));
    ("dpx:UserBits", U32Field (Header.userBits header)) ].

(** The sentinel of each kind of field, as the specification lists them. *)
Definition is_sentinel (f : FieldValue) : bool :=
  match f with
  | U32Field v => v =? 0xFFFFFFFF
  | R32Field v => F32.isnan v
  | U8Field v => v =? 0xFF
  | StringField chars => Ascii.eqb (first_char chars) CHAR_FF
  end.

(** A string field whose first byte is NUL: the empty string. *)
Definition is_empty_string (f : FieldValue) : bool :=
  match f with
  | StringField chars => Ascii.eqb (first_char chars) NUL
  | _ => false
  end.

(** The attribute value that carries the field's value. *)
Definition attr_of (f : FieldValue) : AttrValue :=
  match f with
  | U32Field v => AUInt v
  | R32Field v => AFloat v
  | U8Field v => AInt v
  | StringField chars => AString (c_str chars)
  end.

(** ** Closing and opening *)

(** The decoder as [init] leaves it: nothing selected, no stream, an empty
    user data buffer, no raw colour; the rest as it was. *)
Definition closed_state (s : DPXInput) : DPXInput :=
  Build_DPXInput (-1) None (m_dpx_header s) [] false (m_decodebuf s)
    (m_spec s) (errors s) (io_log s).

Definition is_closed (s : DPXInput) : Prop :=
  m_subimage s = -1 /\ m_stream s = None
  /\ m_userBuf s = [] /\ m_rawcolor s = false.

(** The decoder once [open] has attached the stream [f] and [ReadHeader]
    has been called on it. *)
Definition attached_state (f : InStream) (s : DPXInput) : DPXInput :=
  set_io_log (io_log s ++ [EvReadHeader]) (set_m_stream (Some f) s).

(** What the configuration passed to [open] asks of [m_rawcolor]. *)
Definition raw_requested (config : gmap string AttrValue) : bool :=
  negb (get_int_attribute config "dpx:RawColor" =? 0)
  || negb (get_int_attribute config "dpx:RawData" =? 0)
  || negb (get_int_attribute config "oiio:RawColor" =? 0).

(** ** The frame of an [ImageSpec] *)

(** An [ImageSpec] with its metadata set aside: what remains is the
    geometry, the pixel type and the channels. *)
Definition layout (spec : ImageSpec.t) : ImageSpec.t :=
  ImageSpec.set_extra_attribs ∅ spec.

Definition keeps_layout (f : ImageSpec.t -> ImageSpec.t) : Prop :=
  forall spec, layout (f spec) = layout spec.

(** The [ImageSpec] that [subimage_spec] has built when it starts setting
    attributes: the constructor, the origin and full size, and the channel
    names. *)
Definition spec_frame (ext : Externals) (header : Header.t)
    (subimage : Z) (rawcolor : bool) (typedesc : TypeDesc) : ImageSpec.t :=
  fill_channel_names ext header subimage rawcolor
    (spec_if (to_int32 (Header.yOriginalSize header) >? 0)
       (ImageSpec.set_full_height (Header.yOriginalSize header))
       (spec_if (to_int32 (Header.xOriginalSize header) >? 0)
          (ImageSpec.set_full_width (Header.xOriginalSize header))
          (spec_if (Header.yOffset header <=? INT_MAX)
             (ImageSpec.set_y (Header.yOffset header))
             (spec_if (Header.xOffset header <=? INT_MAX)
                (ImageSpec.set_x (Header.xOffset header))
                (ImageSpec_new ext (Header.Width header) (Header.Height header)
                   (Header.ImageElementComponentCount header subimage)
                   typedesc))))).

(** The descriptors for which [seek_subimage] names the channels by number:
    those its [switch] has no case for. *)
Definition numbered_channels (d : Descriptor) : bool :=
  match d with
  | kRed | kGreen | kBlue | kAlpha | kLuma | kDepth
  | kRGB | kRGBA | kABGR | kCbYCrY | kCbYACrYA | kCbYCr | kCbYCrA => false
  | _ => true
  end.

(** The one channel name of a single-component descriptor. *)
Definition component_name (d : Descriptor) : option string :=
  match d with
  | kRed => Some "R"
  | kGreen => Some "G"
  | kBlue => Some "B"
  | kAlpha => Some "A"
  | kLuma => Some "Y"
  | kDepth => Some "Z"
  | _ => None
  end.

(** The colour space functions leave the attribute [k] alone. *)
Definition colorspace_keeps (ext : Externals) (k : string) : Prop :=
  (forall name attrs, set_colorspace ext name attrs !! k = attrs !! k)
  /\ (forall g attrs, set_colorspace_rec709_gamma ext g attrs !! k = attrs !! k).

(** The blocks that the log shows read from the stream. *)
Definition block_reads (log : list IOEvent) : list (Z * Block) :=
  omap (fun e => match e with EvReadBlock i b => Some (i, b) | _ => None end) log.

(** The header strings that [seek_subimage] publishes under names outside
    the ["dpx:"] name space, guarded like the [DPX_SET_ATTRIB_STR] fields. *)
Definition general_strings (header : Header.t) (i : Z) : list (string * string) :=
  [ ("Copyright", Header.copyright header);
    ("Software", Header.creator header);
    ("DocumentName", Header.project header);
    ("ImageDescription", Header.Description header i) ].

(** The block that [read_native_scanlines] asks of the stream for the rows
    [ybegin] to [yend - 1], on a decoder that holds the selection. *)
Definition scanline_block (s : DPXInput) (ybegin yend : Z) : Block :=
  Build_Block 0 (ybegin - ImageSpec.y (m_spec s))
    (Header.Width (m_dpx_header s) - 1) (yend - 1 - ImageSpec.y (m_spec s)).

(** The bytes the stream of the decoder delivers for a block. *)
Definition stream_bytes (s : DPXInput) (element : Z) (block : Block)
    : option (list Byte.byte) :=
  match m_stream s with
  | Some f => stream_block f element block
  | None => None
  end.

(** ** Sample inputs

    A concrete set of external functions, a small two-element file and a
    decoder that has it open; the examples below are evaluated on them. *)

Fixpoint digits_value (s : string) (acc : Z) : Z :=
  match s with
  | String c r =>
      let n := Z.of_nat (nat_of_ascii c) in
      if (48 <=? n) && (n <=? 57) then digits_value r (10 * acc + (n - 48))
      else acc
  | EmptyString => acc
  end.

Definition sample_default_channel_names (n : Z) : list string * Z * Z :=
  if n =? 1 then (["Y"], -1, -1)
  else ((take (Z.to_nat n) ["R"; "G"; "B"; "A"]
           ++ map (fun c => ("channel" ++ fmt_d c)%string) (seqZ 4 (n - 4)))%list,
        if 4 <=? n then 3 else -1, -1).

Definition bcd (v : Z) : Z := Z.land v 15 + 10 * Z.land (Z.shiftr v 4) 15.

Definition sample_TimeCode (time user : Z) : TimeCode :=
  {| hours := bcd (Z.land (Z.shiftr time 24) 63);
     minutes := bcd (Z.land (Z.shiftr time 16) 127);
     seconds := bcd (Z.land (Z.shiftr time 8) 127);
     frame := bcd (Z.land time 63);
     dropFrame := Z.testbit time 6 |}.

Lemma insert_keeps_dpx (name : string) (v : AttrValue)
    (attrs : gmap string AttrValue) (key : string) :
  String.prefix "dpx:" key = true ->
  String.prefix "dpx:" name = false ->
  <[name := v]> attrs !! key = attrs !! key.
Proof.
  intros Hk Hn. apply lookup_insert_ne. intros ->. congruence.
Qed.

Definition sample_set_colorspace (name : string)
    (attrs : gmap string AttrValue) : gmap string AttrValue :=
  <["oiio:ColorSpace" := AString name]> attrs.

Definition sample_set_colorspace_rec709_gamma (g : F32.t)
    (attrs : gmap string AttrValue) : gmap string AttrValue :=
  <["oiio:Gamma" := AFloat g]> (<["oiio:ColorSpace" := AString "rec709_gamma"]> attrs).

Lemma sample_set_colorspace_dpx name attrs key :
  String.prefix "dpx:" key = true ->
  sample_set_colorspace name attrs !! key = attrs !! key.
Proof. intros Hk. unfold sample_set_colorspace. by rewrite insert_keeps_dpx. Qed.

Lemma sample_set_colorspace_rec709_gamma_dpx g attrs key :
  String.prefix "dpx:" key = true ->
  sample_set_colorspace_rec709_gamma g attrs !! key = attrs !! key.
Proof.
  intros Hk. unfold sample_set_colorspace_rec709_gamma.
  by rewrite !insert_keeps_dpx.
Qed.

Definition sample_ext : Externals :=
  {| stoi := fun s => digits_value s 0;
     default_channel_names := sample_default_channel_names;
     set_colorspace := sample_set_colorspace;
     set_colorspace_rec709_gamma := sample_set_colorspace_rec709_gamma;
     mk_TimeCode := sample_TimeCode;
     QueryRGBBufferSize := fun _ _ _ => 0;
     ConvertToRGB := fun _ _ bytes _ => Some bytes;
     set_colorspace_dpx := sample_set_colorspace_dpx;
     set_colorspace_rec709_gamma_dpx := sample_set_colorspace_rec709_gamma_dpx |}.

(** An element of [n] components of 8 unsigned bits, every optional field
    unset. *)
Definition sample_element (size : DataSize) (d : Descriptor) (n : Z) : ImageElement :=
  {| el_ComponentDataSize := size;
     el_DataSign := 0;
     el_ImageElementComponentCount := n;
     el_ImageDescriptor := d;
     el_BitDepth := 8;
     el_Transfer := kLinear;
     el_Colorimetric := kLinear;
     el_ImageEncoding := EncodingCode 0;
     el_Description := "";
     el_LowData := 0xFFFFFFFF;
     el_LowQuantity := S754_nan;
     el_HighData := 0xFFFFFFFF;
     el_HighQuantity := S754_nan;
     el_EndOfLinePadding := 0;
     el_EndOfImagePadding := 0xFFFFFFFF;
     el_ImagePacking := kPacked |}.

(** A header of 4 by 2 pixels with the given elements, format field, version
    field, video signal, user data size and aspect ratio. *)
Definition sample_header_with (elements : list ImageElement) (fmt ver : string)
    (sig : VideoSignal) (usize num den : Z) : Header.t :=
  {| Header.chan := fun i =>
       nth (Z.to_nat i) elements (sample_element (DataSizeCode 255) (DescriptorCode 255) 0);
     Header.ImageElementCount := Z.of_nat (length elements);
     Header.Width := 4;
     Header.Height := 2;
     Header.xOffset := 0;
     Header.yOffset := 0;
     Header.xOriginalSize := 0xFFFFFFFF;
     Header.yOriginalSize := 0xFFFFFFFF;
     Header.ImageOrientation := kLeftToRightTopToBottom;
     Header.Gamma := S754_nan;
     Header.AspectRatio := fun i => if i =? 0 then num else den;
     Header.copyright := "";
     Header.creator := "sample";
     Header.project := String CHAR_FF "";
     Header.creationTimeDate := "2024:01:02:03:04:05";
     Header.sourceTimeDate := "";
     Header.EncryptKey := 0xFFFFFFFF;
     Header.DittoKey := 1;
     Header.XScannedSize := S754_nan;
     Header.YScannedSize := S754_nan;
     Header.FramePosition := 7;
     Header.SequenceLength := 0xFFFFFFFF;
     Header.HeldCount := 0xFFFFFFFF;
     Header.FrameRate := F32.of_Z 24;
     Header.ShutterAngle := S754_nan;
     Header.version := ver;
     Header.format := fmt;
     Header.frameId := "";
     Header.slateInfo := "";
     Header.sourceImageFileName := "";
     Header.inputDevice := "";
     Header.inputDeviceSerialNumber := "";
     Header.Interlace := 0;
     Header.FieldNumber := 0xFF;
     Header.HorizontalSampleRate := S754_nan;
     Header.VerticalSampleRate := S754_nan;
     Header.TemporalFrameRate := S754_nan;
     Header.TimeOffset := S754_nan;
     Header.BlackLevel := S754_nan;
     Header.BlackGain := S754_nan;
     Header.BreakPoint := S754_nan;
     Header.WhiteLevel := S754_nan;
     Header.IntegrationTimes := S754_nan;
     Header.filmManufacturingIdCode := "01";
     Header.filmType := "23";
     Header.prefix := "456789";
     Header.count := "1234";
     Header.perfsOffset := "05";
     Header.timeCode := 0x01020304;
     Header.userBits := 0xFFFFFFFF;
     Header.FilmEdgeCode := "012345678912340";
     Header.Signal := sig;
     Header.UserSize := usize |}.

(** Two elements: one of luma alone, one of subsampled luma and chroma. *)
Definition sample_elements : list ImageElement :=
  [ sample_element kByte kLuma 1; sample_element kByte kCbYCrY 2 ].

Definition sample_header : Header.t :=
  sample_header_with sample_elements "Academy" "V2.0" kPAL 3 1 1.

Definition sample_stream_of (h : Header.t) : InStream :=
  {| stream_header := Some h;
     stream_user_data := [Byte.x01; Byte.x02; Byte.x03; Byte.x04];
     stream_block := fun _ b => Some (replicate (Z.to_nat (y2 b - y1 b + 1)) Byte.x2a) |}.

Definition sample_files (h : Header.t) (name : string) : option InStream :=
  if String.eqb name "sample.dpx" then Some (sample_stream_of h) else None.

Definition empty_spec : ImageSpec.t :=
  ImageSpec.Build_t 0 0 0 0 0 0 0 UNKNOWN [] (-1) (-1) ∅.

(** A decoder whose [ReadHeader] has delivered [h], nothing selected yet. *)
Definition sample_parsed (h : Header.t) : DPXInput :=
  Build_DPXInput (-1) (Some (sample_stream_of h)) h [] false [] empty_spec []
    [EvReadHeader].

(** The decoder after [open] of the sample file with header [h]. *)
Definition sample_opened (h : Header.t) : option DPXInput :=
  match open sample_ext (sample_files h) "sample.dpx" (DPXInput_new h empty_spec) with
  | Done (true, _) s => Some s
  | _ => None
  end.

(** A header whose format field holds "8kimax" and 26 NUL bytes. *)
Definition header_8kimax : Header.t :=
  sample_header_with sample_elements ("8kimax" ++ nuls 26) "V2.0" kPAL 0 1 1.

(** A header whose version field is the empty string. *)
Definition header_no_version : Header.t :=
  sample_header_with sample_elements "Academy" "" kPAL 3 1 1.

(** A header whose second element has a component data size that is none
    of the known ones. *)
Definition header_bad_size : Header.t :=
  sample_header_with
    [ sample_element kByte kLuma 1; sample_element (DataSizeCode 9) kRGB 3 ]
    "Academy" "V2.0" kPAL 3 1 1.

(** A header with the video signal code 255 and a zero aspect ratio
    denominator. *)
Definition header_k255 : Header.t :=
  sample_header_with sample_elements "Academy" "V2.0" k255 0 1 0.

(** The decoder after [seek_subimage(0, 0)] on a parsed header. *)
Definition sample_selected (h : Header.t) : DPXInput :=
  match seek_subimage sample_ext 0 0 (sample_parsed h) with
  | Done _ s => s
  | AssertionFailed => sample_parsed h
  end.

(** ** Further sample inputs *)

(** A file of one element of subsampled luma and chroma, and a
    configuration that asks for raw colour. *)
Definition header_ycbcr : Header.t :=
  sample_header_with [ sample_element kByte kCbYCrY 2 ] "Academy" "V2.0" kPAL 3 1 1.

Definition config_raw : gmap string AttrValue := {[ "dpx:RawColor" := AInt 1 ]}.

(** A header with no image element, and a stream with no readable header. *)
Definition header_no_elements : Header.t :=
  sample_header_with [] "Academy" "V2.0" kPAL 3 1 1.

Definition stream_no_header : InStream :=
  {| stream_header := None;
     stream_user_data := [];
     stream_block := fun _ _ => None |}.

(** The decoder that [DPXInput()] constructs. *)
Definition sample_new : DPXInput := DPXInput_new sample_header empty_spec.

(** A file of a single element of two components with a user-defined
    descriptor. *)
Definition header_user_defined : Header.t :=
  sample_header_with [ sample_element kByte kUserDefined2Comp 2 ]
    "Academy" "V2.0" kPAL 0 1 1.

(** A file of one element of chroma, luma and alpha. *)
Definition header_ycbcra : Header.t :=
  sample_header_with [ sample_element kByte kCbYACrYA 3 ] "Academy" "V2.0" kPAL 0 1 1.

(** A header whose film edge code field is filled with 0xFF bytes. *)
Definition header_ff_edge_code (h : Header.t) : Header.t :=
  {| Header.chan := Header.chan h;
     Header.ImageElementCount := Header.ImageElementCount h;
     Header.Width := Header.Width h;
     Header.Height := Header.Height h;
     Header.xOffset := Header.xOffset h;
     Header.yOffset := Header.yOffset h;
     Header.xOriginalSize := Header.xOriginalSize h;
     Header.yOriginalSize := Header.yOriginalSize h;
     Header.ImageOrientation := Header.ImageOrientation h;
     Header.Gamma := Header.Gamma h;
     Header.AspectRatio := Header.AspectRatio h;
     Header.copyright := Header.copyright h;
     Header.creator := Header.creator h;
     Header.project := Header.project h;
     Header.creationTimeDate := Header.creationTimeDate h;
     Header.sourceTimeDate := "2024:01:02:03:04:05+01";
     Header.EncryptKey := Header.EncryptKey h;
     Header.DittoKey := Header.DittoKey h;
     Header.XScannedSize := Header.XScannedSize h;
     Header.YScannedSize := Header.YScannedSize h;
     Header.FramePosition := Header.FramePosition h;
     Header.SequenceLength := Header.SequenceLength h;
     Header.HeldCount := Header.HeldCount h;
     Header.FrameRate := Header.FrameRate h;
     Header.ShutterAngle := Header.ShutterAngle h;
     Header.version := Header.version h;
     Header.format := Header.format h;
     Header.frameId := Header.frameId h;
     Header.slateInfo := Header.slateInfo h;
     Header.sourceImageFileName := Header.sourceImageFileName h;
     Header.inputDevice := Header.inputDevice h;
     Header.inputDeviceSerialNumber := Header.inputDeviceSerialNumber h;
     Header.Interlace := Header.Interlace h;
     Header.FieldNumber := Header.FieldNumber h;
     Header.HorizontalSampleRate := Header.HorizontalSampleRate h;
     Header.VerticalSampleRate := Header.VerticalSampleRate h;
     Header.TemporalFrameRate := Header.TemporalFrameRate h;
     Header.TimeOffset := Header.TimeOffset h;
     Header.BlackLevel := Header.BlackLevel h;
     Header.BlackGain := Header.BlackGain h;
     Header.BreakPoint := Header.BreakPoint h;
     Header.WhiteLevel := Header.WhiteLevel h;
     Header.IntegrationTimes := Header.IntegrationTimes h;
     Header.filmManufacturingIdCode := String CHAR_FF (String CHAR_FF "");
     Header.filmType := Header.filmType h;
     Header.prefix := Header.prefix h;
     Header.count := Header.count h;
     Header.perfsOffset := Header.perfsOffset h;
     Header.timeCode := 0xFFFFFFFF;
     Header.userBits := Header.userBits h;
     Header.FilmEdgeCode := String CHAR_FF (String CHAR_FF (String CHAR_FF ""));
     Header.Signal := Header.Signal h;
     Header.UserSize := Header.UserSize h |}.

Definition header_ff : Header.t := header_ff_edge_code sample_header.

(** * Properties *)

(** ** The helpers never fail on the plugin's own tables *)

Lemma lookup_ok {KEY VAL : Type} `{EqDecision KEY}
    (key : KEY) (values : list (KEY * VAL)) (d : VAL) :
  (2 <= length values)%nat ->
  lookup key values d = Some (first_match key values d).
Proof. intros Hlen. unfold lookup. destruct (decide _); [done | lia]. Qed.

Lemma get_keycode_values_ok ext header array :
  length array = 7%nat ->
  get_keycode_values ext header array = Some (keycode_values ext header).
Proof.
  intros Hlen. unfold get_keycode_values. destruct (decide _); [|done].
  do 8 (destruct array as [|? array]; try discriminate).
  unfold keycode_values. by destruct (perfs_of_format _).
Qed.

(** ** Attributes through the layers *)

Lemma keeps_apply k f spec :
  keeps k f -> ImageSpec.find_attribute k (f spec) = ImageSpec.find_attribute k spec.
Proof. intros H. apply H. Qed.

Lemma find_attribute_attribute k v spec :
  ImageSpec.find_attribute k (ImageSpec.attribute k v spec) = Some v.
Proof.
  unfold ImageSpec.find_attribute, ImageSpec.attribute. cbn.
  apply lookup_insert_eq.
Qed.

Lemma keeps_attribute k n v : n <> k -> keeps k (ImageSpec.attribute n v).
Proof.
  intros Hne spec. unfold ImageSpec.find_attribute, ImageSpec.attribute. cbn.
  by apply lookup_insert_ne.
Qed.

Lemma keeps_spec_if k c f : keeps k f -> keeps k (spec_if c f).
Proof. intros H spec. unfold spec_if. destruct c; [apply H | done]. Qed.

Lemma keeps_compose k f g : keeps k f -> keeps k g -> keeps k (fun spec => g (f spec)).
Proof. intros Hf Hg spec. by rewrite Hg, Hf. Qed.

Lemma keeps_set_x k v : keeps k (ImageSpec.set_x v).
Proof. done. Qed.
Lemma keeps_set_y k v : keeps k (ImageSpec.set_y v).
Proof. done. Qed.
Lemma keeps_set_full_width k v : keeps k (ImageSpec.set_full_width v).
Proof. done. Qed.
Lemma keeps_set_full_height k v : keeps k (ImageSpec.set_full_height v).
Proof. done. Qed.

Lemma keeps_spec_default_channel_names k ext :
  keeps k (spec_default_channel_names ext).
Proof.
  intros spec. unfold spec_default_channel_names.
  by destruct (default_channel_names ext _) as [[? ?] ?].
Qed.

Lemma keeps_fill_channel_names k ext header i raw :
  keeps k (fill_channel_names ext header i raw).
Proof.
  intros spec. unfold fill_channel_names.
  destruct (Header.ImageDescriptor header i), raw;
    rewrite ?keeps_spec_default_channel_names; done.
Qed.

Lemma keeps_image_linearity k ext header i :
  String.prefix "dpx:" k = true -> keeps k (image_linearity ext header i).
Proof.
  intros Hk spec. unfold image_linearity.
  destruct (Header.Transfer header i); try done;
    try (unfold ImageSpec.find_attribute, spec_set_colorspace; cbn;
         by apply set_colorspace_dpx).
  destruct (_ && _); [|done].
  unfold ImageSpec.find_attribute, spec_set_colorspace_rec709_gamma; cbn.
  by apply set_colorspace_rec709_gamma_dpx.
Qed.

Lemma keeps_DPX_SET_ATTRIB_INT k x v :
  ("dpx:" ++ x)%string <> k -> keeps k (DPX_SET_ATTRIB_INT x v).
Proof. intros. by apply keeps_spec_if, keeps_attribute. Qed.
Lemma keeps_DPX_SET_ATTRIB_FLOAT k x v :
  ("dpx:" ++ x)%string <> k -> keeps k (DPX_SET_ATTRIB_FLOAT x v).
Proof. intros. by apply keeps_spec_if, keeps_attribute. Qed.
Lemma keeps_DPX_SET_ATTRIB_BYTE k x v :
  ("dpx:" ++ x)%string <> k -> keeps k (DPX_SET_ATTRIB_BYTE x v).
Proof. intros. by apply keeps_spec_if, keeps_attribute. Qed.
Lemma keeps_DPX_SET_ATTRIB_STR k x v :
  ("dpx:" ++ x)%string <> k -> keeps k (DPX_SET_ATTRIB_STR x v).
Proof. intros. by apply keeps_spec_if, keeps_attribute. Qed.

Lemma find_attribute_new k ext w h n fmt :
  ImageSpec.find_attribute k (ImageSpec_new ext w h n fmt) = None.
Proof.
  unfold ImageSpec_new. by destruct (default_channel_names ext n) as [[? ?] ?].
Qed.

Lemma find_own_spec_if k c v spec inner :
  ImageSpec.find_attribute k spec = inner ->
  ImageSpec.find_attribute k (spec_if c (ImageSpec.attribute k v) spec)
  = if c then Some v else inner.
Proof.
  intros <-. unfold spec_if. destruct c; [apply find_attribute_attribute | done].
Qed.

Lemma find_attribute_signal_other k (o : option string) spec :
  k <> "dpx:Signal" ->
  ImageSpec.find_attribute k
    match o with
    | Some str => ImageSpec.attribute "dpx:Signal" (AString str) spec
    | None => spec
    end
  = ImageSpec.find_attribute k spec.
Proof. intros Hk. destruct o; [|done]. by apply keeps_attribute. Qed.

Lemma if_Some_spec_if (c : bool) f (spec : ImageSpec.t) :
  (if c then Some (f spec) else Some spec) = Some (spec_if c f spec).
Proof. by destruct c. Qed.

Create HintDb keeps discriminated.
#[local] Hint Resolve keeps_spec_if keeps_set_x keeps_set_y
  keeps_set_full_width keeps_set_full_height
  keeps_fill_channel_names : keeps.
#[local] Hint Extern 2 (keeps _ (ImageSpec.attribute _ _)) =>
  apply keeps_attribute; discriminate : keeps.
#[local] Hint Extern 2 (keeps _ (DPX_SET_ATTRIB_INT _ _)) =>
  apply keeps_DPX_SET_ATTRIB_INT; discriminate : keeps.
#[local] Hint Extern 2 (keeps _ (DPX_SET_ATTRIB_INT_N _ _)) =>
  apply keeps_DPX_SET_ATTRIB_INT; discriminate : keeps.
#[local] Hint Extern 2 (keeps _ (DPX_SET_ATTRIB_FLOAT _ _)) =>
  apply keeps_DPX_SET_ATTRIB_FLOAT; discriminate : keeps.
#[local] Hint Extern 2 (keeps _ (DPX_SET_ATTRIB_FLOAT_N _ _)) =>
  apply keeps_DPX_SET_ATTRIB_FLOAT; discriminate : keeps.
#[local] Hint Extern 2 (keeps _ (DPX_SET_ATTRIB_BYTE _ _)) =>
  apply keeps_DPX_SET_ATTRIB_BYTE; discriminate : keeps.
#[local] Hint Extern 2 (keeps _ (DPX_SET_ATTRIB_STR _ _)) =>
  apply keeps_DPX_SET_ATTRIB_STR; discriminate : keeps.
#[local] Hint Extern 2 (keeps _ (image_linearity _ _ _)) =>
  apply keeps_image_linearity; reflexivity : keeps.
#[local] Hint Extern 3 (keeps _ (fun spec => _)) =>
  apply keeps_compose : keeps.

(** Strip the outermost layer when it keeps the attribute looked up. *)
Ltac peel_layer :=
  match goal with
  | |- context [ImageSpec.find_attribute ?k (?f ?spec)] =>
      rewrite (keeps_apply k f spec) by auto with keeps
  | |- context [ImageSpec.find_attribute ?k
                  (match ?o with Some _ => _ | None => _ end)] =>
      rewrite (find_attribute_signal_other k o) by discriminate
  end.

#[local] Hint Extern 5 (keeps _ (dpx_attribs _ _)) =>
  intros ?; unfold dpx_attribs; cbn zeta; repeat peel_layer; reflexivity : keeps.

(** The closed form of [subimage_spec]: the assertions hold on the plugin's
    tables, and what remains is the tower of layers. *)
Ltac expose_spec :=
  unfold subimage_spec, get_characteristic_string, get_descriptor_string;
  rewrite !lookup_ok by (cbn; lia);
  rewrite get_keycode_values_ok by done;
  cbn [mbind option_bind];
  rewrite if_Some_spec_if;
  cbn [mbind option_bind].

Lemma subimage_spec_total ext header i raw td :
  is_Some (subimage_spec ext header i raw td).
Proof. expose_spec. by eexists. Qed.

(** ** Channels through the layers *)

Lemma keeps_channels_attribute n v : keeps_channels (ImageSpec.attribute n v).
Proof. done. Qed.

Lemma keeps_channels_spec_if c f : keeps_channels f -> keeps_channels (spec_if c f).
Proof. intros H spec. unfold spec_if. destruct c; [apply H | done]. Qed.

Lemma keeps_channels_compose f g :
  keeps_channels f -> keeps_channels g -> keeps_channels (fun spec => g (f spec)).
Proof.
  intros Hf Hg spec. destruct (Hg (f spec)) as [-> ->]. apply Hf.
Qed.

Lemma keeps_channels_image_linearity ext header i :
  keeps_channels (image_linearity ext header i).
Proof.
  intros spec. unfold image_linearity.
  destruct (Header.Transfer header i); try done. by destruct (_ && _).
Qed.

Lemma keeps_channels_names f spec :
  keeps_channels f -> ImageSpec.channelnames (f spec) = ImageSpec.channelnames spec.
Proof. intros H. apply H. Qed.

Lemma keeps_channels_nchannels f spec :
  keeps_channels f -> ImageSpec.nchannels (f spec) = ImageSpec.nchannels spec.
Proof. intros H. apply H. Qed.

Lemma keeps_channels_INT x v : keeps_channels (DPX_SET_ATTRIB_INT x v).
Proof. apply keeps_channels_spec_if, keeps_channels_attribute. Qed.
Lemma keeps_channels_FLOAT x v : keeps_channels (DPX_SET_ATTRIB_FLOAT x v).
Proof. apply keeps_channels_spec_if, keeps_channels_attribute. Qed.
Lemma keeps_channels_BYTE x v : keeps_channels (DPX_SET_ATTRIB_BYTE x v).
Proof. apply keeps_channels_spec_if, keeps_channels_attribute. Qed.
Lemma keeps_channels_STR x v : keeps_channels (DPX_SET_ATTRIB_STR x v).
Proof. apply keeps_channels_spec_if, keeps_channels_attribute. Qed.

#[local] Hint Resolve keeps_channels_attribute keeps_channels_spec_if
  keeps_channels_image_linearity keeps_channels_INT keeps_channels_FLOAT
  keeps_channels_BYTE keeps_channels_STR : keeps.
#[local] Hint Extern 2 (keeps_channels (DPX_SET_ATTRIB_INT_N _ _)) =>
  apply keeps_channels_INT : keeps.
#[local] Hint Extern 2 (keeps_channels (DPX_SET_ATTRIB_FLOAT_N _ _)) =>
  apply keeps_channels_FLOAT : keeps.
#[local] Hint Extern 3 (keeps_channels (fun spec => _)) =>
  apply keeps_channels_compose : keeps.

Lemma keeps_channels_dpx_attribs header i : keeps_channels (dpx_attribs header i).
Proof.
  intros spec. unfold dpx_attribs. cbn zeta. split.
  - repeat (rewrite keeps_channels_names by auto with keeps). done.
  - repeat (rewrite keeps_channels_nchannels by auto with keeps). done.
Qed.

#[local] Hint Resolve keeps_channels_dpx_attribs : keeps.

Lemma keeps_channels_signal (o : option string) spec :
  ImageSpec.channelnames
    match o with
    | Some str => ImageSpec.attribute "dpx:Signal" (AString str) spec
    | None => spec
    end
  = ImageSpec.channelnames spec.
Proof. by destruct o. Qed.

Ltac peel_names :=
  match goal with
  | |- context [ImageSpec.channelnames
                  (match ?o with Some _ => _ | None => _ end)] =>
      rewrite (keeps_channels_signal o)
  | |- context [ImageSpec.channelnames (?f ?spec)] =>
      rewrite (keeps_channels_names f spec) by auto with keeps
  end.

(** ** Conversion of a nonzero integer to [float] *)

Lemma Zdigits2_log2 (p : positive) :
  Zdigits2 (Zpos p) = Z.log2 (Zpos p) + 1.
Proof.
  cbn [Zdigits2]. induction p as [p IH|p IH|]; cbn [digits2_pos]; [| |done].
  all: rewrite Pos2Z.inj_succ, IH; destruct p; cbn; lia.
Qed.

Lemma shr_1_m mrs : 0 <= shr_m mrs -> shr_m (shr_1 mrs) = shr_m mrs / 2.
Proof.
  destruct mrs as [m r s]. cbn [shr_m]. intros Hm.
  destruct m as [|[p|p|]|p]; cbn [shr_1 shr_m]; try lia.
  all: first [ apply Z.div_unique with (r := 0); lia
             | apply Z.div_unique with (r := 1); lia ].
Qed.

Lemma shr_1_nonneg mrs : 0 <= shr_m mrs -> 0 <= shr_m (shr_1 mrs).
Proof. intros Hm. rewrite shr_1_m by done. apply Z.div_pos; lia. Qed.

Lemma iter_pos_shr_m (n : positive) : forall mrs,
  0 <= shr_m mrs ->
  shr_m (SpecFloat.iter_pos shr_1 n mrs) = shr_m mrs / 2 ^ Zpos n.
Proof.
  induction n as [n IH|n IH|]; intros mrs Hm; cbn [SpecFloat.iter_pos].
  - pose proof (shr_1_nonneg mrs Hm) as H1.
    assert (H2 : 0 <= shr_m (SpecFloat.iter_pos shr_1 n (shr_1 mrs))).
    { rewrite IH by done. apply Z.div_pos; lia. }
    rewrite !IH, shr_1_m by done.
    rewrite !Z.div_div by lia. f_equal.
    rewrite (Pos2Z.inj_xI n).
    replace (2 * Z.pos n + 1) with (1 + Z.pos n + Z.pos n) by lia.
    rewrite !Z.pow_add_r by lia. ring.
  - assert (H2 : 0 <= shr_m (SpecFloat.iter_pos shr_1 n mrs)).
    { rewrite IH by done. apply Z.div_pos; lia. }
    rewrite !IH by done. rewrite Z.div_div by lia. f_equal.
    rewrite (Pos2Z.inj_xO n).
    replace (2 * Z.pos n) with (Z.pos n + Z.pos n) by lia.
    rewrite !Z.pow_add_r by lia. ring.
  - by rewrite shr_1_m.
Qed.

(** The mantissa that [shr_fexp] leaves: the mantissa it was given, shifted
    right by as many places as the format asks. *)
Lemma shr_fexp_m (m e : Z) l :
  0 < m ->
  let n := Z.max 0 (fexp F32.prec F32.emax (Zdigits2 m + e) - e) in
  shr_m (fst (shr_fexp F32.prec F32.emax m e l)) = m / 2 ^ n
  /\ snd (shr_fexp F32.prec F32.emax m e l) = e + n.
Proof.
  intros Hm n. unfold shr_fexp, shr. subst n.
  destruct (fexp _ _ _ - e) as [|p|p] eqn:Hn; cbn [fst snd].
  - rewrite Z.max_l by lia. rewrite Z.div_1_r, Z.add_0_r.
    by destruct l as [|[]].
  - rewrite Z.max_r by lia. rewrite iter_pos_shr_m; by destruct l as [|[]]; cbn; try lia.
  - rewrite Z.max_l by lia. rewrite Z.div_1_r, Z.add_0_r.
    by destruct l as [|[]].
Qed.

(** A positive mantissa above the underflow threshold stays positive
    through [shr_fexp]. *)
Lemma shr_fexp_pos (m e : Z) l :
  0 < m -> -149 < Z.log2 m + 1 + e ->
  0 < shr_m (fst (shr_fexp F32.prec F32.emax m e l))
  /\ -149 < Z.log2 (shr_m (fst (shr_fexp F32.prec F32.emax m e l))) + 1
            + snd (shr_fexp F32.prec F32.emax m e l).
Proof.
  intros Hm He. destruct (shr_fexp_m m e l Hm) as [-> ->].
  destruct m as [|p|p]; try lia. rewrite Zdigits2_log2.
  set (d := Z.log2 (Z.pos p)) in *.
  assert (Hd : 0 <= d) by apply Z.log2_nonneg.
  set (n := Z.max 0 _).
  assert (Hn : 0 <= n <= d).
  { subst n. unfold fexp, emin, F32.prec, F32.emax. lia. }
  rewrite <- Z.shiftr_div_pow2 by lia.
  assert (Hlog : Z.log2 (Z.shiftr (Z.pos p) n) = d - n).
  { rewrite Z.log2_shiftr by lia. fold d. lia. }
  split; [|lia].
  assert (Hnn : 0 <= Z.shiftr (Z.pos p) n) by (apply Z.shiftr_nonneg; lia).
  assert (Hnz : Z.shiftr (Z.pos p) n <> 0).
  { rewrite Z.shiftr_eq_0_iff. fold d. lia. }
  lia.
Qed.

Lemma round_nearest_even_ge m l : m <= round_nearest_even m l <= m + 1.
Proof.
  unfold round_nearest_even. destruct l as [|[]]; try lia.
  destruct (Z.even m); lia.
Qed.

(** Rounding a positive mantissa above the underflow threshold never gives
    zero. *)
Lemma binary_round_aux_nonzero sx (m e : Z) l :
  0 < m -> -149 < Z.log2 m + 1 + e ->
  F32.is_zero (binary_round_aux F32.prec F32.emax sx m e l) = false.
Proof.
  intros Hm He. unfold binary_round_aux.
  destruct (shr_fexp_pos m e l Hm He) as [H1 H1e].
  destruct (shr_fexp F32.prec F32.emax m e l) as [mrs1 e1]. cbn [fst snd] in *.
  pose proof (round_nearest_even_ge (shr_m mrs1) (loc_of_shr_record mrs1)) as Hr.
  set (m1 := round_nearest_even _ _) in *.
  assert (Hlog : Z.log2 (shr_m mrs1) <= Z.log2 m1) by (apply Z.log2_le_mono; lia).
  destruct (shr_fexp_pos m1 e1 loc_Exact ltac:(lia) ltac:(lia)) as [H2 _].
  destruct (shr_fexp F32.prec F32.emax m1 e1 loc_Exact) as [mrs2 e2]. cbn [fst snd] in *.
  destruct (shr_m mrs2); try lia. by destruct (_ <=? _).
Qed.

Lemma digits2_pos_iter_xO (m d : positive) :
  Z.log2 (Z.pos (Pos.iter xO m d)) = Z.log2 (Z.pos m) + Z.pos d.
Proof.
  assert (H : Z.pos (Pos.iter xO m d) = Z.pos m * 2 ^ Z.pos d).
  { induction d as [|d IH] using Pos.peano_ind.
    - cbn. lia.
    - rewrite Pos.iter_succ, Pos2Z.inj_xO, IH, Pos2Z.inj_succ, Z.pow_succ_r by lia. ring. }
  rewrite H, Z.log2_mul_pow2 by lia. lia.
Qed.

(** The [float] of a nonzero integer is not zero. *)
Lemma F32_of_Z_nonzero (n : Z) : n <> 0 -> F32.is_zero (F32.of_Z n) = false.
Proof.
  intros Hn. unfold F32.of_Z, binary_normalize.
  assert (H : forall sx p, F32.is_zero (binary_round F32.prec F32.emax sx p 0) = false).
  { intros sx p. unfold binary_round, shl_align.
    assert (Hd : 0 <= Z.log2 (Z.pos p)) by apply Z.log2_nonneg.
    destruct (fexp _ _ _ - 0) as [|q|q] eqn:Hq;
      apply binary_round_aux_nonzero; try lia.
    rewrite digits2_pos_iter_xO.
    revert Hq. change (Z.pos (digits2_pos p)) with (Zdigits2 (Z.pos p)).
    rewrite Zdigits2_log2. unfold fexp, emin, F32.prec, F32.emax. lia. }
  destruct n; [done | apply H | apply H].
Qed.

(** ** The lookup helper *)

Lemma find_first_match {KEY VAL : Type} `{EqDecision KEY}
    (key : KEY) (pre post : list (KEY * VAL)) (v : VAL) :
  Forall (fun p => fst p <> key) pre ->
  find (fun p => bool_decide (fst p = key)) (pre ++ (key, v) :: post)%list
  = Some (key, v).
Proof.
  induction 1 as [|p pre Hp _ IH]; cbn.
  - by rewrite bool_decide_eq_true_2.
  - by rewrite bool_decide_eq_false_2.
Qed.

Lemma find_no_match {KEY VAL : Type} `{EqDecision KEY}
    (key : KEY) (values : list (KEY * VAL)) :
  Forall (fun p => fst p <> key) values ->
  find (fun p => bool_decide (fst p = key)) values = None.
Proof.
  induction 1 as [|p l Hp _ IH]; cbn; [done|].
  by rewrite bool_decide_eq_false_2.
Qed.

(** C8, as the code has it.  On a table of at least two pairs, [lookup]
    returns the value of the first pair in table order whose code is the
    key, and the default value when no pair has that code; run inside a
    member function it returns that value and leaves the decoder as it was.
    (On a shorter table the assertion at its head fails.) *)
Theorem lookup_first_match_or_default {KEY VAL : Type} `{EqDecision KEY}
    (key : KEY) (values : list (KEY * VAL)) (defaultval : VAL) :
  (2 <= length values)%nat ->
  (forall pre v post,
      values = (pre ++ (key, v) :: post)%list ->
      Forall (fun p => fst p <> key) pre ->
      lookup key values defaultval = Some v)
  /\ (Forall (fun p => fst p <> key) values ->
      lookup key values defaultval = Some defaultval)
  /\ (forall s : DPXInput,
      exists v, lookup key values defaultval = Some v
                /\ asserted (lookup key values defaultval) s = Done v s).
Proof.
  intros Hlen. rewrite lookup_ok by done. unfold first_match. repeat split.
  - intros pre v post -> Hpre. by rewrite find_first_match.
  - intros Hnone. by rewrite find_no_match.
  - intros s. eexists. split; reflexivity.
Qed.

Lemma lookup_first_match_or_default_witness :
  lookup kPAL signal_table (Some "Undefined") = Some (Some "PAL")
  /\ lookup (VideoSignalCode 7) signal_table (Some "Undefined")
     = Some (Some "Undefined").
Proof.
  split.
  - apply (proj1 (lookup_first_match_or_default kPAL signal_table
                    (Some "Undefined") ltac:(vm_compute; lia))
             [(kUndefined, Some "Undefined"); (kNTSC, Some "NTSC")]
             (Some "PAL") (drop 3 signal_table)).
    + reflexivity.
    + repeat constructor; discriminate.
  - apply (proj1 (proj2 (lookup_first_match_or_default (VideoSignalCode 7)
                           signal_table (Some "Undefined")
                           ltac:(vm_compute; lia)))).
    repeat constructor; discriminate.
Defined.

(** C8 as the specification words it, for every table, fails on a table of
    fewer than two pairs: [OIIO_ASSERT(values.size() >= 2)] stops the
    helper, whether or not the key is there. *)
Lemma lookup_short_table_asserts :
  lookup kNTSC [(kNTSC, "NTSC")] "Undefined" = None
  /\ lookup kNTSC ([] : list (VideoSignal * string)) "Undefined" = None.
Proof. split; reflexivity. Qed.

(** ** Time code *)

Lemma fmt_02d_two_digits n : 0 <= n <= 99 -> fmt_02d n = two_digits n.
Proof.
  intros Hn.
  assert (Hall : forallb (fun k => String.eqb (fmt_02d k) (two_digits k))
                   (seqZ 0 100) = true) by (vm_compute; reflexivity).
  rewrite forallb_forall in Hall.
  apply String.eqb_eq, Hall, list_elem_of_In, elem_of_seqZ. lia.
Qed.

(** C5.  The time code string is HH:MM:SS, a separator and FF, each a number
    zero-padded to two digits; the separator is ';' for a drop-frame time
    code and ':' otherwise.  1, 2, 3, 4 gives "01:02:03:04", and
    "01:02:03;04" when drop-frame. *)
Theorem get_timecode_string_format :
  (forall tc : TimeCode,
      0 <= hours tc <= 99 -> 0 <= minutes tc <= 99 ->
      0 <= seconds tc <= 99 -> 0 <= frame tc <= 99 ->
      get_timecode_string tc
      = (two_digits (hours tc) ++ ":" ++ two_digits (minutes tc) ++ ":"
         ++ two_digits (seconds tc)
         ++ (if dropFrame tc then ";" else ":")
         ++ two_digits (frame tc))%string)
  /\ get_timecode_string (Build_TimeCode 1 2 3 4 false) = "01:02:03:04"
  /\ get_timecode_string (Build_TimeCode 1 2 3 4 true) = "01:02:03;04".
Proof.
  split; [|split; reflexivity].
  intros tc Hh Hm Hs Hf. unfold get_timecode_string.
  rewrite !fmt_02d_two_digits by done. by destruct (dropFrame tc).
Qed.

Lemma get_timecode_string_format_witness :
  get_timecode_string (Build_TimeCode 23 59 7 0 true) = "23:59:07;00".
Proof.
  exact (proj1 get_timecode_string_format (Build_TimeCode 23 59 7 0 true)
           ltac:(cbn; lia) ltac:(cbn; lia) ltac:(cbn; lia) ltac:(cbn; lia)).
Defined.

(** ** Key code *)

Lemma take_chars_length n s : String.length (take_chars n s) = n.
Proof.
  revert s. induction n as [|n IH]; intros s; [done|].
  destruct s; cbn; by rewrite IH.
Qed.

Lemma string_eq_length a b :
  String.length a <> String.length b -> string_eq a b = false.
Proof.
  intros Hlen. unfold string_eq. apply String.eqb_neq. by intros ->.
Qed.

Lemma perfs_of_format_32 field :
  perfs_of_format (std_string_n field 32)
  = perfs_by_prefix (std_string_n field 32).
Proof.
  unfold perfs_of_format, perfs_by_prefix, std_string_n.
  rewrite !string_eq_length by (rewrite take_chars_length; cbn; lia).
  repeat (destruct (_ || _); [done|]). done.
Qed.

Lemma c_str_String s c r :
  c_str s = String c r -> exists s', s = String c s' /\ c_str s' = r.
Proof.
  destruct s as [|d s']; cbn; [done|].
  destruct (Ascii.eqb d NUL); [done|]. intros [= -> <-]. eauto.
Qed.

(** A field holding the C string [lit] begins with the characters of
    [lit]. *)
Ltac c_str_chars H :=
  repeat (let s' := fresh "rest" in
          apply c_str_String in H; destruct H as (s' & -> & H)).

(** C2, at the code.  [get_keycode_values] fills a 7-element array, and
    whatever the header, the perforations-per-count it stores is 64 and the
    perforations-per-frame is never 15: the format is compared as a string
    of 32 characters, which no name shorter than that equals.  A format
    field holding "Academy" gives 4 and 64, as does every field that no
    prefix test matches, and so does a field holding "8kimax", for which
    the specification asks 15 and 120. *)
Theorem get_keycode_values_perforations ext header array :
  length array = 7%nat ->
  exists kc,
    get_keycode_values ext header array = Some kc
    /\ kc !! 5%nat = Some (fst (perfs_by_prefix (std_string_n (Header.format header) 32)))
    /\ kc !! 5%nat <> Some 15
    /\ kc !! 6%nat = Some 64
    /\ (c_str (Header.format header) = "Academy" ->
        kc !! 5%nat = Some 4 /\ kc !! 6%nat = Some 64)
    /\ (c_str (Header.format header) = "8kimax" ->
        kc !! 5%nat = Some 4 /\ kc !! 6%nat = Some 64)
    /\ (perfs_by_prefix (std_string_n (Header.format header) 32) = (4, 64) ->
        kc !! 5%nat = Some 4 /\ kc !! 6%nat = Some 64).
Proof.
  intros Hlen. exists (keycode_values ext header).
  split; [by apply get_keycode_values_ok|].
  unfold keycode_values. cbn [base.lookup list_lookup]. rewrite perfs_of_format_32.
  assert (Hcount : snd (perfs_by_prefix (std_string_n (Header.format header) 32)) = 64).
  { unfold perfs_by_prefix. by repeat (destruct (_ || _); [done|]). }
  assert (Hframe : fst (perfs_by_prefix (std_string_n (Header.format header) 32)) <> 15).
  { unfold perfs_by_prefix. by repeat (destruct (_ || _); [done|]). }
  rewrite Hcount. repeat split; try done.
  - congruence.
  - c_str_chars H. reflexivity.
  - c_str_chars H. reflexivity.
  - by rewrite H.
Qed.

Lemma get_keycode_values_perforations_witness :
  c_str (Header.format header_8kimax) = "8kimax"
  /\ exists kc,
       get_keycode_values sample_ext header_8kimax (replicate 7 0) = Some kc
       /\ kc !! 5%nat = Some 4 /\ kc !! 6%nat = Some 64.
Proof.
  split; [reflexivity|].
  destruct (get_keycode_values_perforations sample_ext header_8kimax
              (replicate 7 0) ltac:(reflexivity))
    as (kc & Hkc & _ & _ & _ & _ & H8k & _).
  exists kc. split; [exact Hkc|]. apply H8k. reflexivity.
Defined.

(** The key code that subimage selection stores for that header. *)
Lemma seek_subimage_8kimax_keycode :
  exists s',
    seek_subimage sample_ext 0 0 (sample_parsed header_8kimax) = Done true s'
    /\ ImageSpec.find_attribute "smpte:KeyCode" (m_spec s')
       = Some (AKeyCode [1; 23; 456789; 1234; 5; 4; 64]).
Proof. eexists. split; vm_compute; reflexivity. Qed.
(** ** What [seek_subimage] does, case by case *)

(** Unfolding of the monad on a state. *)
Ltac run_monad :=
  cbn [bind ret get modify asserted on_spec errorfmt log_io
       set_m_subimage set_m_stream set_m_dpx_header set_m_userBuf
       set_m_rawcolor set_m_decodebuf set_m_spec set_errors set_io_log
       m_subimage m_stream m_dpx_header m_userBuf m_rawcolor m_decodebuf
       m_spec errors io_log ReadUserData].

Lemma bind_run {A B} (m : M A) (k : A -> M B) s a s' :
  m s = Done a s' -> bind m k s = k a s'.
Proof. intros H. unfold bind. by rewrite H. Qed.

Lemma out_of_range_false (i n : Z) :
  0 <= i < n -> (i <? 0) || (i >=? n) = false.
Proof. lia. Qed.

Lemma out_of_range_true (i n : Z) :
  i < 0 \/ n <= i -> (i <? 0) || (i >=? n) = true.
Proof. lia. Qed.

Lemma seek_subimage_miplevel ext s i miplevel :
  miplevel <> 0 -> seek_subimage ext i miplevel s = Done false s.
Proof.
  intros Hm. unfold seek_subimage.
  by rewrite (proj2 (Z.eqb_neq _ _) Hm).
Qed.

Lemma seek_subimage_same ext s :
  seek_subimage ext (m_subimage s) 0 s = Done true s.
Proof.
  unfold seek_subimage. cbn [negb Z.eqb]. run_monad. by rewrite Z.eqb_refl.
Qed.

Lemma seek_subimage_out_of_range ext s i :
  i <> m_subimage s ->
  i < 0 \/ Header.ImageElementCount (m_dpx_header s) <= i ->
  seek_subimage ext i 0 s = Done false s.
Proof.
  intros Hne Hout. unfold seek_subimage. cbn [negb Z.eqb]. run_monad.
  by rewrite (proj2 (Z.eqb_neq _ _) Hne), (out_of_range_true _ _ Hout).
Qed.

Lemma seek_subimage_rejects ext s i :
  i <> m_subimage s ->
  0 <= i < Header.ImageElementCount (m_dpx_header s) ->
  element_typedesc (m_dpx_header s) i = None ->
  seek_subimage ext i 0 s = Done false (rejected_state s i).
Proof.
  intros Hne Hin Htd. unfold seek_subimage. cbn [negb Z.eqb]. run_monad.
  rewrite (proj2 (Z.eqb_neq _ _) Hne), (out_of_range_false _ _ Hin), Htd.
  by run_monad.
Qed.

Lemma seek_subimage_selects ext s i td spec :
  i <> m_subimage s ->
  0 <= i < Header.ImageElementCount (m_dpx_header s) ->
  element_typedesc (m_dpx_header s) i = Some td ->
  subimage_spec ext (m_dpx_header s) i (m_rawcolor s) td = Some spec ->
  seek_subimage ext i 0 s = Done true (selected_state s i spec).
Proof.
  intros Hne Hin Htd Hspec. unfold seek_subimage. cbn [negb Z.eqb]. run_monad.
  rewrite (proj2 (Z.eqb_neq _ _) Hne), (out_of_range_false _ _ Hin), Htd, Hspec.
  run_monad. unfold selected_state, reads_user_data.
  destruct (buf_empty (m_userBuf s) && _ && _); run_monad;
    by destruct (ImageSpec.nchannels _ =? 1).
Qed.

(** Every call of [seek_subimage] returns, in one of five ways. *)
Lemma seek_subimage_outcome ext s i miplevel :
  exists b s',
    seek_subimage ext i miplevel s = Done b s'
    /\ seek_outcome ext s i miplevel b s'.
Proof.
  destruct (decide (miplevel = 0)) as [->|Hm].
  2: { eexists _, _. split; [by apply seek_subimage_miplevel | by constructor]. }
  destruct (decide (i = m_subimage s)) as [->|Hne].
  { eexists _, _. split; [apply seek_subimage_same | by constructor]. }
  destruct (decide (0 <= i < Header.ImageElementCount (m_dpx_header s))) as [Hin|Hout].
  2: { eexists _, _. split; [apply seek_subimage_out_of_range|constructor]; try done; lia. }
  destruct (element_typedesc (m_dpx_header s) i) as [td|] eqn:Htd.
  2: { eexists _, _. split; [by apply seek_subimage_rejects | by constructor]. }
  destruct (subimage_spec_total ext (m_dpx_header s) i (m_rawcolor s) td) as [spec Hspec].
  eexists _, _. split; [by eapply seek_subimage_selects | by econstructor].
Qed.

(** A selection that goes through. *)
Lemma seek_subimage_selectable ext s i :
  i <> m_subimage s -> selectable (m_dpx_header s) i ->
  exists td spec,
    element_typedesc (m_dpx_header s) i = Some td
    /\ subimage_spec ext (m_dpx_header s) i (m_rawcolor s) td = Some spec
    /\ seek_subimage ext i 0 s = Done true (selected_state s i spec).
Proof.
  intros Hne [Hin [td Htd]].
  destruct (subimage_spec_total ext (m_dpx_header s) i (m_rawcolor s) td) as [spec Hspec].
  exists td, spec. repeat split; try done. by eapply seek_subimage_selects.
Qed.

(** ** Selecting the same element again, or one out of range (C3) *)

(** C3.  On a decoder whose currently selected subimage is [m_subimage s],
    selecting that index again at miplevel 0 returns true and leaves the
    whole decoder as it was: neither the metadata nor the log of stream
    reads changes.  Selecting an index that is negative or at least the
    image element count returns false, and again leaves the decoder, its
    current subimage included, as it was. *)
Theorem seek_subimage_same_or_out_of_range ext s :
  has_selection s ->
  seek_subimage ext (m_subimage s) 0 s = Done true s
  /\ forall i miplevel,
       i < 0 \/ Header.ImageElementCount (m_dpx_header s) <= i ->
       seek_subimage ext i miplevel s = Done false s
       /\ bind (seek_subimage ext i miplevel) (fun _ => current_subimage) s
          = Done (m_subimage s) s.
Proof.
  intros Hsel. split; [apply seek_subimage_same|].
  intros i miplevel Hout.
  assert (Hseek : seek_subimage ext i miplevel s = Done false s).
  { destruct (decide (miplevel = 0)) as [->|Hm].
    - apply seek_subimage_out_of_range; [|done]. unfold has_selection in Hsel. lia.
    - by apply seek_subimage_miplevel. }
  split; [done|]. unfold bind. by rewrite Hseek.
Qed.

(** Closed facts about sample inputs, by evaluation. *)
Ltac by_evaluation :=
  vm_compute;
  repeat match goal with
         | |- _ /\ _ => split
         | |- _ <> _ => let H := fresh in intros H; discriminate H
         | |- _ -> False => let H := fresh in intros H; discriminate H
         | |- is_Some _ => eexists; reflexivity
         | |- ex _ => eexists
         | |- _ = _ => reflexivity
         end.

Lemma seek_subimage_same_or_out_of_range_witness :
  has_selection (sample_selected sample_header)
  /\ seek_subimage sample_ext 0 0 (sample_selected sample_header)
     = Done true (sample_selected sample_header)
  /\ seek_subimage sample_ext 2 0 (sample_selected sample_header)
     = Done false (sample_selected sample_header)
  /\ seek_subimage sample_ext (-1) 0 (sample_selected sample_header)
     = Done false (sample_selected sample_header).
Proof.
  assert (Hsel : has_selection (sample_selected sample_header)) by by_evaluation.
  destruct (seek_subimage_same_or_out_of_range sample_ext
              (sample_selected sample_header) Hsel) as [Hsame Hout].
  split; [exact Hsel|]. split; [exact Hsame|]. split.
  - apply (Hout 2 0). right. by_evaluation.
  - apply (Hout (-1) 0). left. by_evaluation.
Defined.

(** ** A selection that stops at the component data size (C4) *)

(** C4.  When the index is in range and differs from the current one, and
    the element's component data size is none of the five known ones,
    [seek_subimage] records "Invalid component data size" and returns
    false, but [m_subimage] is already the new index: [current_subimage]
    then reports [i], not the index selected before, while [m_spec] is
    still the one of the earlier selection. *)
Theorem seek_subimage_unsupported_not_atomic ext s i code :
  i <> m_subimage s ->
  0 <= i < Header.ImageElementCount (m_dpx_header s) ->
  Header.ComponentDataSize (m_dpx_header s) i = DataSizeCode code ->
  exists s',
    seek_subimage ext i 0 s = Done false s'
    /\ errors s' = (errors s ++ ["Invalid component data size"])%list
    /\ current_subimage s' = Done i s'
    /\ m_subimage s' <> m_subimage s
    /\ m_spec s' = m_spec s.
Proof.
  intros Hne Hin Hsize. exists (rejected_state s i).
  split; [|done].
  apply seek_subimage_rejects; try done.
  unfold element_typedesc. by rewrite Hsize.
Qed.

Lemma seek_subimage_unsupported_not_atomic_witness :
  exists s',
    seek_subimage sample_ext 1 0 (sample_selected header_bad_size) = Done false s'
    /\ current_subimage (sample_selected header_bad_size)
       = Done 0 (sample_selected header_bad_size)
    /\ current_subimage s' = Done 1 s'.
Proof.
  destruct (seek_subimage_unsupported_not_atomic sample_ext
              (sample_selected header_bad_size) 1 9
              ltac:(by_evaluation) ltac:(by_evaluation) ltac:(reflexivity))
    as (s' & Hseek & _ & Hcur & _).
  exists s'. split; [exact Hseek|]. split; [reflexivity | exact Hcur].
Defined.

(** ** Attributes of a selected element *)

(** The metadata of [selected_state] is that of [subimage_spec], but for
    the user data. *)
Lemma find_attribute_selected_state k s i spec :
  k <> "dpx:UserData" ->
  ImageSpec.find_attribute k (m_spec (selected_state s i spec))
  = ImageSpec.find_attribute k spec.
Proof.
  intros Hk. unfold selected_state. cbn [m_spec].
  apply keeps_spec_if, keeps_attribute. congruence.
Qed.

Lemma subimage_spec_signal ext header i raw td spec :
  subimage_spec ext header i raw td = Some spec ->
  ImageSpec.find_attribute "dpx:Signal" spec
  = match find (fun v => bool_decide (fst v = Header.Signal header)) signal_table with
    | Some (_, Some str) => Some (AString str)
    | Some (_, None) => None
    | None => Some (AString "Undefined")
    end.
Proof.
  expose_spec. intros [= <-]. unfold first_match.
  destruct (find _ signal_table) as [[? [str|]]|]; cbn [snd].
  1, 3: apply find_attribute_attribute.
  repeat peel_layer. unfold dpx_attribs. cbn zeta. repeat peel_layer.
  apply find_attribute_new.
Qed.

(** C6.  After a selection, ["dpx:Signal"] is absent when the video signal
    code is [k255], the one entry of the table that holds no string; it is
    "Undefined" when the code is not in the table; and for every other
    entry of the table it is that entry's string. *)
Theorem seek_subimage_signal ext s i :
  i <> m_subimage s -> selectable (m_dpx_header s) i ->
  exists s',
    seek_subimage ext i 0 s = Done true s'
    /\ (Header.Signal (m_dpx_header s) = k255 ->
        ImageSpec.find_attribute "dpx:Signal" (m_spec s') = None)
    /\ (Header.Signal (m_dpx_header s) ∉ map fst signal_table ->
        ImageSpec.find_attribute "dpx:Signal" (m_spec s')
        = Some (AString "Undefined"))
    /\ (forall str,
          (Header.Signal (m_dpx_header s), Some str) ∈ signal_table ->
          ImageSpec.find_attribute "dpx:Signal" (m_spec s') = Some (AString str)).
Proof.
  intros Hne Hsel.
  destruct (seek_subimage_selectable ext s i Hne Hsel) as (td & spec & _ & Hspec & Hseek).
  eexists. split; [exact Hseek|].
  rewrite find_attribute_selected_state by done.
  rewrite (subimage_spec_signal _ _ _ _ _ _ Hspec).
  repeat split.
  - by intros ->.
  - intros Hnot. rewrite find_no_match; [done|].
    rewrite Forall_forall. intros p Hp Heq. apply Hnot. rewrite <- Heq.
    apply list_elem_of_fmap. by exists p.
  - intros str Hin.
    destruct (Header.Signal (m_dpx_header s)); cbn;
      repeat (apply elem_of_cons in Hin as [[= <-]|Hin]; try done);
      by apply elem_of_nil in Hin.
Qed.

Lemma seek_subimage_signal_witness :
  (exists s',
      seek_subimage sample_ext 0 0 (sample_parsed header_k255) = Done true s'
      /\ ImageSpec.find_attribute "dpx:Signal" (m_spec s') = None)
  /\ (exists s',
        seek_subimage sample_ext 0 0 (sample_parsed sample_header) = Done true s'
        /\ ImageSpec.find_attribute "dpx:Signal" (m_spec s') = Some (AString "PAL")).
Proof.
  split.
  - destruct (seek_subimage_signal sample_ext (sample_parsed header_k255) 0
                ltac:(by_evaluation) ltac:(by_evaluation))
      as (s' & Hseek & Hk255 & _ & _).
    exists s'. split; [exact Hseek | apply Hk255; reflexivity].
  - destruct (seek_subimage_signal sample_ext (sample_parsed sample_header) 0
                ltac:(by_evaluation) ltac:(by_evaluation))
      as (s' & Hseek & _ & _ & Htable).
    exists s'. split; [exact Hseek|]. apply Htable. repeat constructor.
Defined.

(** ** Pixel aspect ratio (C10) *)

Lemma subimage_spec_pixel_aspect_ratio ext header i raw td spec :
  subimage_spec ext header i raw td = Some spec ->
  ImageSpec.find_attribute "PixelAspectRatio" spec
  = Some (AFloat (if negb (Header.AspectRatio header 1 =? 0)
                  then F32.div (F32.of_Z (Header.AspectRatio header 0))
                               (F32.of_Z (Header.AspectRatio header 1))
                  else F32.one)).
Proof.
  expose_spec. intros [= <-]. repeat peel_layer.
  apply find_attribute_attribute.
Qed.

(** C10.  After a selection, ["PixelAspectRatio"] is 1.0 when the
    denominator [AspectRatio(1)] of the header is 0, and no division is
    made; otherwise it is the [float] quotient of the numerator by the
    denominator converted to [float], and that divisor is not zero.  So no
    header makes the computation divide by zero. *)
Theorem seek_subimage_pixel_aspect_ratio ext s i :
  i <> m_subimage s -> selectable (m_dpx_header s) i ->
  exists s',
    seek_subimage ext i 0 s = Done true s'
    /\ (Header.AspectRatio (m_dpx_header s) 1 = 0 ->
        ImageSpec.find_attribute "PixelAspectRatio" (m_spec s')
        = Some (AFloat F32.one))
    /\ (Header.AspectRatio (m_dpx_header s) 1 <> 0 ->
        ImageSpec.find_attribute "PixelAspectRatio" (m_spec s')
        = Some (AFloat
                  (F32.div (F32.of_Z (Header.AspectRatio (m_dpx_header s) 0))
                           (F32.of_Z (Header.AspectRatio (m_dpx_header s) 1))))
        /\ F32.is_zero (F32.of_Z (Header.AspectRatio (m_dpx_header s) 1)) = false).
Proof.
  intros Hne Hsel.
  destruct (seek_subimage_selectable ext s i Hne Hsel) as (td & spec & _ & Hspec & Hseek).
  eexists. split; [exact Hseek|].
  rewrite find_attribute_selected_state by done.
  rewrite (subimage_spec_pixel_aspect_ratio _ _ _ _ _ _ Hspec).
  split.
  - by intros ->.
  - intros Hden. split; [|by apply F32_of_Z_nonzero].
    by rewrite (proj2 (Z.eqb_neq _ _) Hden).
Qed.

Lemma seek_subimage_pixel_aspect_ratio_witness :
  (exists s',
      seek_subimage sample_ext 0 0 (sample_parsed header_k255) = Done true s'
      /\ ImageSpec.find_attribute "PixelAspectRatio" (m_spec s')
         = Some (AFloat F32.one))
  /\ (exists s',
        seek_subimage sample_ext 0 0 (sample_parsed sample_header) = Done true s'
        /\ ImageSpec.find_attribute "PixelAspectRatio" (m_spec s')
           = Some (AFloat (F32.div (F32.of_Z 1) (F32.of_Z 1)))).
Proof.
  split.
  - destruct (seek_subimage_pixel_aspect_ratio sample_ext (sample_parsed header_k255) 0
                ltac:(by_evaluation) ltac:(by_evaluation))
      as (s' & Hseek & Hzero & _).
    exists s'. split; [exact Hseek | apply Hzero; reflexivity].
  - destruct (seek_subimage_pixel_aspect_ratio sample_ext (sample_parsed sample_header) 0
                ltac:(by_evaluation) ltac:(by_evaluation))
      as (s' & Hseek & _ & Hdiv).
    exists s'. split; [exact Hseek|]. apply Hdiv. by_evaluation.
Defined.

(** ** Unset header fields (C1) *)

(** Look an attribute up in a tower whose layers all keep it, but for one
    guarded [attribute] layer of its own, above a fresh [ImageSpec]. *)
Ltac find_guarded :=
  repeat peel_layer;
  unfold dpx_attribs; cbn zeta;
  repeat peel_layer;
  unfold DPX_SET_ATTRIB_INT_N, DPX_SET_ATTRIB_FLOAT_N, DPX_SET_ATTRIB_INT,
    DPX_SET_ATTRIB_FLOAT, DPX_SET_ATTRIB_BYTE, DPX_SET_ATTRIB_STR;
  cbn [String.append];
  erewrite find_own_spec_if;
    [| repeat peel_layer; apply find_attribute_new ].

Lemma subimage_spec_guarded ext header i raw td spec name f :
  subimage_spec ext header i raw td = Some spec ->
  (name, f) ∈ guarded_fields header i ->
  ImageSpec.find_attribute name spec
  = if is_sentinel f || is_empty_string f then None else Some (attr_of f).
Proof.
  expose_spec. intros [= <-] Hin. unfold guarded_fields in Hin.
  repeat (apply elem_of_cons in Hin as [[= -> ->]|Hin]);
    [ .. | by apply elem_of_nil in Hin ].
  all: find_guarded.
  all: cbn [is_sentinel is_empty_string attr_of]; unfold string_is_set.
  all: repeat match goal with
         | |- context [Z.eqb ?a ?b] => destruct (Z.eqb a b)
         | |- context [F32.isnan ?a] => destruct (F32.isnan a)
         | |- context [Ascii.eqb ?a ?b] => destruct (Ascii.eqb a b)
         end; reflexivity.
Qed.

(** C1, as the code has it.  After a selection, for each guarded field: when
    the field holds its sentinel (0xFFFFFFFF, NaN, 0xFF, or a first byte
    0xFF for a string) its attribute is absent; a string field whose first
    byte is NUL, the empty string, is left out as well; in every other case
    the attribute is present and carries the field's value (for a string,
    the characters before the first NUL). *)
Theorem seek_subimage_guarded_fields ext s i :
  i <> m_subimage s -> selectable (m_dpx_header s) i ->
  exists s',
    seek_subimage ext i 0 s = Done true s'
    /\ forall name f,
         (name, f) ∈ guarded_fields (m_dpx_header s) i ->
         ImageSpec.find_attribute name (m_spec s')
         = if is_sentinel f || is_empty_string f then None
           else Some (attr_of f).
Proof.
  intros Hne Hsel.
  destruct (seek_subimage_selectable ext s i Hne Hsel) as (td & spec & _ & Hspec & Hseek).
  eexists. split; [exact Hseek|].
  intros name f Hin.
  rewrite find_attribute_selected_state.
  - by apply (subimage_spec_guarded _ _ _ _ _ _ _ _ Hspec).
  - intros ->. unfold guarded_fields in Hin.
    repeat (apply elem_of_cons in Hin as [[=]|Hin]). by apply elem_of_nil in Hin.
Qed.

Lemma seek_subimage_guarded_fields_witness :
  exists s',
    seek_subimage sample_ext 0 0 (sample_parsed sample_header) = Done true s'
    /\ ImageSpec.find_attribute "dpx:Version" (m_spec s') = Some (AString "V2.0")
    /\ ImageSpec.find_attribute "dpx:EncryptKey" (m_spec s') = None
    /\ ImageSpec.find_attribute "dpx:DittoKey" (m_spec s') = Some (AUInt 1)
    /\ ImageSpec.find_attribute "dpx:FieldNumber" (m_spec s') = None.
Proof.
  destruct (seek_subimage_guarded_fields sample_ext (sample_parsed sample_header) 0
              ltac:(by_evaluation) ltac:(by_evaluation))
    as (s' & Hseek & Hfields).
  exists s'. split; [exact Hseek|].
  repeat split.
  - apply (Hfields "dpx:Version" (StringField "V2.0")). repeat constructor.
  - apply (Hfields "dpx:EncryptKey" (U32Field 0xFFFFFFFF)). repeat constructor.
  - apply (Hfields "dpx:DittoKey" (U32Field 1)). repeat constructor.
  - apply (Hfields "dpx:FieldNumber" (U8Field 0xFF)). repeat constructor.
Defined.

(** C1 as the specification words it fails for a string field: the empty
    string is not the sentinel, yet its attribute is absent. *)
Lemma empty_string_field_is_absent :
  (("dpx:Version", StringField (Header.version header_no_version))
     ∈ guarded_fields header_no_version 0)
  /\ is_sentinel (StringField (Header.version header_no_version)) = false
  /\ exists s',
       seek_subimage sample_ext 0 0 (sample_parsed header_no_version) = Done true s'
       /\ ImageSpec.find_attribute "dpx:Version" (m_spec s') = None.
Proof.
  split; [repeat constructor|]. split; [reflexivity|].
  eexists. split; vm_compute; reflexivity.
Qed.
(** ** What a call may change *)

Lemma step_refl s : step s s.
Proof. by split. Qed.

Lemma step_trans s1 s2 s3 : step s1 s2 -> step s2 s3 -> step s1 s3.
Proof.
  intros [Hh1 Hs1 Hr1 Hl1 Hf1 Hc1 Hsel1] [Hh2 Hs2 Hr2 Hl2 Hf2 Hc2 Hsel2].
  split; try congruence; try lia; try tauto.
  - intros Hsize. specialize (Hr1 Hsize). rewrite <- Hh1 in Hsize.
    specialize (Hr2 Hsize). lia.
  - intros Hbuf. destruct (Hf1 Hbuf) as [Hb1 Hn1].
    destruct Hf2 as [Hb2 Hn2]; [congruence|]. split; congruence.
  - intros Hraw. destruct (Hc1 Hraw) as [Hr Hn].
    destruct (Hc2 Hr) as [Hr' Hn']. split; congruence.
Qed.

Lemma user_data_reads_app l1 l2 :
  user_data_reads (l1 ++ l2) = (user_data_reads l1 + user_data_reads l2)%nat.
Proof. unfold user_data_reads. by rewrite List.filter_app, length_app. Qed.

Lemma conversions_app l1 l2 :
  conversions (l1 ++ l2) = (conversions l1 + conversions l2)%nat.
Proof. unfold conversions. by rewrite List.filter_app, length_app. Qed.

Lemma user_data_reads_none evs :
  Forall (fun e => is_user_data_read e = false) evs -> user_data_reads evs = 0%nat.
Proof.
  unfold user_data_reads. induction 1 as [|e l He _ IH]; [done|].
  simpl. rewrite He. exact IH.
Qed.

Lemma conversions_none evs :
  Forall (fun e => is_conversion e = false) evs -> conversions evs = 0%nat.
Proof.
  unfold conversions. induction 1 as [|e l He _ IH]; [done|].
  simpl. rewrite He. exact IH.
Qed.

Lemma read_into_length n src : length (read_into n src) = n.
Proof.
  unfold read_into. rewrite length_take, length_app, length_replicate. lia.
Qed.

Lemma buf_empty_false {A} (l : list A) : l <> [] -> buf_empty l = false.
Proof. by destruct l. Qed.

Lemma read_into_nonempty n src : (0 < n)%nat -> read_into n src <> [].
Proof.
  intros Hn Hnil. pose proof (read_into_length n src) as Hlen.
  rewrite Hnil in Hlen. cbn in Hlen. lia.
Qed.

(** Once a selection has gone through, no read of the user data block is
    pending. *)
Lemma reads_user_data_selected_state s i spec :
  0 <= Header.UserSize (m_dpx_header s) ->
  reads_user_data (selected_state s i spec) = false.
Proof.
  intros Hsize. unfold reads_user_data at 1, selected_state.
  cbn [m_userBuf m_dpx_header].
  destruct (reads_user_data s) eqn:Hreads; [|exact Hreads].
  unfold reads_user_data in Hreads.
  rewrite (buf_empty_false (read_into _ _)); [done|].
  apply read_into_nonempty. lia.
Qed.

Lemma step_selected_state s i spec :
  0 <= i < Header.ImageElementCount (m_dpx_header s) ->
  step s (selected_state s i spec).
Proof.
  intros Hin. split; try done.
  - intros Hsize. unfold pending_read.
    rewrite (reads_user_data_selected_state s i spec Hsize).
    unfold selected_state. cbn [io_log].
    destruct (reads_user_data s); [|lia].
    rewrite user_data_reads_app. cbn. lia.
  - unfold selected_state. cbn [io_log].
    destruct (reads_user_data s); [|done]. rewrite user_data_reads_app. lia.
  - intros Hbuf. unfold selected_state, reads_user_data. cbn [io_log m_userBuf].
    by rewrite (buf_empty_false _ Hbuf).
  - intros Hraw. unfold selected_state. cbn [io_log m_rawcolor].
    split; [by destruct (_ =? 1)|].
    destruct (reads_user_data s); [|done]. rewrite conversions_app. cbn. lia.
Qed.

Lemma step_rejected_state s i :
  0 <= i < Header.ImageElementCount (m_dpx_header s) ->
  step s (rejected_state s i).
Proof. intros Hin. by split. Qed.

Lemma step_seek_subimage ext s i miplevel :
  exists b s', seek_subimage ext i miplevel s = Done b s' /\ step s s'.
Proof.
  destruct (seek_subimage_outcome ext s i miplevel) as (b & s' & Hseek & Hout).
  exists b, s'. split; [done|].
  destruct Hout; auto using step_refl, step_selected_state, step_rejected_state.
Qed.

(** Appending stream events that are not reads of the user data block, and
    are not conversions when [m_rawcolor] is set. *)
Lemma step_log_io s evs :
  Forall (fun e => is_user_data_read e = false) evs ->
  (m_rawcolor s = true -> Forall (fun e => is_conversion e = false) evs) ->
  forall buf, step s (set_m_decodebuf buf (set_io_log (io_log s ++ evs) s)).
Proof.
  intros Hreads Hconv buf.
  pose proof (user_data_reads_none evs Hreads) as Hr.
  split; unfold pending_read, reads_user_data, has_selection; run_monad; try done.
  all: try rewrite user_data_reads_app; try lia.
  - intros _. split; [done|lia].
  - intros Hraw. split; [done|]. rewrite conversions_app.
    rewrite (conversions_none evs (Hconv Hraw)). lia.
Qed.

Lemma step_read_native_scanlines ext s i miplevel ybegin yend z :
  exists r s', read_native_scanlines ext i miplevel ybegin yend z s = Done r s'
               /\ step s s'.
Proof.
  unfold read_native_scanlines.
  destruct (step_seek_subimage ext s i miplevel) as (b & s1 & Hseek & Hstep).
  rewrite (bind_run _ _ _ _ _ Hseek).
  destruct b; cbn [negb]; [|eexists _, _; by split].
  destruct s1 as [sub str hdr ubuf raw dbuf spec errs log].
  assert (Hlog : forall evs buf,
             Forall (fun e => is_user_data_read e = false) evs ->
             (raw = true -> Forall (fun e => is_conversion e = false) evs) ->
             step s (Build_DPXInput sub str hdr ubuf raw buf spec errs (log ++ evs))).
  { intros evs buf H1 H2. eapply step_trans; [exact Hstep|].
    by apply (step_log_io (Build_DPXInput sub str hdr ubuf raw dbuf spec errs log)). }
  clear Hseek Hstep.
  unfold ReadBlock. run_monad.
  destruct raw; run_monad.
  - destruct (match str with Some f => _ | None => None end); run_monad.
    all: eexists _, _; split; [reflexivity|].
    all: apply (Hlog [_] dbuf); [by repeat constructor | intros _; by repeat constructor].
  - destruct (QueryRGBBufferSize ext hdr i _ >? 0); run_monad.
    all: destruct (match str with Some f => _ | None => None end); run_monad.
    all: try destruct (ConvertToRGB ext hdr i _ _).
    all: eexists _, _; (split; [reflexivity|]).
    all: rewrite <- ?app_assoc; apply Hlog; [by repeat constructor | intros [=]].
Qed.

Lemma step_run_op ext o s :
  exists s', run_op ext o s = Done tt s' /\ step s s'.
Proof.
  destruct o as [i m|i m yb ye z|i m y z|]; cbn [run_op].
  - destruct (step_seek_subimage ext s i m) as (b & s' & Hrun & Hstep).
    exists s'. by rewrite (bind_run _ _ _ _ _ Hrun).
  - destruct (step_read_native_scanlines ext s i m yb ye z) as (r & s' & Hrun & Hstep).
    exists s'. by rewrite (bind_run _ _ _ _ _ Hrun).
  - unfold read_native_scanline.
    destruct (step_read_native_scanlines ext s i m y (y + 1) z) as (r & s' & Hrun & Hstep).
    exists s'. by rewrite (bind_run _ _ _ _ _ Hrun).
  - exists s. split; [done | apply step_refl].
Qed.

(** Every sequence of calls runs to its end. *)
Lemma step_run_ops ext ops : forall s,
  exists s', run_ops ext ops s = Done tt s' /\ step s s'.
Proof.
  induction ops as [|o ops IH]; intros s; cbn [run_ops].
  - exists s. split; [done | apply step_refl].
  - destruct (step_run_op ext o s) as (s1 & Hrun1 & Hstep1).
    destruct (IH s1) as (s2 & Hrun2 & Hstep2).
    exists s2. rewrite (bind_run _ _ _ _ _ Hrun1). split; [done|].
    by eapply step_trans.
Qed.

(** ** Opening a file establishes a selection *)

Lemma ReadHeader_run s :
  ReadHeader s
  = match m_stream s with
    | Some f =>
        match stream_header f with
        | Some h =>
            Done true
              (set_m_dpx_header h (set_io_log (io_log s ++ [EvReadHeader]) s))
        | None => Done false (set_io_log (io_log s ++ [EvReadHeader]) s)
        end
    | None => Done false (set_io_log (io_log s ++ [EvReadHeader]) s)
    end.
Proof.
  unfold ReadHeader. destruct s as [? [[[h|] ? ?]|] ? ? ? ? ? ? ?]; reflexivity.
Qed.

(** [close] resets the decoder: nothing selected, no stream, an empty user
    data buffer, no raw colour. *)
Lemma close_run s :
  exists s',
    close s = Done true s'
    /\ m_subimage s' = -1 /\ m_stream s' = None
    /\ m_userBuf s' = [] /\ m_rawcolor s' = false.
Proof.
  destruct s as [? [?|] ? ? ? ? ? ? ?]; eexists; repeat split; reflexivity.
Qed.

(** A decoder with nothing selected that [open] succeeds on holds a
    selection afterwards, and keeps holding one through every sequence of
    calls. *)
Lemma open_has_selection ext files name s r s' :
  m_subimage s = -1 ->
  open ext files name s = Done (true, r) s' -> has_selection s'.
Proof.
  intros Hclosed. unfold open.
  destruct (files name) as [f|]; [|intros H; discriminate H].
  unfold bind at 1. unfold modify at 1.
  unfold bind at 1. rewrite ReadHeader_run. cbn [set_m_stream m_stream].
  destruct (stream_header f) as [h|]; cbn [negb].
  2: { unfold bind at 1, errorfmt at 1, modify at 1. unfold bind at 1.
       match goal with |- context [close ?s1] =>
         destruct (close_run s1) as (s2 & -> & _) end.
       intros H; discriminate H. }
  unfold bind at 1.
  match goal with
  | |- context [seek_subimage ext 0 0 ?s1] =>
      destruct (seek_subimage_outcome ext s1 0 0) as (b & s2 & Hseek & Hout);
      rewrite Hseek
  end.
  destruct b.
  2: { unfold bind at 1. destruct (close_run s2) as (s3 & -> & _).
       intros H; discriminate H. }
  intros [= _ <-].
  inversion Hout; subst; cbn in *; try lia.
  unfold has_selection, selected_state. by cbn.
Qed.

Lemma opened_has_selection ext files name s r s1 ops s2 :
  m_subimage s = -1 ->
  open ext files name s = Done (true, r) s1 ->
  run_ops ext ops s1 = Done tt s2 ->
  has_selection s2.
Proof.
  intros Hclosed Hopen Hrun.
  destruct (step_run_ops ext ops s1) as (s2' & Hrun' & Hstep).
  rewrite Hrun in Hrun'. injection Hrun' as <-.
  apply (step_selection _ _ Hstep). by eapply open_has_selection.
Qed.

(** ** The user data block is read once (C7) *)

(** C7.  A selection made while the user data buffer is empty and the
    header's user size is neither 0 nor 0xFFFFFFFF reads the block, once,
    into a buffer of that size; any other selection issues no read and
    leaves the buffer alone.  Over any sequence of selections and scanline
    reads the block is read at most once, and not at all once the buffer is
    filled: nothing in the sequence empties it. *)
Theorem user_data_read_at_most_once ext s :
  0 <= Header.UserSize (m_dpx_header s) ->
  (forall i,
      i <> m_subimage s -> selectable (m_dpx_header s) i ->
      exists s',
        seek_subimage ext i 0 s = Done true s'
        /\ (m_userBuf s = [] ->
            Header.UserSize (m_dpx_header s) <> 0 ->
            Header.UserSize (m_dpx_header s) <> 0xFFFFFFFF ->
            io_log s'
            = (io_log s ++ [EvReadUserData (Header.UserSize (m_dpx_header s))])%list
            /\ m_userBuf s' <> []
            /\ length (m_userBuf s') = Z.to_nat (Header.UserSize (m_dpx_header s)))
        /\ (m_userBuf s <> [] \/ Header.UserSize (m_dpx_header s) = 0
            \/ Header.UserSize (m_dpx_header s) = 0xFFFFFFFF ->
            io_log s' = io_log s /\ m_userBuf s' = m_userBuf s))
  /\ (forall ops,
        exists s',
          run_ops ext ops s = Done tt s'
          /\ (user_data_reads (io_log s) <= user_data_reads (io_log s')
              <= user_data_reads (io_log s) + 1)%nat
          /\ (m_userBuf s <> [] ->
              m_userBuf s' = m_userBuf s
              /\ user_data_reads (io_log s') = user_data_reads (io_log s))).
Proof.
  intros Hsize. split.
  - intros i Hne Hsel.
    destruct (seek_subimage_selectable ext s i Hne Hsel) as (td & spec & _ & _ & Hseek).
    eexists. split; [exact Hseek|].
    unfold selected_state. cbn [io_log m_userBuf]. split.
    + intros Hbuf Hn0 Hnff.
      assert (Hreads : reads_user_data s = true).
      { unfold reads_user_data. rewrite Hbuf. cbn [buf_empty andb].
        by rewrite (proj2 (Z.eqb_neq _ _) Hn0), (proj2 (Z.eqb_neq _ _) Hnff). }
      rewrite Hreads. split; [done|].
      rewrite read_into_length. split; [|done].
      apply read_into_nonempty. lia.
    + intros Hno.
      assert (Hreads : reads_user_data s = false).
      { unfold reads_user_data. destruct Hno as [Hbuf|[->| ->]].
        - by rewrite (buf_empty_false _ Hbuf).
        - by rewrite andb_false_r.
        - by rewrite andb_false_r. }
      by rewrite Hreads.
  - intros ops. destruct (step_run_ops ext ops s) as (s' & Hrun & Hstep).
    exists s'. split; [done|]. split.
    + pose proof (step_reads _ _ Hstep Hsize). pose proof (step_reads_le _ _ Hstep).
      unfold pending_read in *.
      destruct (reads_user_data s), (reads_user_data s'); lia.
    + apply (step_filled _ _ Hstep).
Qed.

(** A client that selects both elements, reads scanlines of each and comes
    back. *)
Definition sample_ops : list Op :=
  [ OpSeek 0 0; OpReadScanline 0 0 0 0; OpSeek 1 0;
    OpReadScanlines 1 0 0 2 0; OpCurrentSubimage; OpSeek 0 0; OpSeek 5 0 ].

Lemma user_data_read_at_most_once_witness :
  exists s',
    run_ops sample_ext sample_ops (sample_parsed sample_header) = Done tt s'
    /\ (user_data_reads (io_log (sample_parsed sample_header))
        <= user_data_reads (io_log s')
        <= user_data_reads (io_log (sample_parsed sample_header)) + 1)%nat.
Proof.
  destruct (proj2 (user_data_read_at_most_once sample_ext
                     (sample_parsed sample_header) ltac:(by_evaluation))
              sample_ops) as (s' & Hrun & Hreads & _).
  exists s'. split; [exact Hrun | exact Hreads].
Defined.

(** The log of that client: the user data block is read at the first
    selection and never again. *)
Lemma sample_ops_log :
  exists s',
    run_ops sample_ext sample_ops (sample_parsed sample_header) = Done tt s'
    /\ user_data_reads (io_log s') = 1%nat
    /\ conversions (io_log s') = 0%nat.
Proof.
  eexists. split; [vm_compute; reflexivity|].
  split; vm_compute; reflexivity.
Qed.

(** ** Raw colour after a one-channel element (C9) *)

Lemma subimage_spec_raw_layout ext header i td spec names :
  subimage_spec ext header i true td = Some spec ->
  raw_layout (Header.ImageDescriptor header i) = Some names ->
  ImageSpec.channelnames spec = names.
Proof.
  expose_spec. intros [= <-] Hraw. repeat peel_names.
  unfold fill_channel_names.
  destruct (Header.ImageDescriptor header i); try discriminate;
    injection Hraw as <-; reflexivity.
Qed.

(** C9.  A selection whose resulting spec has exactly one channel sets
    [m_rawcolor], whatever it was before.  From then on no sequence of
    selections and scanline reads resets it or converts a block to RGB, and
    a later selection of an element of luma and chroma gives it the raw
    channel layout. *)
Theorem rawcolor_sticks_after_one_channel ext s i :
  i <> m_subimage s -> selectable (m_dpx_header s) i ->
  exists s1,
    seek_subimage ext i 0 s = Done true s1
    /\ (ImageSpec.nchannels (m_spec s1) = 1 ->
        m_rawcolor s1 = true
        /\ forall ops,
             exists s2,
               run_ops ext ops s1 = Done tt s2
               /\ m_rawcolor s2 = true
               /\ conversions (io_log s2) = conversions (io_log s1)
               /\ forall j names,
                    j <> m_subimage s2 -> selectable (m_dpx_header s2) j ->
                    raw_layout (Header.ImageDescriptor (m_dpx_header s2) j)
                    = Some names ->
                    exists s3,
                      seek_subimage ext j 0 s2 = Done true s3
                      /\ m_rawcolor s3 = true
                      /\ ImageSpec.channelnames (m_spec s3) = names).
Proof.
  intros Hne Hsel.
  destruct (seek_subimage_selectable ext s i Hne Hsel) as (td & spec & _ & _ & Hseek).
  eexists. split; [exact Hseek|].
  intros Hone.
  assert (Hraw1 : m_rawcolor (selected_state s i spec) = true).
  { unfold selected_state in *. cbn [m_rawcolor m_spec] in *. by rewrite Hone. }
  split; [exact Hraw1|].
  intros ops.
  destruct (step_run_ops ext ops (selected_state s i spec)) as (s2 & Hrun & Hstep).
  exists s2. split; [exact Hrun|].
  destruct (step_rawcolor _ _ Hstep Hraw1) as [Hraw2 Hconv].
  split; [exact Hraw2|]. split; [exact Hconv|].
  intros j names Hnej Hselj Hlayout.
  destruct (seek_subimage_selectable ext s2 j Hnej Hselj)
    as (tdj & specj & _ & Hspecj & Hseekj).
  eexists. split; [exact Hseekj|].
  split.
  - destruct Hselj as [Hin _].
    by apply (step_rawcolor _ _ (step_selected_state s2 j specj Hin)).
  - rewrite Hraw2 in Hspecj. unfold selected_state. cbn [m_spec].
    rewrite (keeps_channels_names _ _
               (keeps_channels_spec_if _ _ (keeps_channels_attribute _ _))).
    by eapply subimage_spec_raw_layout.
Qed.

Lemma rawcolor_sticks_after_one_channel_witness :
  m_rawcolor (sample_parsed sample_header) = false
  /\ exists s1,
       seek_subimage sample_ext 0 0 (sample_parsed sample_header) = Done true s1
       /\ m_rawcolor s1 = true
       /\ exists s3,
            seek_subimage sample_ext 1 0 s1 = Done true s3
            /\ m_rawcolor s3 = true
            /\ ImageSpec.channelnames (m_spec s3) = ["CbCr"; "Y"].
Proof.
  split; [reflexivity|].
  destruct (rawcolor_sticks_after_one_channel sample_ext
              (sample_parsed sample_header) 0
              ltac:(by_evaluation) ltac:(by_evaluation))
    as (s1 & Hseek & Hone).
  exists s1. split; [exact Hseek|].
  assert (Hs1 : s1 = sample_selected sample_header).
  { unfold sample_selected. rewrite Hseek. reflexivity. }
  destruct Hone as [Hraw Hops]; [rewrite Hs1; reflexivity|].
  split; [exact Hraw|].
  destruct (Hops []) as (s2 & Hrun & _ & _ & Hnext).
  injection Hrun as <-.
  apply (Hnext 1 ["CbCr"; "Y"]); rewrite Hs1; by_evaluation.
Defined.

(** * Further properties of the member functions *)

(** ** [close] and [init] *)

Lemma close_eq s : close s = Done true (closed_state s).
Proof. destruct s as [? [?|] ? ? ? ? ? ? ?]; reflexivity. Qed.

(** X1.  [close] always succeeds. It leaves nothing selected, no stream, an
    empty user data buffer and raw colour off, and keeps the parsed header,
    [m_spec], the error messages and the log of stream calls. Closing a
    closed decoder changes nothing. *)
Theorem close_resets_decoder s :
  exists s',
    close s = Done true s'
    /\ current_subimage s' = Done (-1) s'
    /\ m_stream s' = None /\ m_userBuf s' = [] /\ m_rawcolor s' = false
    /\ m_dpx_header s' = m_dpx_header s /\ m_spec s' = m_spec s
    /\ errors s' = errors s /\ io_log s' = io_log s
    /\ close s' = Done true s'.
Proof.
  exists (closed_state s). rewrite !close_eq. repeat split.
Qed.

(** ** [open] *)

Lemma open_not_found ext files name s :
  files name = None -> open ext files name s = Done (false, None) s.
Proof. intros H. unfold open. by rewrite H. Qed.

Lemma open_found ext files name f s :
  files name = Some f ->
  open ext files name s
  = match stream_header f with
    | None =>
        Done (false, None)
          (closed_state
             (set_errors (errors s ++ ["Could not read header"])
                (attached_state f s)))
    | Some h =>
        match seek_subimage ext 0 0 (set_m_dpx_header h (attached_state f s)) with
        | Done true s' => Done (true, Some (m_spec s')) s'
        | Done false s' => Done (false, None) (closed_state s')
        | AssertionFailed => AssertionFailed
        end
    end.
Proof.
  intros Hf. unfold open. rewrite Hf.
  unfold bind at 1. unfold modify at 1.
  unfold bind at 1. rewrite ReadHeader_run. cbn [set_m_stream m_stream].
  destruct (stream_header f) as [h|]; cbn [negb].
  - unfold bind at 1.
    change (set_m_dpx_header h _) with (set_m_dpx_header h (attached_state f s)).
    destruct (seek_subimage ext 0 0 _) as [[|] s'|]; [done| |done].
    unfold bind at 1. by rewrite close_eq.
  - unfold bind at 1, errorfmt at 1, modify at 1. unfold bind at 1.
    by rewrite close_eq.
Qed.

Lemma attached_state_fields f s :
  m_subimage (attached_state f s) = m_subimage s
  /\ m_userBuf (attached_state f s) = m_userBuf s
  /\ m_rawcolor (attached_state f s) = m_rawcolor s
  /\ errors (attached_state f s) = errors s.
Proof. done. Qed.

(** X2.  On a decoder with nothing selected, [open] succeeds exactly when
    the file is found, its header can be read, and element 0 can be
    selected. It then returns the spec of element 0, which is the current
    subimage, holds the stream and the header read from it, and has recorded
    no error message. *)
Theorem open_succeeds_iff ext files name s :
  m_subimage s = -1 ->
  (forall f h,
      files name = Some f -> stream_header f = Some h -> selectable h 0 ->
      exists s',
        open ext files name s = Done (true, Some (m_spec s')) s'
        /\ current_subimage s' = Done 0 s'
        /\ m_stream s' = Some f /\ m_dpx_header s' = h
        /\ errors s' = errors s)
  /\ (forall r s',
        open ext files name s = Done (true, r) s' ->
        exists f h,
          files name = Some f /\ stream_header f = Some h /\ selectable h 0
          /\ r = Some (m_spec s')).
Proof.
  intros Hclosed. split.
  - intros f h Hf Hh Hsel. rewrite (open_found _ _ _ _ _ Hf), Hh.
    destruct (seek_subimage_selectable ext (set_m_dpx_header h (attached_state f s)) 0)
      as (td & spec & _ & _ & Hseek); [cbn; lia | exact Hsel |].
    rewrite Hseek. eexists. split; [reflexivity|]. done.
  - intros r s'. destruct (files name) as [f|] eqn:Hf.
    2: { rewrite open_not_found by done. intros H; discriminate H. }
    rewrite (open_found _ _ _ _ _ Hf).
    destruct (stream_header f) as [h|] eqn:Hh; [|intros H; discriminate H].
    destruct (seek_subimage_outcome ext (set_m_dpx_header h (attached_state f s)) 0 0)
      as (b & s1 & Hseek & Hout).
    rewrite Hseek. destruct b; [|intros H; discriminate H].
    intros [= <- <-]. exists f, h. repeat split; try done.
    + inversion Hout; subst; cbn in *; lia.
    + inversion Hout; subst; cbn in *; try lia.
      match goal with H : element_typedesc _ _ = Some _ |- _ => rewrite H end.
      by eexists.
Qed.

Lemma open_succeeds_iff_witness :
  exists s',
    open sample_ext (sample_files sample_header) "sample.dpx" sample_new
    = Done (true, Some (m_spec s')) s'
    /\ current_subimage s' = Done 0 s'.
Proof.
  destruct (proj1 (open_succeeds_iff sample_ext (sample_files sample_header)
                     "sample.dpx" sample_new ltac:(reflexivity))
              (sample_stream_of sample_header) sample_header
              ltac:(reflexivity) ltac:(reflexivity) ltac:(by_evaluation))
    as (s' & Hopen & Hcur & _).
  exists s'. split; [exact Hopen | exact Hcur].
Defined.

(** X3.  When the file is found and [open] still returns false, the decoder
    is left closed, whatever state it was in, and nothing is stored into
    [newspec]. *)
Theorem open_failure_leaves_closed ext files name f s r s' :
  files name = Some f ->
  open ext files name s = Done (false, r) s' ->
  is_closed s' /\ r = None.
Proof.
  intros Hf. rewrite (open_found _ _ _ _ _ Hf).
  destruct (stream_header f) as [h|].
  - destruct (seek_subimage ext 0 0 _) as [[|] s1|]; intros H; try discriminate H.
    injection H as <- <-. done.
  - intros [= <- <-]. done.
Qed.

Lemma open_failure_leaves_closed_witness :
  exists s',
    open sample_ext (fun _ => Some stream_no_header) "bad.dpx"
      (sample_selected sample_header) = Done (false, None) s'
    /\ is_closed s'.
Proof.
  eexists. split; [reflexivity|].
  exact (proj1 (open_failure_leaves_closed sample_ext
                  (fun _ => Some stream_no_header) "bad.dpx" stream_no_header
                  (sample_selected sample_header) None _
                  ltac:(reflexivity) ltac:(reflexivity))).
Defined.

(** X4.  The messages that [open] itself records when it fails on a decoder
    with nothing selected, the file being found: an unreadable header gives
    "Could not read header"; a header without image elements gives no
    message at all; an element 0 of unknown component data size gives
    "Invalid component data size". *)
Theorem open_failure_messages ext files name s :
  m_subimage s = -1 ->
  (forall f,
      files name = Some f -> stream_header f = None ->
      exists s',
        open ext files name s = Done (false, None) s'
        /\ errors s' = (errors s ++ ["Could not read header"])%list)
  /\ (forall f h,
        files name = Some f -> stream_header f = Some h ->
        Header.ImageElementCount h <= 0 ->
        exists s',
          open ext files name s = Done (false, None) s'
          /\ errors s' = errors s)
  /\ (forall f h,
        files name = Some f -> stream_header f = Some h ->
        0 < Header.ImageElementCount h -> element_typedesc h 0 = None ->
        exists s',
          open ext files name s = Done (false, None) s'
          /\ errors s' = (errors s ++ ["Invalid component data size"])%list).
Proof.
  intros Hclosed. split; [|split].
  - intros f Hf Hh. rewrite (open_found _ _ _ _ _ Hf), Hh. by eexists.
  - intros f h Hf Hh Hcount. rewrite (open_found _ _ _ _ _ Hf), Hh.
    rewrite seek_subimage_out_of_range; [by eexists | cbn; lia | cbn; lia].
  - intros f h Hf Hh Hcount Htd. rewrite (open_found _ _ _ _ _ Hf), Hh.
    rewrite seek_subimage_rejects; [by eexists | cbn; lia | cbn; lia | done].
Qed.

Lemma open_failure_messages_witness :
  exists s',
    open sample_ext (sample_files header_no_elements) "sample.dpx" sample_new
    = Done (false, None) s'
    /\ errors s' = errors sample_new.
Proof.
  exact (proj1 (proj2 (open_failure_messages sample_ext
                         (sample_files header_no_elements) "sample.dpx"
                         sample_new ltac:(reflexivity)))
           (sample_stream_of header_no_elements) header_no_elements
           ltac:(reflexivity) ltac:(reflexivity) ltac:(by_evaluation)).
Defined.

(** X5.  [open] does not reset the selection. On a decoder whose current
    subimage is already 0, [open] on a stream with a readable header returns
    true with the spec the decoder held before the call: [seek_subimage(0,
    0)] takes its same-index return, and nothing is rebuilt from the header
    just read. *)
Theorem open_without_close_keeps_spec ext files name f h s :
  m_subimage s = 0 ->
  files name = Some f -> stream_header f = Some h ->
  exists s',
    open ext files name s = Done (true, Some (m_spec s)) s'
    /\ m_spec s' = m_spec s
    /\ m_dpx_header s' = h
    /\ m_userBuf s' = m_userBuf s
    /\ io_log s' = (io_log s ++ [EvReadHeader])%list.
Proof.
  intros Hsel Hf Hh. rewrite (open_found _ _ _ _ _ Hf), Hh.
  set (s1 := set_m_dpx_header h (attached_state f s)).
  assert (Hseek : seek_subimage ext 0 0 s1 = Done true s1).
  { pose proof (seek_subimage_same ext s1) as H.
    change (m_subimage s1) with (m_subimage s) in H. by rewrite Hsel in H. }
  rewrite Hseek. eexists. split; [reflexivity|]. done.
Qed.

Lemma open_without_close_keeps_spec_witness :
  exists s',
    open sample_ext (sample_files header_ycbcr) "sample.dpx"
      (sample_selected sample_header)
    = Done (true, Some (m_spec (sample_selected sample_header))) s'
    /\ m_dpx_header s' = header_ycbcr.
Proof.
  destruct (open_without_close_keeps_spec sample_ext (sample_files header_ycbcr)
              "sample.dpx" (sample_stream_of header_ycbcr) header_ycbcr
              (sample_selected sample_header)
              ltac:(reflexivity) ltac:(reflexivity) ltac:(reflexivity))
    as (s' & Hopen & _ & Hh & _).
  exists s'. split; [exact Hopen | exact Hh].
Defined.

(** ** [open] with a configuration *)

Lemma open_config_eq ext files name config s :
  open_config ext files name config s
  = open ext files name (set_m_rawcolor (raw_requested config) s).
Proof. reflexivity. Qed.

Lemma subimage_spec_nchannels_raw_flag s i spec :
  m_rawcolor (selected_state s i spec)
  = m_rawcolor s || (ImageSpec.nchannels (m_spec (selected_state s i spec)) =? 1).
Proof.
  unfold selected_state. cbn [m_rawcolor m_spec].
  destruct (ImageSpec.nchannels _ =? 1), (m_rawcolor s); reflexivity.
Qed.

(** X6.  [open] with a configuration sets [m_rawcolor] from the
    configuration before anything else, whatever it was. After a successful
    open of a decoder with nothing selected, raw colour is on exactly when
    the configuration asked for it or element 0 has one channel; when it was
    asked for, an element 0 of luma and chroma has its raw channel layout.
    When the file is found and the open fails, the request is forgotten: the
    decoder is closed, raw colour off. *)
Theorem open_config_rawcolor ext files name config f s :
  m_subimage s = -1 ->
  files name = Some f ->
  (forall h,
      stream_header f = Some h -> selectable h 0 ->
      exists s',
        open_config ext files name config s = Done (true, Some (m_spec s')) s'
        /\ m_rawcolor s'
           = raw_requested config || (ImageSpec.nchannels (m_spec s') =? 1)
        /\ (raw_requested config = true ->
            forall names,
              raw_layout (Header.ImageDescriptor h 0) = Some names ->
              ImageSpec.channelnames (m_spec s') = names))
  /\ (forall r s',
        open_config ext files name config s = Done (false, r) s' ->
        m_rawcolor s' = false).
Proof.
  intros Hclosed Hf. rewrite open_config_eq. split.
  - intros h Hh Hsel. rewrite (open_found _ _ _ _ _ Hf), Hh.
    set (s1 := set_m_dpx_header h (attached_state f (set_m_rawcolor _ s))).
    destruct (seek_subimage_selectable ext s1 0)
      as (td & spec & _ & Hspec & Hseek); [cbn; lia | exact Hsel |].
    rewrite Hseek. eexists. split; [reflexivity|].
    split; [apply subimage_spec_nchannels_raw_flag|].
    intros Hreq names Hraw.
    change (m_rawcolor s1) with (raw_requested config) in Hspec.
    rewrite Hreq in Hspec. unfold selected_state. cbn [m_spec].
    rewrite (keeps_channels_names _ _
               (keeps_channels_spec_if _ _ (keeps_channels_attribute _ _))).
    by eapply subimage_spec_raw_layout.
  - intros r s'. rewrite (open_found _ _ _ _ _ Hf).
    destruct (stream_header f) as [h|].
    + destruct (seek_subimage ext 0 0 _) as [[|] s1|]; intros H; try discriminate H.
      by injection H as <- <-.
    + by intros [= <- <-].
Qed.

Lemma open_config_rawcolor_witness :
  exists s',
    open_config sample_ext (sample_files header_ycbcr) "sample.dpx" config_raw
      sample_new = Done (true, Some (m_spec s')) s'
    /\ m_rawcolor s' = true
    /\ ImageSpec.channelnames (m_spec s') = ["CbCr"; "Y"].
Proof.
  destruct (proj1 (open_config_rawcolor sample_ext (sample_files header_ycbcr)
                     "sample.dpx" config_raw (sample_stream_of header_ycbcr)
                     sample_new ltac:(reflexivity) ltac:(reflexivity))
              header_ycbcr ltac:(reflexivity) ltac:(by_evaluation))
    as (s' & Hopen & Hraw & Hnames).
  exists s'. split; [exact Hopen|]. split.
  - rewrite Hraw. reflexivity.
  - apply Hnames; reflexivity.
Defined.

(** ** No assertion fails *)

Lemma open_returns ext files name s :
  exists r s', open ext files name s = Done r s'.
Proof.
  destruct (files name) as [f|] eqn:Hf.
  - rewrite (open_found _ _ _ _ _ Hf). destruct (stream_header f) as [h|].
    + destruct (seek_subimage_outcome ext (set_m_dpx_header h (attached_state f s)) 0 0)
        as (b & s1 & -> & _).
      destruct b; by eexists _, _.
    + by eexists _, _.
  - rewrite open_not_found by done. by eexists _, _.
Qed.

(** X7.  No call of a member function stops at a failed [OIIO_ASSERT]: every
    table handed to [lookup] has at least two pairs and the key code array
    has seven elements. So [seek_subimage], [read_native_scanlines],
    [read_native_scanline], both forms of [open], [close], and every
    sequence of calls made on an open decoder, return. *)
Theorem member_functions_return ext files name config s :
  (forall i miplevel, exists b s', seek_subimage ext i miplevel s = Done b s')
  /\ (forall i miplevel ybegin yend z,
        exists r s', read_native_scanlines ext i miplevel ybegin yend z s = Done r s')
  /\ (forall i miplevel y z,
        exists r s', read_native_scanline ext i miplevel y z s = Done r s')
  /\ (exists r s', open ext files name s = Done r s')
  /\ (exists r s', open_config ext files name config s = Done r s')
  /\ (exists s', close s = Done true s')
  /\ (forall ops, exists s', run_ops ext ops s = Done tt s').
Proof.
  repeat split.
  - intros i m. destruct (seek_subimage_outcome ext s i m) as (b & s' & H & _). eauto.
  - intros i m yb ye z.
    destruct (step_read_native_scanlines ext s i m yb ye z) as (r & s' & H & _). eauto.
  - intros i m y z. unfold read_native_scanline.
    destruct (step_read_native_scanlines ext s i m y (y + 1) z) as (r & s' & H & _). eauto.
  - apply open_returns.
  - rewrite open_config_eq. apply open_returns.
  - rewrite close_eq. eauto.
  - intros ops. destruct (step_run_ops ext ops s) as (s' & H & _). eauto.
Qed.

(** ** How [seek_subimage] fails *)

(** X8.  A selection that returns true leaves the error messages as they
    were and makes [i] the current subimage. One that returns false either
    leaves the whole decoder untouched and records no message (a miplevel
    other than 0, or an index out of range), or is the rejection of an
    unknown component data size, with its message. *)
Theorem seek_subimage_failure_modes ext s i miplevel :
  exists b s',
    seek_subimage ext i miplevel s = Done b s'
    /\ (b = true ->
        miplevel = 0 /\ current_subimage s' = Done i s' /\ errors s' = errors s)
    /\ (b = false ->
        (s' = s
         /\ (miplevel <> 0 \/ i < 0 \/ Header.ImageElementCount (m_dpx_header s) <= i))
        \/ (errors s' = (errors s ++ ["Invalid component data size"])%list
            /\ element_typedesc (m_dpx_header s) i = None
            /\ 0 <= i < Header.ImageElementCount (m_dpx_header s))).
Proof.
  destruct (seek_subimage_outcome ext s i miplevel) as (b & s' & Hseek & Hout).
  exists b, s'. split; [exact Hseek|].
  destruct Hout; (split; [intros Hb | intros Hb]); try discriminate Hb.
  - left. split; [done | by left].
  - subst. done.
  - left. split; [done|]. right. lia.
  - right. done.
  - done.
Qed.

(** ** The frame of the spec *)

Lemma keeps_layout_attribute n v : keeps_layout (ImageSpec.attribute n v).
Proof. done. Qed.

Lemma keeps_layout_spec_if c f : keeps_layout f -> keeps_layout (spec_if c f).
Proof. intros H spec. unfold spec_if. destruct c; [apply H | done]. Qed.

Lemma keeps_layout_image_linearity ext header i :
  keeps_layout (image_linearity ext header i).
Proof.
  intros spec. unfold image_linearity.
  destruct (Header.Transfer header i); try done. by destruct (_ && _).
Qed.

Lemma keeps_layout_apply f spec :
  keeps_layout f -> layout (f spec) = layout spec.
Proof. intros H. apply H. Qed.

Lemma keeps_layout_INT x v : keeps_layout (DPX_SET_ATTRIB_INT x v).
Proof. apply keeps_layout_spec_if, keeps_layout_attribute. Qed.
Lemma keeps_layout_FLOAT x v : keeps_layout (DPX_SET_ATTRIB_FLOAT x v).
Proof. apply keeps_layout_spec_if, keeps_layout_attribute. Qed.
Lemma keeps_layout_BYTE x v : keeps_layout (DPX_SET_ATTRIB_BYTE x v).
Proof. apply keeps_layout_spec_if, keeps_layout_attribute. Qed.
Lemma keeps_layout_STR x v : keeps_layout (DPX_SET_ATTRIB_STR x v).
Proof. apply keeps_layout_spec_if, keeps_layout_attribute. Qed.

Lemma keeps_layout_timecode (f g : ImageSpec.t -> ImageSpec.t) :
  keeps_layout f -> keeps_layout g -> keeps_layout (fun spec => g (f spec)).
Proof. intros Hf Hg spec. by rewrite Hg, Hf. Qed.

#[local] Hint Resolve keeps_layout_attribute keeps_layout_spec_if
  keeps_layout_image_linearity keeps_layout_INT keeps_layout_FLOAT
  keeps_layout_BYTE keeps_layout_STR : keeps.
#[local] Hint Extern 2 (keeps_layout (DPX_SET_ATTRIB_INT_N _ _)) =>
  apply keeps_layout_INT : keeps.
#[local] Hint Extern 2 (keeps_layout (DPX_SET_ATTRIB_FLOAT_N _ _)) =>
  apply keeps_layout_FLOAT : keeps.
#[local] Hint Extern 3 (keeps_layout (fun spec => _)) =>
  apply keeps_layout_timecode : keeps.

Lemma keeps_layout_dpx_attribs header i : keeps_layout (dpx_attribs header i).
Proof.
  intros spec. unfold dpx_attribs. cbn zeta.
  repeat (rewrite keeps_layout_apply by auto with keeps). done.
Qed.

#[local] Hint Resolve keeps_layout_dpx_attribs : keeps.

Lemma keeps_layout_signal (o : option string) spec :
  layout
    match o with
    | Some str => ImageSpec.attribute "dpx:Signal" (AString str) spec
    | None => spec
    end
  = layout spec.
Proof. by destruct o. Qed.

Ltac peel_layout :=
  match goal with
  | |- context [layout (match ?o with Some _ => _ | None => _ end)] =>
      rewrite (keeps_layout_signal o)
  | |- context [layout (?f ?spec)] =>
      rewrite (keeps_layout_apply f spec) by auto with keeps
  end.

Lemma layout_fill_channel_names ext header i raw spec :
  layout (fill_channel_names ext header i raw spec)
  = fill_channel_names ext header i raw (layout spec).
Proof.
  unfold fill_channel_names, spec_default_channel_names.
  destruct (Header.ImageDescriptor header i), raw; cbn;
    try destruct (default_channel_names ext _) as [[? ?] ?]; reflexivity.
Qed.

(** The frame of the spec that [subimage_spec] returns. *)
Lemma subimage_spec_layout ext header i raw td spec :
  subimage_spec ext header i raw td = Some spec ->
  layout spec = spec_frame ext header i raw td.
Proof.
  expose_spec. intros [= <-]. repeat peel_layout.
  unfold spec_frame. rewrite layout_fill_channel_names. f_equal.
  unfold spec_if, ImageSpec_new.
  destruct (default_channel_names ext _) as [[? ?] ?].
  by repeat match goal with |- context [if ?c then _ else _] => destruct c end.
Qed.

Lemma layout_selected_state s i spec :
  layout (m_spec (selected_state s i spec)) = layout spec.
Proof.
  unfold selected_state. cbn [m_spec].
  apply keeps_layout_spec_if, keeps_layout_attribute.
Qed.

(** A selection that goes through, with the frame of its spec. *)
Lemma seek_subimage_frame ext s i :
  i <> m_subimage s -> selectable (m_dpx_header s) i ->
  exists td s',
    element_typedesc (m_dpx_header s) i = Some td
    /\ seek_subimage ext i 0 s = Done true s'
    /\ layout (m_spec s') = spec_frame ext (m_dpx_header s) i (m_rawcolor s) td
    /\ m_rawcolor s' = m_rawcolor s || (ImageSpec.nchannels (m_spec s') =? 1).
Proof.
  intros Hne Hsel.
  destruct (seek_subimage_selectable ext s i Hne Hsel) as (td & spec & Htd & Hspec & Hseek).
  exists td, (selected_state s i spec). repeat split; try done.
  - rewrite layout_selected_state. by eapply subimage_spec_layout.
  - apply subimage_spec_nchannels_raw_flag.
Qed.

(** ** Geometry and pixel type *)

Lemma fill_channel_names_geometry ext header i raw spec :
  let spec' := fill_channel_names ext header i raw spec in
  ImageSpec.x spec' = ImageSpec.x spec
  /\ ImageSpec.y spec' = ImageSpec.y spec
  /\ ImageSpec.width spec' = ImageSpec.width spec
  /\ ImageSpec.height spec' = ImageSpec.height spec
  /\ ImageSpec.full_width spec' = ImageSpec.full_width spec
  /\ ImageSpec.full_height spec' = ImageSpec.full_height spec
  /\ ImageSpec.format spec' = ImageSpec.format spec.
Proof.
  unfold fill_channel_names, spec_default_channel_names.
  destruct (Header.ImageDescriptor header i), raw; cbn;
    try destruct (default_channel_names ext _) as [[? ?] ?]; done.
Qed.

Lemma element_typedesc_known header i td :
  element_typedesc header i = Some td -> td <> UNKNOWN.
Proof.
  unfold element_typedesc.
  destruct (Header.ComponentDataSize header i);
    try destruct (negb _); intros [= <-]; discriminate.
Qed.

(** X9.  After a selection the spec has the header's width and height and
    the pixel type of the element's component data size and sign, never
    [UNKNOWN]. The origin is the header's offset when that fits an [int] and
    stays 0 otherwise, so it is never negative; the full size is the
    header's original size when that is positive as an [int], and the image
    size otherwise, as for the unset value 0xFFFFFFFF and for 0. *)
Theorem seek_subimage_geometry ext s i :
  i <> m_subimage s -> selectable (m_dpx_header s) i ->
  exists s',
    seek_subimage ext i 0 s = Done true s'
    /\ ImageSpec.width (m_spec s') = Header.Width (m_dpx_header s)
    /\ ImageSpec.height (m_spec s') = Header.Height (m_dpx_header s)
    /\ element_typedesc (m_dpx_header s) i = Some (ImageSpec.format (m_spec s'))
    /\ ImageSpec.format (m_spec s') <> UNKNOWN
    /\ ImageSpec.x (m_spec s')
       = (if Header.xOffset (m_dpx_header s) <=? INT_MAX
          then Header.xOffset (m_dpx_header s) else 0)
    /\ ImageSpec.y (m_spec s')
       = (if Header.yOffset (m_dpx_header s) <=? INT_MAX
          then Header.yOffset (m_dpx_header s) else 0)
    /\ (0 <= Header.xOffset (m_dpx_header s) ->
        0 <= ImageSpec.x (m_spec s') <= INT_MAX)
    /\ (0 <= Header.yOffset (m_dpx_header s) ->
        0 <= ImageSpec.y (m_spec s') <= INT_MAX)
    /\ ImageSpec.full_width (m_spec s')
       = (if to_int32 (Header.xOriginalSize (m_dpx_header s)) >? 0
          then Header.xOriginalSize (m_dpx_header s)
          else Header.Width (m_dpx_header s))
    /\ ImageSpec.full_height (m_spec s')
       = (if to_int32 (Header.yOriginalSize (m_dpx_header s)) >? 0
          then Header.yOriginalSize (m_dpx_header s)
          else Header.Height (m_dpx_header s))
    /\ (Header.xOriginalSize (m_dpx_header s) = 0xFFFFFFFF
        \/ Header.xOriginalSize (m_dpx_header s) = 0 ->
        ImageSpec.full_width (m_spec s') = Header.Width (m_dpx_header s)).
Proof.
  intros Hne Hsel.
  destruct (seek_subimage_frame ext s i Hne Hsel) as (td & s' & Htd & Hseek & Hframe & _).
  exists s'. split; [exact Hseek|].
  set (h := m_dpx_header s) in *.
  destruct (fill_channel_names_geometry ext h i (m_rawcolor s)
              (spec_if (to_int32 (Header.yOriginalSize h) >? 0)
                 (ImageSpec.set_full_height (Header.yOriginalSize h))
                 (spec_if (to_int32 (Header.xOriginalSize h) >? 0)
                    (ImageSpec.set_full_width (Header.xOriginalSize h))
                    (spec_if (Header.yOffset h <=? INT_MAX)
                       (ImageSpec.set_y (Header.yOffset h))
                       (spec_if (Header.xOffset h <=? INT_MAX)
                          (ImageSpec.set_x (Header.xOffset h))
                          (ImageSpec_new ext (Header.Width h) (Header.Height h)
                             (Header.ImageElementComponentCount h i) td))))))
    as (Hx & Hy & Hw & Hh & Hfw & Hfh & Hfmt).
  fold (spec_frame ext h i (m_rawcolor s) td) in Hx, Hy, Hw, Hh, Hfw, Hfh, Hfmt.
  rewrite <- Hframe in Hx, Hy, Hw, Hh, Hfw, Hfh, Hfmt.
  change (ImageSpec.x (layout ?a)) with (ImageSpec.x a) in Hx.
  change (ImageSpec.y (layout ?a)) with (ImageSpec.y a) in Hy.
  change (ImageSpec.width (layout ?a)) with (ImageSpec.width a) in Hw.
  change (ImageSpec.height (layout ?a)) with (ImageSpec.height a) in Hh.
  change (ImageSpec.full_width (layout ?a)) with (ImageSpec.full_width a) in Hfw.
  change (ImageSpec.full_height (layout ?a)) with (ImageSpec.full_height a) in Hfh.
  change (ImageSpec.format (layout ?a)) with (ImageSpec.format a) in Hfmt.
  rewrite Hx, Hy, Hw, Hh, Hfw, Hfh, Hfmt. clear Hx Hy Hw Hh Hfw Hfh Hfmt Hframe.
  unfold spec_if, ImageSpec_new.
  destruct (default_channel_names ext _) as [[names alpha] z].
  assert (Hint : INT_MAX = 2147483647) by reflexivity.
  assert (Hunset : (to_int32 4294967295 >? 0) = false) by reflexivity.
  assert (Hzero : (to_int32 0 >? 0) = false) by reflexivity.
  repeat split.
  all: try (apply (element_typedesc_known h i); rewrite Htd; f_equal).
  all: try (rewrite Htd; f_equal).
  all: try (intros [-> | ->]; rewrite ?Hunset, ?Hzero).
  all: repeat match goal with
         | |- context [if ?c then _ else _] => destruct c eqn:?
         end; cbn; try done; lia.
Qed.

Lemma seek_subimage_geometry_witness :
  exists s',
    seek_subimage sample_ext 0 0 (sample_parsed sample_header) = Done true s'
    /\ ImageSpec.width (m_spec s') = 4
    /\ ImageSpec.format (m_spec s') = UINT8
    /\ ImageSpec.x (m_spec s') = 0
    /\ ImageSpec.full_width (m_spec s') = 4.
Proof.
  destruct (seek_subimage_geometry sample_ext (sample_parsed sample_header) 0
              ltac:(by_evaluation) ltac:(by_evaluation))
    as (s' & Hseek & Hw & _ & Htd & _ & Hx & _ & _ & _ & Hfw & _).
  exists s'. split; [exact Hseek|]. split; [exact Hw|].
  split; [by injection Htd|]. split; [exact Hx | exact Hfw].
Defined.

(** ** Channels *)

Lemma frame_nchannels ext header i raw td :
  ImageSpec.nchannels (spec_frame ext header i raw td)
  = match Header.ImageDescriptor header i, raw with
    | kCbYCrY, false => 3
    | kCbYACrYA, false => 4
    | _, _ => Header.ImageElementComponentCount header i
    end.
Proof.
  unfold spec_frame, fill_channel_names, spec_default_channel_names, spec_if,
    ImageSpec_new.
  destruct (default_channel_names ext (Header.ImageElementComponentCount header i))
    as [[? ?] ?].
  destruct (Header.ImageDescriptor header i), raw; cbn;
    repeat match goal with
      | |- context [if ?c then _ else _] => destruct c
      | |- context [default_channel_names ?e ?n] =>
          destruct (default_channel_names e n) as [[? ?] ?]
      end; reflexivity.
Qed.

(** X10.  After a selection the spec has the element's component count as
    its number of channels, except for the two descriptors of subsampled
    chroma, which without raw colour are given 3 and 4 channels; and raw
    colour is on afterwards exactly when it was on before or that number of
    channels is 1. *)
Theorem seek_subimage_nchannels ext s i :
  i <> m_subimage s -> selectable (m_dpx_header s) i ->
  exists s',
    seek_subimage ext i 0 s = Done true s'
    /\ ImageSpec.nchannels (m_spec s')
       = match Header.ImageDescriptor (m_dpx_header s) i, m_rawcolor s with
         | kCbYCrY, false => 3
         | kCbYACrYA, false => 4
         | _, _ => Header.ImageElementComponentCount (m_dpx_header s) i
         end
    /\ m_rawcolor s'
       = m_rawcolor s || (ImageSpec.nchannels (m_spec s') =? 1).
Proof.
  intros Hne Hsel.
  destruct (seek_subimage_frame ext s i Hne Hsel) as (td & s' & _ & Hseek & Hframe & Hraw).
  exists s'. split; [exact Hseek|]. split; [|exact Hraw].
  change (ImageSpec.nchannels (m_spec s'))
    with (ImageSpec.nchannels (layout (m_spec s'))).
  rewrite Hframe. apply frame_nchannels.
Qed.

Lemma seek_subimage_nchannels_witness :
  exists s',
    seek_subimage sample_ext 0 0 (sample_parsed header_ycbcr) = Done true s'
    /\ ImageSpec.nchannels (m_spec s') = 3
    /\ m_rawcolor s' = false.
Proof.
  destruct (seek_subimage_nchannels sample_ext (sample_parsed header_ycbcr) 0
              ltac:(by_evaluation) ltac:(by_evaluation))
    as (s' & Hseek & Hn & Hraw).
  exists s'. split; [exact Hseek|]. split; [exact Hn|].
  rewrite Hraw, Hn. reflexivity.
Defined.

Lemma to_int_nonnil n :
  Z.to_int n <> Decimal.Pos Decimal.Nil /\ Z.to_int n <> Decimal.Neg Decimal.Nil.
Proof.
  destruct n as [|p|p]; cbn; split; try discriminate;
    intros [= H]; by apply (DecimalPos.Unsigned.to_uint_nonnil p).
Qed.

(** ["{}"] prints different integers differently. *)
Lemma fmt_d_inj a b : fmt_d a = fmt_d b -> a = b.
Proof.
  unfold fmt_d. intros H. apply DecimalZ.to_int_inj.
  assert (Hs : Some (Z.to_int a) = Some (Z.to_int b)).
  { rewrite <- (NilZero.isi (Z.to_int a)) by apply to_int_nonnil.
    rewrite <- (NilZero.isi (Z.to_int b)) by apply to_int_nonnil.
    by rewrite H. }
  by injection Hs.
Qed.

Lemma frame_numbered_channels ext header i raw td :
  numbered_channels (Header.ImageDescriptor header i) = true ->
  ImageSpec.channelnames (spec_frame ext header i raw td)
  = map (fun k => "channel" ++ fmt_d k)
      (seqZ 0 (Header.ImageElementComponentCount header i)).
Proof.
  unfold spec_frame, fill_channel_names.
  destruct (Header.ImageDescriptor header i); try discriminate; reflexivity.
Qed.

(** X11.  For a descriptor that the [switch] of [seek_subimage] has no case
    for (user-defined, colour difference, composite video, or an unknown
    code) the channels are named "channel0", "channel1", ... one for each
    component the header counts: as many names as components, no two of them
    equal. *)
Theorem seek_subimage_numbered_channel_names ext s i :
  i <> m_subimage s -> selectable (m_dpx_header s) i ->
  numbered_channels (Header.ImageDescriptor (m_dpx_header s) i) = true ->
  exists s',
    seek_subimage ext i 0 s = Done true s'
    /\ ImageSpec.channelnames (m_spec s')
       = map (fun k => "channel" ++ fmt_d k)
           (seqZ 0 (Header.ImageElementComponentCount (m_dpx_header s) i))
    /\ length (ImageSpec.channelnames (m_spec s'))
       = Z.to_nat (Header.ImageElementComponentCount (m_dpx_header s) i)
    /\ ImageSpec.nchannels (m_spec s')
       = Header.ImageElementComponentCount (m_dpx_header s) i
    /\ NoDup (ImageSpec.channelnames (m_spec s')).
Proof.
  intros Hne Hsel Hnum.
  destruct (seek_subimage_frame ext s i Hne Hsel) as (td & s' & _ & Hseek & Hframe & _).
  exists s'. split; [exact Hseek|].
  change (ImageSpec.channelnames (m_spec s'))
    with (ImageSpec.channelnames (layout (m_spec s'))).
  change (ImageSpec.nchannels (m_spec s'))
    with (ImageSpec.nchannels (layout (m_spec s'))).
  rewrite Hframe, frame_nchannels, (frame_numbered_channels _ _ _ _ _ Hnum).
  repeat split.
  - by rewrite length_map, length_seqZ.
  - by destruct (Header.ImageDescriptor (m_dpx_header s) i), (m_rawcolor s).
  - change (map ?f ?l) with (f <$> l). apply NoDup_fmap_2; [|apply NoDup_seqZ].
    intros a b Heq. cbn in Heq. injection Heq as Heq. by apply fmt_d_inj.
Qed.

Lemma seek_subimage_numbered_channel_names_witness :
  exists s',
    seek_subimage sample_ext 0 0 (sample_parsed header_user_defined) = Done true s'
    /\ ImageSpec.channelnames (m_spec s') = ["channel0"; "channel1"].
Proof.
  destruct (seek_subimage_numbered_channel_names sample_ext
              (sample_parsed header_user_defined) 0
              ltac:(by_evaluation) ltac:(by_evaluation) ltac:(reflexivity))
    as (s' & Hseek & Hnames & _).
  exists s'. split; [exact Hseek | exact Hnames].
Defined.

Lemma frame_alpha_names ext header i raw td :
  let spec := spec_frame ext header i raw td in
  (forall n, component_name (Header.ImageDescriptor header i) = Some n ->
     ImageSpec.channelnames spec = [n])
  /\ (Header.ImageDescriptor header i = kAlpha -> ImageSpec.alpha_channel spec = 0)
  /\ (Header.ImageDescriptor header i = kDepth -> ImageSpec.z_channel spec = 0)
  /\ (raw = true -> Header.ImageDescriptor header i = kCbYACrYA ->
      ImageSpec.alpha_channel spec = 2)
  /\ (raw = true -> Header.ImageDescriptor header i = kCbYCrA ->
      ImageSpec.alpha_channel spec = 3).
Proof.
  unfold spec_frame, fill_channel_names.
  repeat split.
  - intros n. destruct (Header.ImageDescriptor header i); intros [= <-]; reflexivity.
  - by intros ->.
  - by intros ->.
  - by intros -> ->.
  - by intros -> ->.
Qed.

(** X12.  A single-component descriptor gives the spec its one channel name
    (R, G, B, A, Y or Z), whether raw colour is on or not. Wherever
    [seek_subimage] itself assigns [alpha_channel] or [z_channel], the
    channel at that index is the one named "A", or "Z": index 0 for the
    alpha and depth descriptors, and with raw colour index 2 of CbCr, Y, A
    and index 3 of Cb, Y, Cr, A. *)
Theorem seek_subimage_component_channel_names ext s i :
  i <> m_subimage s -> selectable (m_dpx_header s) i ->
  exists s',
    seek_subimage ext i 0 s = Done true s'
    /\ (forall n,
          component_name (Header.ImageDescriptor (m_dpx_header s) i) = Some n ->
          ImageSpec.channelnames (m_spec s') = [n])
    /\ (Header.ImageDescriptor (m_dpx_header s) i = kAlpha ->
        ImageSpec.alpha_channel (m_spec s') = 0
        /\ ImageSpec.channelnames (m_spec s') !! 0%nat = Some "A")
    /\ (Header.ImageDescriptor (m_dpx_header s) i = kDepth ->
        ImageSpec.z_channel (m_spec s') = 0
        /\ ImageSpec.channelnames (m_spec s') !! 0%nat = Some "Z")
    /\ (m_rawcolor s = true ->
        Header.ImageDescriptor (m_dpx_header s) i = kCbYACrYA ->
        ImageSpec.alpha_channel (m_spec s') = 2
        /\ ImageSpec.channelnames (m_spec s') !! 2%nat = Some "A")
    /\ (m_rawcolor s = true ->
        Header.ImageDescriptor (m_dpx_header s) i = kCbYCrA ->
        ImageSpec.alpha_channel (m_spec s') = 3
        /\ ImageSpec.channelnames (m_spec s') !! 3%nat = Some "A").
Proof.
  intros Hne Hsel.
  destruct (seek_subimage_frame ext s i Hne Hsel) as (td & s' & _ & Hseek & Hframe & _).
  exists s'. split; [exact Hseek|].
  change (ImageSpec.channelnames (m_spec s'))
    with (ImageSpec.channelnames (layout (m_spec s'))).
  change (ImageSpec.alpha_channel (m_spec s'))
    with (ImageSpec.alpha_channel (layout (m_spec s'))).
  change (ImageSpec.z_channel (m_spec s'))
    with (ImageSpec.z_channel (layout (m_spec s'))).
  rewrite Hframe.
  destruct (frame_alpha_names ext (m_dpx_header s) i (m_rawcolor s) td)
    as (Hname & Halpha & Hz & Ha2 & Ha3).
  split; [exact Hname|].
  split; [intros Hd; split; [by apply Halpha | by rewrite (Hname "A") by by rewrite Hd]|].
  split; [intros Hd; split; [by apply Hz | by rewrite (Hname "Z") by by rewrite Hd]|].
  split.
  - intros Hraw Hd. split; [by apply Ha2|].
    unfold spec_frame, fill_channel_names. by rewrite Hd, Hraw.
  - intros Hraw Hd. split; [by apply Ha3|].
    unfold spec_frame, fill_channel_names. by rewrite Hd, Hraw.
Qed.

Lemma seek_subimage_component_channel_names_witness :
  exists s',
    seek_subimage sample_ext 0 0
      (set_m_rawcolor true (sample_parsed header_ycbcra)) = Done true s'
    /\ ImageSpec.alpha_channel (m_spec s') = 2
    /\ ImageSpec.channelnames (m_spec s') !! 2%nat = Some "A".
Proof.
  destruct (seek_subimage_component_channel_names sample_ext
              (set_m_rawcolor true (sample_parsed header_ycbcra)) 0
              ltac:(by_evaluation) ltac:(by_evaluation))
    as (s' & Hseek & _ & _ & _ & Ha & _).
  exists s'. split; [exact Hseek|]. apply Ha; reflexivity.
Defined.

(** ** Attributes outside the macros *)

Lemma keeps_image_linearity_ext k ext header i :
  colorspace_keeps ext k -> keeps k (image_linearity ext header i).
Proof.
  intros [Hcs Hg] spec. unfold image_linearity.
  destruct (Header.Transfer header i); try done;
    try (unfold ImageSpec.find_attribute, spec_set_colorspace; cbn; by apply Hcs).
  destruct (_ && _); [|done].
  unfold ImageSpec.find_attribute, spec_set_colorspace_rec709_gamma; cbn.
  by apply Hg.
Qed.

#[local] Hint Extern 4 (keeps _ (image_linearity _ _ _)) =>
  apply keeps_image_linearity_ext; assumption : keeps.

Lemma sample_ext_colorspace_keeps k :
  k <> "oiio:ColorSpace" -> k <> "oiio:Gamma" -> colorspace_keeps sample_ext k.
Proof.
  intros H1 H2. split; intros; cbn;
    unfold sample_set_colorspace_rec709_gamma, sample_set_colorspace;
    by rewrite ?lookup_insert_ne.
Qed.

Lemma subimage_spec_descriptive ext header i raw td spec :
  subimage_spec ext header i raw td = Some spec ->
  ImageSpec.find_attribute "dpx:Transfer" spec
  = Some (AString (first_match (Header.Transfer header i) characteristic_table "Undefined"))
  /\ ImageSpec.find_attribute "dpx:Colorimetric" spec
     = Some (AString (first_match (Header.Colorimetric header i)
                        characteristic_table "Undefined"))
  /\ ImageSpec.find_attribute "dpx:ImageDescriptor" spec
     = Some (AString (first_match (Header.ImageDescriptor header i)
                        descriptor_table "Undefined"))
  /\ ImageSpec.find_attribute "dpx:Packing" spec
     = match Header.ImagePacking header i with
       | PackingCode _ => None
       | p => Some (AString (packing_string p))
       end.
Proof.
  expose_spec. intros [= <-]. repeat split.
  - repeat peel_layer. apply find_attribute_attribute.
  - repeat peel_layer. apply find_attribute_attribute.
  - repeat peel_layer. apply find_attribute_attribute.
  - repeat peel_layer. cbn zeta.
    erewrite find_own_spec_if; [| repeat peel_layer; apply find_attribute_new ].
    by destruct (Header.ImagePacking header i).
Qed.

(** X13.  After a selection, ["dpx:Transfer"], ["dpx:Colorimetric"] and
    ["dpx:ImageDescriptor"] are always present: each holds the string that
    the characteristic or descriptor has in its table, and "Undefined" for a
    code the table does not have. ["dpx:Packing"] is present for the three
    known packing methods and absent for any other code. *)
Theorem seek_subimage_descriptive_attributes ext s i :
  i <> m_subimage s -> selectable (m_dpx_header s) i ->
  exists s',
    seek_subimage ext i 0 s = Done true s'
    /\ ImageSpec.find_attribute "dpx:Transfer" (m_spec s')
       = AString <$> get_characteristic_string (Header.Transfer (m_dpx_header s) i)
    /\ ImageSpec.find_attribute "dpx:Colorimetric" (m_spec s')
       = AString <$> get_characteristic_string (Header.Colorimetric (m_dpx_header s) i)
    /\ ImageSpec.find_attribute "dpx:ImageDescriptor" (m_spec s')
       = AString <$> get_descriptor_string (Header.ImageDescriptor (m_dpx_header s) i)
    /\ is_Some (ImageSpec.find_attribute "dpx:Transfer" (m_spec s'))
    /\ is_Some (ImageSpec.find_attribute "dpx:Colorimetric" (m_spec s'))
    /\ is_Some (ImageSpec.find_attribute "dpx:ImageDescriptor" (m_spec s'))
    /\ (forall code,
          Header.Transfer (m_dpx_header s) i = CharacteristicCode code ->
          ImageSpec.find_attribute "dpx:Transfer" (m_spec s')
          = Some (AString "Undefined"))
    /\ (forall code,
          Header.ImageDescriptor (m_dpx_header s) i = DescriptorCode code ->
          ImageSpec.find_attribute "dpx:ImageDescriptor" (m_spec s')
          = Some (AString "Undefined"))
    /\ ImageSpec.find_attribute "dpx:Packing" (m_spec s')
       = match Header.ImagePacking (m_dpx_header s) i with
         | kPacked => Some (AString "Packed")
         | kFilledMethodA => Some (AString "Filled, method A")
         | kFilledMethodB => Some (AString "Filled, method B")
         | PackingCode _ => None
         end.
Proof.
  intros Hne Hsel.
  destruct (seek_subimage_selectable ext s i Hne Hsel) as (td & spec & _ & Hspec & Hseek).
  eexists. split; [exact Hseek|].
  rewrite !find_attribute_selected_state by done.
  destruct (subimage_spec_descriptive _ _ _ _ _ _ Hspec) as (-> & -> & -> & ->).
  unfold get_characteristic_string, get_descriptor_string.
  rewrite !lookup_ok by (cbn; lia).
  split; [done|]. split; [done|]. split; [done|].
  split; [by eexists|]. split; [by eexists|]. split; [by eexists|].
  split; [by intros code ->|]. split; [by intros code ->|].
  by destruct (Header.ImagePacking _ _).
Qed.

Lemma seek_subimage_descriptive_attributes_witness :
  exists s',
    seek_subimage sample_ext 0 0 (sample_parsed sample_header) = Done true s'
    /\ ImageSpec.find_attribute "dpx:Transfer" (m_spec s') = Some (AString "Linear")
    /\ ImageSpec.find_attribute "dpx:ImageDescriptor" (m_spec s')
       = Some (AString "Luma")
    /\ ImageSpec.find_attribute "dpx:Packing" (m_spec s') = Some (AString "Packed").
Proof.
  destruct (seek_subimage_descriptive_attributes sample_ext
              (sample_parsed sample_header) 0
              ltac:(by_evaluation) ltac:(by_evaluation))
    as (s' & Hseek & Ht & _ & Hd & _ & _ & _ & _ & _ & Hp).
  exists s'. split; [exact Hseek|]. split; [exact Ht|]. split; [exact Hd | exact Hp].
Defined.

Lemma subimage_spec_nul_guarded ext header i raw td spec :
  subimage_spec ext header i raw td = Some spec ->
  ImageSpec.find_attribute "dpx:FilmEdgeCode" spec
  = (if Ascii.eqb (first_char (Header.FilmEdgeCode header)) NUL then None
     else Some (AString (c_str (Header.FilmEdgeCode header))))
  /\ ImageSpec.find_attribute "dpx:SourceDateTime" spec
     = (if Ascii.eqb (first_char (Header.sourceTimeDate header)) NUL then None
        else Some (AString (date_string (Header.sourceTimeDate header))))
  /\ (Ascii.eqb (first_char (Header.creationTimeDate header)) NUL = false ->
      ImageSpec.find_attribute "DateTime" spec
      = Some (AString (date_string (Header.creationTimeDate header)))).
Proof.
  expose_spec. intros [= <-]. repeat split.
  - repeat peel_layer.
    erewrite find_own_spec_if; [| repeat peel_layer; apply find_attribute_new ].
    by destruct (Ascii.eqb _ _).
  - repeat peel_layer.
    erewrite find_own_spec_if; [| repeat peel_layer; apply find_attribute_new ].
    by destruct (Ascii.eqb _ _).
  - intros Hset. repeat peel_layer. rewrite Hset. apply find_attribute_attribute.
Qed.

(** X14.  The film edge code and the two dates are guarded by their first
    byte being NUL only. ["dpx:FilmEdgeCode"] and ["dpx:SourceDateTime"] are
    absent exactly when that byte is NUL, and a field that begins with 0xFF
    is published like any other; ["DateTime"] is present whenever the
    creation date does not begin with NUL. *)
Theorem seek_subimage_nul_guarded_fields ext s i :
  i <> m_subimage s -> selectable (m_dpx_header s) i ->
  exists s',
    seek_subimage ext i 0 s = Done true s'
    /\ ImageSpec.find_attribute "dpx:FilmEdgeCode" (m_spec s')
       = (if Ascii.eqb (first_char (Header.FilmEdgeCode (m_dpx_header s))) NUL
          then None
          else Some (AString (c_str (Header.FilmEdgeCode (m_dpx_header s)))))
    /\ ImageSpec.find_attribute "dpx:SourceDateTime" (m_spec s')
       = (if Ascii.eqb (first_char (Header.sourceTimeDate (m_dpx_header s))) NUL
          then None
          else Some (AString (date_string (Header.sourceTimeDate (m_dpx_header s)))))
    /\ (first_char (Header.creationTimeDate (m_dpx_header s)) <> NUL ->
        ImageSpec.find_attribute "DateTime" (m_spec s')
        = Some (AString (date_string (Header.creationTimeDate (m_dpx_header s)))))
    /\ (first_char (Header.FilmEdgeCode (m_dpx_header s)) = CHAR_FF ->
        ImageSpec.find_attribute "dpx:FilmEdgeCode" (m_spec s')
        = Some (AString (c_str (Header.FilmEdgeCode (m_dpx_header s))))).
Proof.
  intros Hne Hsel.
  destruct (seek_subimage_selectable ext s i Hne Hsel) as (td & spec & _ & Hspec & Hseek).
  eexists. split; [exact Hseek|].
  rewrite !find_attribute_selected_state by done.
  destruct (subimage_spec_nul_guarded _ _ _ _ _ _ Hspec) as (-> & -> & Hdate).
  repeat split.
  - intros Hset. apply Hdate. by apply Ascii.eqb_neq.
  - by intros ->.
Qed.

Lemma seek_subimage_nul_guarded_fields_witness :
  exists s',
    seek_subimage sample_ext 0 0 (sample_parsed header_ff) = Done true s'
    /\ ImageSpec.find_attribute "dpx:FilmEdgeCode" (m_spec s')
       = Some (AString (String CHAR_FF (String CHAR_FF (String CHAR_FF ""))))
    /\ ImageSpec.find_attribute "dpx:SourceDateTime" (m_spec s')
       = Some (AString "2024:01:02 03:04:05").
Proof.
  destruct (seek_subimage_nul_guarded_fields sample_ext (sample_parsed header_ff) 0
              ltac:(by_evaluation) ltac:(by_evaluation))
    as (s' & Hseek & _ & Hdate & _ & Hff).
  exists s'. split; [exact Hseek|]. split; [by apply Hff | exact Hdate].
Defined.

Lemma subimage_spec_general_strings ext header i raw td spec name field :
  subimage_spec ext header i raw td = Some spec ->
  (name, field) ∈ general_strings header i ->
  (string_is_set field = true ->
   ImageSpec.find_attribute name spec = Some (AString (c_str field)))
  /\ (colorspace_keeps ext name -> string_is_set field = false ->
      ImageSpec.find_attribute name spec = None).
Proof.
  expose_spec. intros [= <-] Hin. unfold general_strings in Hin.
  repeat (apply elem_of_cons in Hin as [[= -> ->]|Hin]);
    [ .. | by apply elem_of_nil in Hin ].
  all: split; [intros Hset | intros Hkeep Hset].
  all: repeat peel_layer; rewrite Hset; cbn [spec_if].
  all: first [ apply find_attribute_attribute
             | repeat peel_layer; apply find_attribute_new ].
Qed.

Lemma subimage_spec_compression ext header i raw td spec :
  subimage_spec ext header i raw td = Some spec ->
  (Header.ImageEncoding header i = kRLE ->
   ImageSpec.find_attribute "compression" spec = Some (AString "rle"))
  /\ (colorspace_keeps ext "compression" ->
      Header.ImageEncoding header i <> kRLE ->
      ImageSpec.find_attribute "compression" spec = None).
Proof.
  expose_spec. intros [= <-].
  split; [intros Henc | intros Hkeep Henc]; repeat peel_layer.
  - rewrite bool_decide_eq_true_2 by done. apply find_attribute_attribute.
  - rewrite bool_decide_eq_false_2 by done. cbn [spec_if].
    repeat peel_layer. apply find_attribute_new.
Qed.

(** X15.  The copyright, creator, project and image description strings are
    published as ["Copyright"], ["Software"], ["DocumentName"] and
    ["ImageDescription"] when their first byte is neither NUL nor 0xFF, with
    the characters before the first NUL; and ["compression"] is "rle" for a
    run-length encoded element. Otherwise the selection sets none of them:
    they are absent, as long as the colour space functions do not add them. *)
Theorem seek_subimage_general_attributes ext s i :
  i <> m_subimage s -> selectable (m_dpx_header s) i ->
  exists s',
    seek_subimage ext i 0 s = Done true s'
    /\ (forall name field,
          (name, field) ∈ general_strings (m_dpx_header s) i ->
          (string_is_set field = true ->
           ImageSpec.find_attribute name (m_spec s') = Some (AString (c_str field)))
          /\ (colorspace_keeps ext name -> string_is_set field = false ->
              ImageSpec.find_attribute name (m_spec s') = None))
    /\ (Header.ImageEncoding (m_dpx_header s) i = kRLE ->
        ImageSpec.find_attribute "compression" (m_spec s') = Some (AString "rle"))
    /\ (colorspace_keeps ext "compression" ->
        Header.ImageEncoding (m_dpx_header s) i <> kRLE ->
        ImageSpec.find_attribute "compression" (m_spec s') = None).
Proof.
  intros Hne Hsel.
  destruct (seek_subimage_selectable ext s i Hne Hsel) as (td & spec & _ & Hspec & Hseek).
  eexists. split; [exact Hseek|].
  rewrite !find_attribute_selected_state by done.
  split; [|exact (subimage_spec_compression _ _ _ _ _ _ Hspec)].
  intros name field Hin.
  rewrite find_attribute_selected_state.
  - by apply (subimage_spec_general_strings _ _ _ _ _ _ _ _ Hspec).
  - intros ->. unfold general_strings in Hin.
    repeat (apply elem_of_cons in Hin as [[=]|Hin]). by apply elem_of_nil in Hin.
Qed.

Lemma seek_subimage_general_attributes_witness :
  exists s',
    seek_subimage sample_ext 0 0 (sample_parsed sample_header) = Done true s'
    /\ ImageSpec.find_attribute "Software" (m_spec s') = Some (AString "sample")
    /\ ImageSpec.find_attribute "Copyright" (m_spec s') = None
    /\ ImageSpec.find_attribute "DocumentName" (m_spec s') = None
    /\ ImageSpec.find_attribute "compression" (m_spec s') = None.
Proof.
  destruct (seek_subimage_general_attributes sample_ext (sample_parsed sample_header) 0
              ltac:(by_evaluation) ltac:(by_evaluation))
    as (s' & Hseek & Hstr & _ & Hrle).
  exists s'. split; [exact Hseek|].
  split; [|split; [|split]].
  - apply (proj1 (Hstr "Software" "sample" ltac:(repeat constructor))). reflexivity.
  - apply (proj2 (Hstr "Copyright" "" ltac:(repeat constructor))); [|reflexivity].
    apply sample_ext_colorspace_keeps; discriminate.
  - apply (proj2 (Hstr "DocumentName" (String CHAR_FF "") ltac:(repeat constructor)));
      [|reflexivity].
    apply sample_ext_colorspace_keeps; discriminate.
  - apply Hrle; [|by_evaluation].
    apply sample_ext_colorspace_keeps; discriminate.
Defined.

(** ** Key code and time code attributes *)

Lemma subimage_spec_keycode ext header i raw td spec :
  subimage_spec ext header i raw td = Some spec ->
  (Ascii.eqb (first_char (Header.filmManufacturingIdCode header)) NUL = false ->
   ImageSpec.find_attribute "smpte:KeyCode" spec
   = Some (AKeyCode (keycode_values ext header)))
  /\ (colorspace_keeps ext "smpte:KeyCode" ->
      Ascii.eqb (first_char (Header.filmManufacturingIdCode header)) NUL = true ->
      ImageSpec.find_attribute "smpte:KeyCode" spec = None).
Proof.
  expose_spec. intros [= <-].
  split; [intros Hset | intros Hkeep Hset]; repeat peel_layer; rewrite Hset;
    cbn [negb spec_if].
  - apply find_attribute_attribute.
  - repeat peel_layer. apply find_attribute_new.
Qed.

(** X16.  [get_keycode_values] writes every element of its array: for an
    array of seven elements the result is the same whatever the array held
    before, namely the five numbers that [stoi] reads from the leading 2, 2,
    6, 4 and 2 characters of the film fields, then a perforations-per-frame
    of 3, 4 or 8 and the perforations-per-count 64. On an array of any other
    size the assertion at its head fails. *)
Theorem get_keycode_values_fills_array ext header :
  (forall array,
      length array = 7%nat ->
      get_keycode_values ext header array
      = Some [ stoi ext (string_view (Header.filmManufacturingIdCode header) 2);
               stoi ext (string_view (Header.filmType header) 2);
               stoi ext (string_view (Header.prefix header) 6);
               stoi ext (string_view (Header.count header) 4);
               stoi ext (string_view (Header.perfsOffset header) 2);
               fst (perfs_of_format (std_string_n (Header.format header) 32));
               64 ])
  /\ (forall array array',
        length array = 7%nat -> length array' = 7%nat ->
        get_keycode_values ext header array = get_keycode_values ext header array')
  /\ fst (perfs_of_format (std_string_n (Header.format header) 32)) ∈ [3; 4; 8]
  /\ (forall array,
        length array <> 7%nat -> get_keycode_values ext header array = None).
Proof.
  assert (Hperfs : forall f, snd (perfs_by_prefix f) = 64
                             /\ fst (perfs_by_prefix f) ∈ [3; 4; 8]).
  { intros f. unfold perfs_by_prefix.
    repeat (destruct (_ || _); [split; [done | cbn; set_solver]|]).
    split; [done | cbn; set_solver]. }
  split; [|split; [|split]].
  - intros array Hlen. rewrite get_keycode_values_ok by done.
    unfold keycode_values. rewrite perfs_of_format_32.
    by rewrite (proj1 (Hperfs _)).
  - intros array array' H1 H2. by rewrite !get_keycode_values_ok.
  - rewrite perfs_of_format_32. apply Hperfs.
  - intros array Hlen. unfold get_keycode_values. by destruct (decide _).
Qed.

(** X17.  After a selection ["smpte:KeyCode"] is present whenever the film
    manufacturing id code does not begin with NUL, a field that begins with
    0xFF included, and holds the seven key code values. When it begins with
    NUL the selection does not set it. *)
Theorem seek_subimage_keycode ext s i :
  i <> m_subimage s -> selectable (m_dpx_header s) i ->
  exists s',
    seek_subimage ext i 0 s = Done true s'
    /\ (first_char (Header.filmManufacturingIdCode (m_dpx_header s)) <> NUL ->
        exists kc,
          get_keycode_values ext (m_dpx_header s) (replicate 7 0) = Some kc
          /\ length kc = 7%nat
          /\ ImageSpec.find_attribute "smpte:KeyCode" (m_spec s')
             = Some (AKeyCode kc))
    /\ (colorspace_keeps ext "smpte:KeyCode" ->
        first_char (Header.filmManufacturingIdCode (m_dpx_header s)) = NUL ->
        ImageSpec.find_attribute "smpte:KeyCode" (m_spec s') = None).
Proof.
  intros Hne Hsel.
  destruct (seek_subimage_selectable ext s i Hne Hsel) as (td & spec & _ & Hspec & Hseek).
  eexists. split; [exact Hseek|].
  rewrite !find_attribute_selected_state by done.
  destruct (subimage_spec_keycode _ _ _ _ _ _ Hspec) as [Hset Hunset].
  split.
  - intros Hnul. exists (keycode_values ext (m_dpx_header s)).
    split; [by apply get_keycode_values_ok|]. split; [done|].
    apply Hset. by apply Ascii.eqb_neq.
  - intros Hkeep Hnul. apply Hunset; [done|]. by apply Ascii.eqb_eq.
Qed.

Lemma seek_subimage_keycode_witness :
  exists s',
    seek_subimage sample_ext 0 0 (sample_parsed header_ff) = Done true s'
    /\ exists kc,
         length kc = 7%nat
         /\ ImageSpec.find_attribute "smpte:KeyCode" (m_spec s') = Some (AKeyCode kc).
Proof.
  destruct (seek_subimage_keycode sample_ext (sample_parsed header_ff) 0
              ltac:(by_evaluation) ltac:(by_evaluation))
    as (s' & Hseek & Hset & _).
  exists s'. split; [exact Hseek|].
  destruct Hset as (kc & _ & Hlen & Hkc); [by_evaluation|].
  exists kc. split; [exact Hlen | exact Hkc].
Defined.

Lemma subimage_spec_timecode ext header i raw td spec :
  subimage_spec ext header i raw td = Some spec ->
  ImageSpec.find_attribute "dpx:TimeCode" spec
  = (if Header.timeCode header =? 0xFFFFFFFF then None
     else Some (AString (get_timecode_string
                           (mk_TimeCode ext (Header.timeCode header)
                              (Header.userBits header)))))
  /\ ((Header.timeCode header =? 0xFFFFFFFF) = false ->
      ImageSpec.find_attribute "smpte:TimeCode" spec
      = Some (ATimeCode (Header.timeCode header, Header.userBits header)))
  /\ (colorspace_keeps ext "smpte:TimeCode" ->
      (Header.timeCode header =? 0xFFFFFFFF) = true ->
      ImageSpec.find_attribute "smpte:TimeCode" spec = None).
Proof.
  expose_spec. intros [= <-].
  split; [|split; [intros Hset | intros Hkeep Hset]]; repeat peel_layer.
  - destruct (Header.timeCode header =? 0xFFFFFFFF); cbn [negb spec_if].
    + repeat peel_layer. apply find_attribute_new.
    + apply find_attribute_attribute.
  - rewrite Hset. cbn [negb spec_if]. repeat peel_layer.
    apply find_attribute_attribute.
  - rewrite Hset. cbn [negb spec_if]. repeat peel_layer.
    apply find_attribute_new.
Qed.

(** X18.  The two time code attributes go together. When the header's time
    code is not 0xFFFFFFFF, ["smpte:TimeCode"] holds the time code and the
    user bits as they are in the header, the user bits even when they are
    0xFFFFFFFF, and ["dpx:TimeCode"] the string of the time code; when it is
    0xFFFFFFFF, ["dpx:TimeCode"] is absent and ["smpte:TimeCode"] is not
    set. *)
Theorem seek_subimage_timecode ext s i :
  i <> m_subimage s -> selectable (m_dpx_header s) i ->
  exists s',
    seek_subimage ext i 0 s = Done true s'
    /\ (Header.timeCode (m_dpx_header s) <> 0xFFFFFFFF ->
        ImageSpec.find_attribute "smpte:TimeCode" (m_spec s')
        = Some (ATimeCode (Header.timeCode (m_dpx_header s),
                           Header.userBits (m_dpx_header s)))
        /\ ImageSpec.find_attribute "dpx:TimeCode" (m_spec s')
           = Some (AString (get_timecode_string
                              (mk_TimeCode ext (Header.timeCode (m_dpx_header s))
                                 (Header.userBits (m_dpx_header s))))))
    /\ (Header.timeCode (m_dpx_header s) = 0xFFFFFFFF ->
        ImageSpec.find_attribute "dpx:TimeCode" (m_spec s') = None
        /\ (colorspace_keeps ext "smpte:TimeCode" ->
            ImageSpec.find_attribute "smpte:TimeCode" (m_spec s') = None)).
Proof.
  intros Hne Hsel.
  destruct (seek_subimage_selectable ext s i Hne Hsel) as (td & spec & _ & Hspec & Hseek).
  eexists. split; [exact Hseek|].
  rewrite !find_attribute_selected_state by done.
  destruct (subimage_spec_timecode _ _ _ _ _ _ Hspec) as (-> & Hset & Hunset).
  split.
  - intros Htc. apply Z.eqb_neq in Htc. rewrite Htc. split; [by apply Hset | done].
  - intros Htc. rewrite Htc. split; [done|]. intros Hkeep. apply Hunset; [done|].
    by rewrite Htc.
Qed.

Lemma seek_subimage_timecode_witness :
  exists s',
    seek_subimage sample_ext 0 0 (sample_parsed sample_header) = Done true s'
    /\ ImageSpec.find_attribute "smpte:TimeCode" (m_spec s')
       = Some (ATimeCode (0x01020304, 0xFFFFFFFF))
    /\ ImageSpec.find_attribute "dpx:TimeCode" (m_spec s')
       = Some (AString "01:02:03:04").
Proof.
  destruct (seek_subimage_timecode sample_ext (sample_parsed sample_header) 0
              ltac:(by_evaluation) ltac:(by_evaluation))
    as (s' & Hseek & Hset & _).
  exists s'. split; [exact Hseek|]. apply Hset. by_evaluation.
Defined.

(** ** Orientation, bit depth and number of subimages *)

Lemma subimage_spec_image_attributes ext header i raw td spec :
  subimage_spec ext header i raw td = Some spec ->
  (colorspace_keeps ext "Orientation" ->
   ImageSpec.find_attribute "Orientation" spec
   = Some (AInt (first_match (Header.ImageOrientation header) orientation_table 1)))
  /\ (colorspace_keeps ext "oiio:BitsPerSample" ->
      ImageSpec.find_attribute "oiio:BitsPerSample" spec
      = Some (AInt (Header.BitDepth header i)))
  /\ (colorspace_keeps ext "oiio:subimages" ->
      ImageSpec.find_attribute "oiio:subimages" spec
      = Some (AInt (Header.ImageElementCount header))).
Proof.
  expose_spec. intros [= <-].
  repeat split; intros Hkeep; repeat peel_layer; apply find_attribute_attribute.
Qed.

Lemma orientation_in_range (o : Orientation) :
  1 <= first_match o orientation_table 1 <= 8.
Proof. destruct o; split; apply Z.leb_le; reflexivity. Qed.

(** X19.  [seek_subimage] sets ["Orientation"] to a value from 1 to 8: the
    value the table has for the header's orientation, a different one for
    each of the eight orientations, and 1 for any other code. It sets
    ["oiio:BitsPerSample"] to the element's bit depth and ["oiio:subimages"]
    to the number of image elements, which is more than the index selected.
    Each is found in the spec afterwards, as long as the colour space
    functions leave it alone. *)
Theorem seek_subimage_image_attributes ext s i :
  i <> m_subimage s -> selectable (m_dpx_header s) i ->
  exists s' o,
    seek_subimage ext i 0 s = Done true s'
    /\ lookup (Header.ImageOrientation (m_dpx_header s)) orientation_table 1 = Some o
    /\ 1 <= o <= 8
    /\ (forall code,
          Header.ImageOrientation (m_dpx_header s) = OrientationCode code -> o = 1)
    /\ (forall o1 o2 v,
          (o1, v) ∈ orientation_table -> (o2, v) ∈ orientation_table -> o1 = o2)
    /\ (colorspace_keeps ext "Orientation" ->
        ImageSpec.find_attribute "Orientation" (m_spec s') = Some (AInt o))
    /\ (colorspace_keeps ext "oiio:BitsPerSample" ->
        ImageSpec.find_attribute "oiio:BitsPerSample" (m_spec s')
        = Some (AInt (Header.BitDepth (m_dpx_header s) i)))
    /\ (colorspace_keeps ext "oiio:subimages" ->
        ImageSpec.find_attribute "oiio:subimages" (m_spec s')
        = Some (AInt (Header.ImageElementCount (m_dpx_header s)))
        /\ i < Header.ImageElementCount (m_dpx_header s)).
Proof.
  intros Hne Hsel.
  destruct (seek_subimage_selectable ext s i Hne Hsel) as (td & spec & _ & Hspec & Hseek).
  exists (selected_state s i spec),
    (first_match (Header.ImageOrientation (m_dpx_header s)) orientation_table 1).
  split; [exact Hseek|].
  rewrite !find_attribute_selected_state by done.
  destruct (subimage_spec_image_attributes _ _ _ _ _ _ Hspec) as (Ho & Hb & Hn).
  split; [by apply lookup_ok; cbn; lia|].
  split; [apply orientation_in_range|].
  split; [by intros code ->|].
  split.
  { intros o1 o2 v H1 H2. unfold orientation_table in H1, H2.
    repeat (apply elem_of_cons in H1 as [[= -> ->]|H1]);
      [ .. | by apply elem_of_nil in H1 ];
      repeat (apply elem_of_cons in H2 as [[= ->]|H2]); try done;
      by apply elem_of_nil in H2. }
  split; [exact Ho|]. split; [exact Hb|].
  intros Hkeep. split; [by apply Hn|]. destruct Hsel as [Hin _]. lia.
Qed.

Lemma seek_subimage_image_attributes_witness :
  exists s',
    seek_subimage sample_ext 1 0 (sample_selected sample_header) = Done true s'
    /\ ImageSpec.find_attribute "Orientation" (m_spec s') = Some (AInt 1)
    /\ ImageSpec.find_attribute "oiio:BitsPerSample" (m_spec s') = Some (AInt 8)
    /\ ImageSpec.find_attribute "oiio:subimages" (m_spec s') = Some (AInt 2).
Proof.
  destruct (seek_subimage_image_attributes sample_ext (sample_selected sample_header) 1
              ltac:(by_evaluation) ltac:(by_evaluation))
    as (s' & o & Hseek & Hlook & _ & _ & _ & Ho & Hb & Hn).
  exists s'. split; [exact Hseek|].
  assert (Hone : o = 1) by (vm_compute in Hlook; congruence).
  split; [|split].
  - rewrite <- Hone. apply Ho. apply sample_ext_colorspace_keeps; discriminate.
  - apply Hb. apply sample_ext_colorspace_keeps; discriminate.
  - apply Hn. apply sample_ext_colorspace_keeps; discriminate.
Defined.

(** ** The user data attribute *)

Lemma read_into_lookup n src k :
  (k < n)%nat ->
  read_into n src !! k = Some (default Byte.x00 (src !! k)).
Proof.
  intros Hk. unfold read_into. rewrite lookup_take_lt by done.
  destruct (decide (k < length src)%nat) as [Hlt|Hge].
  - rewrite lookup_app_l by done.
    destruct (lookup_lt_is_Some_2 src k Hlt) as [b ->]. done.
  - rewrite lookup_app_r by lia.
    rewrite (lookup_ge_None_2 src k) by lia. cbn.
    apply lookup_replicate_2. lia.
Qed.

(** X20.  After a selection, ["dpx:UserData"] is present exactly when the
    user data buffer is not empty, as an array of the header's user size
    over the bytes of the buffer. A selection that fills the buffer gives it
    exactly that many bytes: those the stream delivers and, where the stream
    delivers fewer, zeros (the result of [ReadUserData] is not looked at). A
    selection that finds the buffer filled publishes the bytes it already
    held. *)
Theorem seek_subimage_user_data_attribute ext s i :
  i <> m_subimage s -> selectable (m_dpx_header s) i ->
  exists s',
    seek_subimage ext i 0 s = Done true s'
    /\ ImageSpec.find_attribute "dpx:UserData" (m_spec s')
       = (if buf_empty (m_userBuf s') then None
          else Some (AUCharArray (Header.UserSize (m_dpx_header s)) (m_userBuf s')))
    /\ (reads_user_data s = true ->
        length (m_userBuf s') = Z.to_nat (Header.UserSize (m_dpx_header s))
        /\ forall k,
             (k < Z.to_nat (Header.UserSize (m_dpx_header s)))%nat ->
             m_userBuf s' !! k = Some (default Byte.x00 (ReadUserData s !! k)))
    /\ (m_userBuf s <> [] ->
        ImageSpec.find_attribute "dpx:UserData" (m_spec s')
        = Some (AUCharArray (Header.UserSize (m_dpx_header s)) (m_userBuf s))).
Proof.
  intros Hne Hsel.
  destruct (seek_subimage_selectable ext s i Hne Hsel) as (td & spec & _ & Hspec & Hseek).
  eexists. split; [exact Hseek|].
  assert (Hnone : ImageSpec.find_attribute "dpx:UserData" spec = None).
  { revert Hspec. expose_spec. intros [= <-]. repeat peel_layer.
    apply find_attribute_new. }
  unfold selected_state. cbn [m_spec m_userBuf].
  rewrite (find_own_spec_if _ _ _ _ _ Hnone).
  split; [by destruct (buf_empty _)|]. split.
  - intros Hreads. rewrite Hreads. split; [apply read_into_length|].
    intros k Hk. by apply read_into_lookup.
  - intros Hbuf. unfold reads_user_data. rewrite (buf_empty_false _ Hbuf).
    cbn [andb negb]. by rewrite (buf_empty_false _ Hbuf).
Qed.

Lemma seek_subimage_user_data_attribute_witness :
  exists s',
    seek_subimage sample_ext 0 0 (sample_parsed sample_header) = Done true s'
    /\ ImageSpec.find_attribute "dpx:UserData" (m_spec s')
       = Some (AUCharArray 3 [Byte.x01; Byte.x02; Byte.x03]).
Proof.
  destruct (seek_subimage_user_data_attribute sample_ext
              (sample_parsed sample_header) 0
              ltac:(by_evaluation) ltac:(by_evaluation))
    as (s' & Hseek & Hattr & _).
  exists s'. split; [exact Hseek|].
  assert (Hs : s' = sample_selected sample_header).
  { unfold sample_selected. rewrite Hseek. reflexivity. }
  rewrite Hattr, Hs. reflexivity.
Defined.

(** ** The static tables *)

Lemma lookup_entry {KEY VAL : Type} `{EqDecision KEY}
    (values : list (KEY * VAL)) (k : KEY) (v d : VAL) :
  (2 <= length values)%nat -> NoDup (map fst values) ->
  (k, v) ∈ values -> lookup k values d = Some v.
Proof.
  intros Hlen Hnodup Hin. rewrite lookup_ok by done. f_equal.
  unfold first_match. clear Hlen.
  induction values as [|[k' v'] values IH]; [by apply elem_of_nil in Hin|].
  cbn in *. apply NoDup_cons in Hnodup as [Hnotin Hnodup].
  apply elem_of_cons in Hin as [[= -> ->]|Hin].
  - by rewrite bool_decide_eq_true_2.
  - rewrite bool_decide_eq_false_2; [by apply IH|].
    intros ->. apply Hnotin. apply list_elem_of_fmap. by exists (k, v).
Qed.

(** X21.  No entry of the four tables is shadowed by an earlier one with the
    same code: [lookup] finds every pair of a table, whatever the default.
    So the characteristic and descriptor strings are those of the tables,
    "Undefined" for any other code, and never empty. *)
Theorem tables_have_no_shadowed_entry :
  (forall k v d, (k, v) ∈ orientation_table -> lookup k orientation_table d = Some v)
  /\ (forall k v d, (k, v) ∈ signal_table -> lookup k signal_table d = Some v)
  /\ (forall k v,
        (k, v) ∈ characteristic_table -> get_characteristic_string k = Some v)
  /\ (forall k v, (k, v) ∈ descriptor_table -> get_descriptor_string k = Some v)
  /\ (forall code, get_characteristic_string (CharacteristicCode code) = Some "Undefined")
  /\ (forall code, get_descriptor_string (DescriptorCode code) = Some "Undefined")
  /\ (forall c, exists str, get_characteristic_string c = Some str /\ str <> "")
  /\ (forall c, exists str, get_descriptor_string c = Some str /\ str <> "").
Proof.
  split; [|split; [|split; [|split; [|split; [|split; [|split]]]]]].
  - intros k v d. apply lookup_entry; [cbn; lia|].
    apply (bool_decide_eq_true (NoDup _)). vm_compute. reflexivity.
  - intros k v d. apply lookup_entry; [cbn; lia|].
    apply (bool_decide_eq_true (NoDup _)). vm_compute. reflexivity.
  - intros k v. apply lookup_entry; [cbn; lia|].
    apply (bool_decide_eq_true (NoDup _)). vm_compute. reflexivity.
  - intros k v. apply lookup_entry; [cbn; lia|].
    apply (bool_decide_eq_true (NoDup _)). vm_compute. reflexivity.
  - reflexivity.
  - reflexivity.
  - intros c. destruct c; eexists; (split; [reflexivity | discriminate]).
  - intros c. destruct c; eexists; (split; [reflexivity | discriminate]).
Qed.

(** ** Dates *)

Lemma eqb_NUL_NUL : Ascii.eqb NUL NUL = true.
Proof. reflexivity. Qed.

Lemma eqb_space_NUL : Ascii.eqb " " NUL = false.
Proof. reflexivity. Qed.

Ltac date_crunch :=
  repeat (progress
            (cbn -[Ascii.eqb];
             rewrite ?eqb_NUL_NUL, ?eqb_space_NUL;
             repeat match goal with
                    | H : Ascii.eqb _ NUL = _ |- _ => rewrite H
                    end)).

Ltac date_char src :=
  let c := fresh "c" in
  destruct src as [|c src]; [by date_crunch |];
  destruct (Ascii.eqb c NUL) eqn:?; [by date_crunch |].

Lemma date_string_closed src :
  date_string src
  = if (String.length (c_str src) <? 10)%nat then c_str src
    else (substring 0 10 (c_str src) ++ " " ++ substring 11 8 (c_str src))%string.
Proof.
  unfold date_string.
  do 19 date_char src.
  date_crunch.
  match goal with
  | |- context [c_str (match ?X with EmptyString => _ | String _ _ => _ end)] =>
      destruct X
  end; date_crunch; by destruct (c_str src).
Qed.

Lemma substring_length_le n m s : (String.length (substring n m s) <= m)%nat.
Proof.
  revert n m. induction s as [|c s IH]; intros n m.
  - destruct n, m; cbn; lia.
  - destruct n as [|n]; [destruct m as [|m]|]; cbn; [lia | | apply IH].
    specialize (IH 0%nat m). lia.
Qed.

Lemma string_length_app (a b : string) :
  String.length (a ++ b) = (String.length a + String.length b)%nat.
Proof.
  induction a as [|c a IH]; [done|].
  change (String c a ++ b) with (String c (a ++ b)). cbn [String.length].
  by rewrite IH.
Qed.

(** X22.  The date strings. From a date field the plugin makes the string
    that holds the field's characters up to its first NUL, with the
    character at index 10 (the colon between the date and the time) replaced
    by a space, cut to 19 characters, which drops the time zone. A field of
    fewer than 10 characters is published as it is, the space being written
    behind its end. *)
Theorem date_string_shape src :
  date_string src
  = (if (String.length (c_str src) <? 10)%nat then c_str src
     else (substring 0 10 (c_str src) ++ " " ++ substring 11 8 (c_str src))%string)
  /\ (String.length (date_string src) <= 19)%nat
  /\ date_string "2024:01:02:03:04:05:UTC" = "2024:01:02 03:04:05"
  /\ date_string "2024" = "2024".
Proof.
  split; [apply date_string_closed|]. split; [|split; reflexivity].
  rewrite date_string_closed.
  destruct (String.length (c_str src) <? 10)%nat eqn:Hlen.
  - apply Nat.ltb_lt in Hlen. lia.
  - rewrite !string_length_app. cbn [String.length].
    pose proof (substring_length_le 0 10 (c_str src)).
    pose proof (substring_length_le 11 8 (c_str src)). lia.
Qed.

(** ** Reading scanlines *)

Lemma seek_subimage_log ext s i miplevel :
  exists b s1 evs,
    seek_subimage ext i miplevel s = Done b s1
    /\ io_log s1 = (io_log s ++ evs)%list
    /\ block_reads evs = [] /\ conversions evs = 0%nat
    /\ (b = true -> m_subimage s1 = i).
Proof.
  destruct (seek_subimage_outcome ext s i miplevel) as (b & s1 & Hseek & Hout).
  exists b, s1.
  assert (Hevs : exists evs,
             io_log s1 = (io_log s ++ evs)%list
             /\ block_reads evs = [] /\ conversions evs = 0%nat
             /\ (b = true -> m_subimage s1 = i)).
  { destruct Hout.
    - exists []. rewrite app_nil_r. by repeat split.
    - exists []. rewrite app_nil_r. by repeat split.
    - exists []. rewrite app_nil_r. by repeat split.
    - exists []. rewrite app_nil_r. by repeat split.
    - unfold selected_state. cbn [io_log m_subimage].
      destruct (reads_user_data s).
      + eexists [_]. by repeat split.
      + exists []. rewrite app_nil_r. by repeat split. }
  destruct Hevs as (evs & Hevs). by exists evs.
Qed.

(** What [read_native_scanlines] does once the selection has gone through
    and left the decoder in state [s1]. *)
Lemma read_native_scanlines_run ext s i miplevel ybegin yend z s1 :
  seek_subimage ext i miplevel s = Done true s1 ->
  exists buf,
    read_native_scanlines ext i miplevel ybegin yend z s
    = if m_rawcolor s1 then
        Done (match stream_bytes s1 i (scanline_block s1 ybegin yend) with
              | Some bytes => (true, Some bytes)
              | None => (false, None)
              end)
          (set_io_log (io_log s1 ++ [EvReadBlock i (scanline_block s1 ybegin yend)]) s1)
      else
        match stream_bytes s1 i (scanline_block s1 ybegin yend) with
        | None =>
            Done (false, None)
              (set_io_log (io_log s1 ++ [EvReadBlock i (scanline_block s1 ybegin yend)])
                 (set_m_decodebuf buf s1))
        | Some bytes =>
            Done (match ConvertToRGB ext (m_dpx_header s1) i bytes
                          (scanline_block s1 ybegin yend) with
                  | Some rgb => (true, Some rgb)
                  | None => (false, None)
                  end)
              (set_io_log
                 (io_log s1 ++ [EvReadBlock i (scanline_block s1 ybegin yend);
                                EvConvertToRGB i (scanline_block s1 ybegin yend)])
                 (set_m_decodebuf buf s1))
        end.
Proof.
  intros Hseek. unfold read_native_scanlines.
  rewrite (bind_run _ _ _ _ _ Hseek). cbn [negb].
  destruct s1 as [sub str hdr ubuf raw dbuf spec errs log].
  unfold ReadBlock, stream_bytes, scanline_block. run_monad.
  destruct raw; run_monad.
  - exists dbuf. by destruct (match str with Some f => _ | None => None end).
  - destruct (QueryRGBBufferSize ext hdr i _ >? 0); run_monad.
    all: destruct (match str with Some f => _ | None => None end) as [bytes|]; run_monad.
    all: try destruct (ConvertToRGB ext hdr i _ _).
    all: rewrite <- ?app_assoc; eexists; reflexivity.
Qed.

Lemma read_native_scanlines_not_selected ext s i miplevel ybegin yend z s1 :
  seek_subimage ext i miplevel s = Done false s1 ->
  read_native_scanlines ext i miplevel ybegin yend z s = Done (false, None) s1.
Proof.
  intros Hseek. unfold read_native_scanlines.
  by rewrite (bind_run _ _ _ _ _ Hseek).
Qed.

Lemma elem_of_block_reads_singleton i b e b' :
  (e, b') ∈ block_reads [EvReadBlock i b] -> e = i /\ b' = b.
Proof. cbn. intros H. apply list_elem_of_singleton in H. by injection H. Qed.

Lemma block_reads_app l1 l2 :
  block_reads (l1 ++ l2) = (block_reads l1 ++ block_reads l2)%list.
Proof. unfold block_reads. apply omap_app. Qed.

(** The blocks that a call of [read_native_scanlines] reads. *)
Lemma read_native_scanlines_events ext s i miplevel ybegin yend z :
  exists ok data s' evs,
    read_native_scanlines ext i miplevel ybegin yend z s = Done (ok, data) s'
    /\ io_log s' = (io_log s ++ evs)%list
    /\ (block_reads evs = []
        \/ block_reads evs = [(i, scanline_block s' ybegin yend)] /\ m_subimage s' = i)
    /\ (conversions evs <= length (block_reads evs))%nat
    /\ (ok = true -> length (block_reads evs) = 1%nat /\ is_Some data)
    /\ (ok = false -> data = None)
    /\ (forall s1, seek_subimage ext i miplevel s = Done false s1 ->
        s' = s1 /\ ok = false /\ block_reads evs = []).
Proof.
  destruct (seek_subimage_log ext s i miplevel)
    as (b & s1 & evs0 & Hseek & Hlog & Hblocks & Hconv & Hsub).
  destruct b.
  2: { exists false, None, s1, evs0.
       split; [by apply read_native_scanlines_not_selected|].
       split; [exact Hlog|]. rewrite Hblocks, Hconv.
       split; [by left|]. split; [done|]. split; [done|]. split; [done|].
       intros s2 Hs2. rewrite Hseek in Hs2. by injection Hs2 as <-. }
  destruct (read_native_scanlines_run ext s i miplevel ybegin yend z s1 Hseek)
    as (buf & Hread).
  specialize (Hsub eq_refl).
  assert (Hnot : forall s2 (P : Prop),
             seek_subimage ext i miplevel s = Done false s2 -> P).
  { intros s2 P Hs2. rewrite Hseek in Hs2. discriminate Hs2. }
  destruct (m_rawcolor s1).
  - destruct (stream_bytes s1 i _) as [bytes|] eqn:Hbytes.
    all: eexists _, _, _, (evs0 ++ [EvReadBlock i (scanline_block s1 ybegin yend)])%list.
    all: split; [exact Hread|].
    all: cbn [io_log set_io_log m_subimage m_spec m_dpx_header].
    all: rewrite Hlog, <- app_assoc, block_reads_app, conversions_app, Hblocks, Hconv.
    all: split; [done|]; split; [by right|]; split; [cbn; lia|].
    all: split; [intros Hok; try discriminate Hok; by split; [|eexists]|].
    all: split; [intros Hok; by try discriminate Hok | intros s2; apply Hnot].
  - destruct (stream_bytes s1 i _) as [bytes|] eqn:Hbytes.
    + destruct (ConvertToRGB ext _ _ _ _) as [rgb|].
      all: eexists _, _, _,
             (evs0 ++ [EvReadBlock i (scanline_block s1 ybegin yend);
                       EvConvertToRGB i (scanline_block s1 ybegin yend)])%list.
      all: split; [exact Hread|].
      all: cbn [io_log set_io_log set_m_decodebuf m_subimage m_spec m_dpx_header].
      all: rewrite Hlog, <- app_assoc, block_reads_app, conversions_app, Hblocks, Hconv.
      all: split; [done|]; split; [by right|]; split; [cbn; lia|].
      all: split; [intros Hok; try discriminate Hok; by split; [|eexists]|].
      all: split; [intros Hok; by try discriminate Hok | intros s2; apply Hnot].
    + eexists _, _, _, (evs0 ++ [EvReadBlock i (scanline_block s1 ybegin yend)])%list.
      split; [exact Hread|].
      cbn [io_log set_io_log set_m_decodebuf m_subimage m_spec m_dpx_header].
      rewrite Hlog, <- app_assoc, block_reads_app, conversions_app, Hblocks, Hconv.
      split; [done|]; split; [by right|]; split; [cbn; lia|].
      split; [intros Hok; discriminate Hok|].
      split; [done | intros s2; apply Hnot].
Qed.

(** X23.  A call of [read_native_scanlines] asks the stream for at most one
    block, and converts at most what it has read. The block it asks for is a
    block of whole rows of the element [i], from column 0 to the last column
    of the image, from row [ybegin] to row [yend - 1] counted from the
    origin of the spec, and [i] is the current subimage from then on,
    whether the read succeeds or not. A call that returns true has read one
    block and delivers data; one that returns false delivers none; and when
    the selection fails, nothing is read at all. *)
Theorem read_native_scanlines_blocks ext s i miplevel ybegin yend z :
  exists ok data s' evs,
    read_native_scanlines ext i miplevel ybegin yend z s = Done (ok, data) s'
    /\ io_log s' = (io_log s ++ evs)%list
    /\ (length (block_reads evs) <= 1)%nat
    /\ (conversions evs <= length (block_reads evs))%nat
    /\ (forall e b,
          (e, b) ∈ block_reads evs ->
          e = i /\ current_subimage s' = Done i s'
          /\ x1 b = 0 /\ x2 b = Header.Width (m_dpx_header s') - 1
          /\ y1 b = ybegin - ImageSpec.y (m_spec s')
          /\ y2 b = yend - 1 - ImageSpec.y (m_spec s')
          /\ y2 b - y1 b + 1 = yend - ybegin)
    /\ (ok = true -> length (block_reads evs) = 1%nat /\ is_Some data)
    /\ (ok = false -> data = None)
    /\ (forall s1,
          seek_subimage ext i miplevel s = Done false s1 ->
          s' = s1 /\ ok = false /\ block_reads evs = []).
Proof.
  destruct (read_native_scanlines_events ext s i miplevel ybegin yend z)
    as (ok & data & s' & evs & Hread & Hlog & Hblocks & Hconv & Hok & Hfail & Hseek).
  exists ok, data, s', evs.
  split; [exact Hread|]. split; [exact Hlog|].
  split; [destruct Hblocks as [-> | [-> _]]; cbn; lia|].
  split; [exact Hconv|].
  split; [|split; [exact Hok | split; [exact Hfail | exact Hseek]]].
  intros e b Hin. destruct Hblocks as [Hnil | [Hone Hsub]].
  - rewrite Hnil in Hin. by apply elem_of_nil in Hin.
  - rewrite Hone in Hin. apply list_elem_of_singleton in Hin.
    injection Hin as -> ->. unfold current_subimage. run_monad. rewrite Hsub.
    unfold scanline_block. cbn [x1 x2 y1 y2]. repeat split. lia.
Qed.

(** X24.  [read_native_scanline] reads the one row [y]: the block it asks of
    the stream begins and ends at that row. *)
Theorem read_native_scanline_single_row ext s i miplevel y z :
  exists ok data s' evs,
    read_native_scanline ext i miplevel y z s = Done (ok, data) s'
    /\ io_log s' = (io_log s ++ evs)%list
    /\ (length (block_reads evs) <= 1)%nat
    /\ (forall e b,
          (e, b) ∈ block_reads evs ->
          e = i /\ y1 b = y - ImageSpec.y (m_spec s') /\ y2 b = y1 b)
    /\ (ok = true -> length (block_reads evs) = 1%nat).
Proof.
  unfold read_native_scanline.
  destruct (read_native_scanlines_events ext s i miplevel y (y + 1) z)
    as (ok & data & s' & evs & Hread & Hlog & Hblocks & _ & Hok & _).
  exists ok, data, s', evs.
  split; [exact Hread|]. split; [exact Hlog|].
  split; [destruct Hblocks as [-> | [-> _]]; cbn; lia|].
  split; [|intros H; by apply Hok].
  intros e b Hin. destruct Hblocks as [Hnil | [Hone _]].
  - rewrite Hnil in Hin. by apply elem_of_nil in Hin.
  - rewrite Hone in Hin. apply list_elem_of_singleton in Hin.
    injection Hin as -> ->. unfold scanline_block. cbn [y1 y2]. repeat split. lia.
Qed.

(** X25.  Reading rows of the element that is already selected keeps the
    selection and its spec. With raw colour the caller gets the bytes of the
    block as the stream delivers them, with no conversion; without it, what
    [ConvertToRGB] makes of them. A block that the stream cannot deliver
    fails the call before any conversion is tried. *)
Theorem read_native_scanlines_data ext s f ybegin yend z :
  m_stream s = Some f ->
  exists ok data s',
    read_native_scanlines ext (m_subimage s) 0 ybegin yend z s = Done (ok, data) s'
    /\ data
       = (if m_rawcolor s
          then stream_block f (m_subimage s) (scanline_block s ybegin yend)
          else
            bytes ← stream_block f (m_subimage s) (scanline_block s ybegin yend);
            ConvertToRGB ext (m_dpx_header s) (m_subimage s) bytes
              (scanline_block s ybegin yend))
    /\ ok = bool_decide (is_Some data)
    /\ m_subimage s' = m_subimage s /\ m_spec s' = m_spec s
    /\ m_userBuf s' = m_userBuf s /\ m_rawcolor s' = m_rawcolor s
    /\ (m_rawcolor s = true ->
        io_log s'
        = (io_log s ++ [EvReadBlock (m_subimage s) (scanline_block s ybegin yend)])%list
        /\ m_decodebuf s' = m_decodebuf s)
    /\ (stream_block f (m_subimage s) (scanline_block s ybegin yend) = None ->
        ok = false /\ conversions (io_log s') = conversions (io_log s)).
Proof.
  intros Hf.
  destruct (read_native_scanlines_run ext s (m_subimage s) 0 ybegin yend z s
              (seek_subimage_same ext s)) as (buf & Hread).
  unfold stream_bytes in Hread. rewrite Hf in Hread.
  destruct (m_rawcolor s) eqn:Hraw.
  - destruct (stream_block f _ _) as [bytes|] eqn:Hbytes.
    all: eexists _, _, _; split; [exact Hread|].
    all: cbn [io_log set_io_log set_m_decodebuf m_subimage m_spec m_userBuf
              m_rawcolor m_decodebuf].
    all: repeat split; try done.
    all: by rewrite conversions_app, Nat.add_0_r.
  - destruct (stream_block f _ _) as [bytes|] eqn:Hbytes.
    + destruct (ConvertToRGB ext _ _ _ _) as [rgb|] eqn:Hrgb.
      all: eexists _, _, _; split; [exact Hread|].
      all: cbn [io_log set_io_log set_m_decodebuf m_subimage m_spec m_userBuf
                m_rawcolor m_decodebuf mbind option_bind].
      all: rewrite ?Hrgb; repeat split; done.
    + eexists _, _, _; split; [exact Hread|].
      cbn [io_log set_io_log set_m_decodebuf m_subimage m_spec m_userBuf
           m_rawcolor m_decodebuf mbind option_bind].
      repeat split; try done.
      by rewrite conversions_app, Nat.add_0_r.
Qed.

Lemma read_native_scanlines_data_witness :
  exists s',
    read_native_scanlines sample_ext 0 0 0 2 0 (sample_selected sample_header)
    = Done (true, Some [Byte.x2a; Byte.x2a]) s'
    /\ m_spec s' = m_spec (sample_selected sample_header).
Proof.
  destruct (read_native_scanlines_data sample_ext (sample_selected sample_header)
              (sample_stream_of sample_header) 0 2 0 ltac:(reflexivity))
    as (ok & data & s' & Hread & Hdata & Hok & _ & Hspec & _).
  exists s'. split; [|exact Hspec].
  change (m_subimage (sample_selected sample_header)) with 0 in Hread.
  rewrite Hread, Hok, Hdata. reflexivity.
Defined.

(** ** Closing and opening again *)

(** X26.  The user data buffer lives from [open] to [close]. Closing a
    decoder, in whatever state, and opening a file whose user size is
    neither 0 nor 0xFFFFFFFF reads the header and then the user data block,
    once more: the buffer that [close] emptied is filled from the new
    stream. *)
Theorem reopen_reads_user_data_again ext files name f h s :
  files name = Some f -> stream_header f = Some h -> selectable h 0 ->
  Header.UserSize h <> 0 -> Header.UserSize h <> 0xFFFFFFFF ->
  exists s',
    bind close (fun _ => open ext files name) s = Done (true, Some (m_spec s')) s'
    /\ io_log s'
       = (io_log s ++ [EvReadHeader; EvReadUserData (Header.UserSize h)])%list
    /\ user_data_reads (io_log s') = (user_data_reads (io_log s) + 1)%nat
    /\ m_userBuf s' = read_into (Z.to_nat (Header.UserSize h)) (stream_user_data f).
Proof.
  intros Hf Hh Hsel Hn0 Hnff.
  rewrite (bind_run _ _ _ _ _ (close_eq s)), (open_found _ _ _ _ _ Hf), Hh.
  set (s1 := set_m_dpx_header h (attached_state f (closed_state s))).
  destruct (seek_subimage_selectable ext s1 0)
    as (td & spec & _ & _ & Hseek); [cbn; lia | exact Hsel |].
  rewrite Hseek. eexists. split; [reflexivity|].
  assert (Hreads : reads_user_data s1 = true).
  { unfold reads_user_data. cbn.
    by rewrite (proj2 (Z.eqb_neq _ _) Hn0), (proj2 (Z.eqb_neq _ _) Hnff). }
  unfold selected_state. cbn [io_log m_userBuf]. rewrite Hreads.
  cbn [s1 io_log m_dpx_header set_m_dpx_header attached_state set_io_log
       set_m_stream closed_state m_stream m_userBuf ReadUserData].
  rewrite <- app_assoc. split; [done|]. split; [|done].
  by rewrite user_data_reads_app.
Qed.

Lemma reopen_reads_user_data_again_witness :
  exists s',
    bind close (fun _ => open sample_ext (sample_files sample_header) "sample.dpx")
      (sample_selected sample_header) = Done (true, Some (m_spec s')) s'
    /\ user_data_reads (io_log s') = 2%nat.
Proof.
  destruct (reopen_reads_user_data_again sample_ext (sample_files sample_header)
              "sample.dpx" (sample_stream_of sample_header) sample_header
              (sample_selected sample_header)
              ltac:(reflexivity) ltac:(reflexivity) ltac:(by_evaluation)
              ltac:(by_evaluation) ltac:(by_evaluation))
    as (s' & Hopen & _ & Hreads & _).
  exists s'. split; [exact Hopen|]. rewrite Hreads. reflexivity.
Defined.

(** ** Time code strings are told apart *)

Lemma two_digits_inj a b :
  0 <= a <= 99 -> 0 <= b <= 99 -> two_digits a = two_digits b -> a = b.
Proof.
  intros Ha Hb Heq.
  assert (Hall : forallb (fun x => forallb (fun y =>
                   implb (String.eqb (two_digits x) (two_digits y)) (x =? y))
                   (seqZ 0 100)) (seqZ 0 100) = true) by (vm_compute; reflexivity).
  rewrite forallb_forall in Hall.
  specialize (Hall a). rewrite forallb_forall in Hall.
  assert (Hina : In a (seqZ 0 100)) by (apply list_elem_of_In, elem_of_seqZ; lia).
  assert (Hinb : In b (seqZ 0 100)) by (apply list_elem_of_In, elem_of_seqZ; lia).
  specialize (Hall Hina b Hinb).
  rewrite (proj2 (String.eqb_eq _ _) Heq) in Hall. cbn in Hall.
  by apply Z.eqb_eq.
Qed.

(** X27.  Two time codes whose fields are below 100 and whose strings are
    equal are the same time code: the string can be read back. *)
Theorem get_timecode_string_inj (tc1 tc2 : TimeCode) :
  0 <= hours tc1 <= 99 -> 0 <= minutes tc1 <= 99 ->
  0 <= seconds tc1 <= 99 -> 0 <= frame tc1 <= 99 ->
  0 <= hours tc2 <= 99 -> 0 <= minutes tc2 <= 99 ->
  0 <= seconds tc2 <= 99 -> 0 <= frame tc2 <= 99 ->
  get_timecode_string tc1 = get_timecode_string tc2 -> tc1 = tc2.
Proof.
  intros Hh1 Hm1 Hs1 Hf1 Hh2 Hm2 Hs2 Hf2. unfold get_timecode_string.
  rewrite !fmt_02d_two_digits by done.
  destruct tc1 as [h1 m1 s1 f1 d1], tc2 as [h2 m2 s2 f2 d2]. cbn in *.
  intros Heq.
  injection Heq as Hha Hhb Hma Hmb Hsa Hsb Hsep Hfa Hfb.
  assert (h1 = h2) by (apply two_digits_inj; try done; unfold two_digits; congruence).
  assert (m1 = m2) by (apply two_digits_inj; try done; unfold two_digits; congruence).
  assert (s1 = s2) by (apply two_digits_inj; try done; unfold two_digits; congruence).
  assert (f1 = f2) by (apply two_digits_inj; try done; unfold two_digits; congruence).
  assert (d1 = d2) by (destruct d1, d2; try done; discriminate Hsep).
  congruence.
Qed.

Lemma get_timecode_string_inj_witness :
  Build_TimeCode 23 59 7 0 true = Build_TimeCode 23 59 7 0 true.
Proof.
  exact (get_timecode_string_inj (Build_TimeCode 23 59 7 0 true)
           (Build_TimeCode 23 59 7 0 true)
           ltac:(cbn; lia) ltac:(cbn; lia) ltac:(cbn; lia) ltac:(cbn; lia)
           ltac:(cbn; lia) ltac:(cbn; lia) ltac:(cbn; lia) ltac:(cbn; lia)
           ltac:(reflexivity)).
Defined.
